(** * Camera Trap Metadata Editor: a shallow embedding of [static/js/app.js]

    The browser client is one class, [CameraTrapApp], whose methods mutate
    the fields of [this] and the DOM elements looked up in
    [initializeElements].  The embedding keeps that shape:

    - the object and the DOM properties the methods touch form one record,
      [App]; a method is a function [App -> App], and one that an exception
      can leave returns a [Completion]: the state it ends in and the
      exception, if any;
    - what a method does to the outside (requests, alerts, console
      output, timers) is appended to the [log] of the record;
    - what the outside answers (server responses, the clock, layout
      rectangles) is read from a [World], indexed by a counter [tick] of the
      reads made so far, so that the same request may be answered
      differently over time;
    - an [async] method runs to completion: the interleaving of two handlers
      at an [await] is outside the model.

    Strings are sequences of UTF-16 code units, as in JavaScript, so that
    [length], [slice] and [trim] count what the source counts.  Pointer
    coordinates, layout rectangles and image sizes are Numbers: IEEE 754
    doubles, here the primitive floats of Rocq, whose operations round as
    those of JavaScript do. *)

From Stdlib Require Import ZArith List Ascii String DecimalString Lia.
From Stdlib Require Import FloatClass PrimFloat SpecFloat FloatOps FloatAxioms.
From stdpp Require Import base decidable list gmap.

Local Open Scope Z_scope.

(** ** JavaScript strings *)

Definition jsstring : Type := list N.

(** The code units of an ASCII literal. *)
Fixpoint js (s : string) : jsstring :=
  match s with
  | EmptyString => []
  | String a r => N_of_ascii a :: js r
  end.

(** Truthiness of a string value: only [''] is falsy. *)
Definition truthy (s : jsstring) : bool :=
  match s with [] => false | _ :: _ => true end.

(** A property that may be absent ([undefined]); [undefined] is falsy. *)
Definition truthy_opt (o : option jsstring) : bool :=
  match o with Some s => truthy s | None => false end.

(** An absent property printed inside a template literal. *)
Definition show (o : option jsstring) : jsstring :=
  match o with Some s => s | None => js "undefined" end.

(** [Number.prototype.toString] on an integer. *)
Definition Z_toString (z : Z) : jsstring :=
  js (NilZero.string_of_int (Z.to_int z)).

(** [String.prototype.trim] strips WhiteSpace and LineTerminator code
    points from both ends. *)
Definition isWhiteSpace (c : N) : bool :=
  existsb (N.eqb c)
    [9; 10; 11; 12; 13; 32; 160; 5760;
     8192; 8193; 8194; 8195; 8196; 8197; 8198; 8199; 8200; 8201; 8202;
     8232; 8233; 8239; 8287; 12288; 65279]%N.

Fixpoint trimStart (s : jsstring) : jsstring :=
  match s with
  | c :: r => if isWhiteSpace c then trimStart r else s
  | [] => []
  end.

Definition trimEnd (s : jsstring) : jsstring := rev (trimStart (rev s)).

Definition trim (s : jsstring) : jsstring := trimEnd (trimStart s).

(** [String.prototype.toLowerCase], on the Basic Latin and Latin-1 ranges;
    other code units are left as they are.  The only use in the source
    compares the result with three all-ASCII names. *)
Definition lowerUnit (c : N) : N :=
  if ((65 <=? c) && (c <=? 90))%N then (c + 32)%N
  else if ((192 <=? c) && (c <=? 222) && negb (c =? 215))%N then (c + 32)%N
  else c.

Definition toLowerCase (s : jsstring) : jsstring := map lowerUnit s.

(** [Array.prototype.includes] on an array of strings. *)
Definition includes (l : list jsstring) (x : jsstring) : bool :=
  bool_decide (x ∈ l).

(** [Array.prototype.join]. *)
Fixpoint join (sep : jsstring) (l : list jsstring) : jsstring :=
  match l with
  | [] => []
  | [x] => x
  | x :: r => x ++ sep ++ join sep r
  end.

(** [s.slice(-n)]: the last [n] code units, the whole string when it is
    shorter. *)
Definition slice_last (n : nat) (s : jsstring) : jsstring :=
  drop (length s - n) s.

(** Assigning to the [value] of a text [input] runs the value sanitisation
    of the element: line feeds and carriage returns are stripped. *)
Definition sanitize (s : jsstring) : jsstring :=
  filter (fun c => c ≠ 10%N ∧ c ≠ 13%N) s.

(** ** JavaScript numbers of the selection geometry

    A Number is an IEEE 754 double.  [-], [*], [/] and [<] are the
    operations [sub], [mul], [div] and [ltb] of the primitive floats; a
    division by a zero client size yields an infinity or [NaN] there as it
    does in the source. *)

Definition is_pzero (n : float) : bool :=
  match classify n with PZero => true | _ => false end.

Definition is_nzero (n : float) : bool :=
  match classify n with NZero => true | _ => false end.

(** [Math.abs(n)] *)
Definition Math_abs (n : float) : float := abs n.

(** [Math.min(a, b)]: [NaN] when an argument is [NaN]; [-0] is smaller
    than [+0]. *)
Definition Math_min (a b : float) : float :=
  if is_nan a || is_nan b then nan
  else if ltb b a || (is_nzero b && is_pzero a) then b
  else a.

(** [Math.max(a, b)]: [NaN] when an argument is [NaN]; [+0] is larger
    than [-0]. *)
Definition Math_max (a b : float) : float :=
  if is_nan a || is_nan b then nan
  else if ltb a b || (is_pzero b && is_nzero a) then b
  else a.

(** ** Data exchanged with the server *)

(** A JSON object with string values, in the order [Object.entries]
    enumerates it; keys are own properties, each at most once. *)
Definition Metadata : Type := list (jsstring * jsstring).

(** [m[k]] *)
Fixpoint get (k : jsstring) (m : Metadata) : option jsstring :=
  match m with
  | [] => None
  | (k', v) :: r => if decide (k' = k) then Some v else get k r
  end.

(** [Object.prototype.hasOwnProperty] applied to [m] and [k]: [k] is an
    own property of [m]. *)
Definition hasOwnProperty (m : Metadata) (k : jsstring) : bool :=
  bool_decide (k ∈ m.*1).

(** The call [m.hasOwnProperty(k)] of the source.  The method is looked up
    on [m] itself first: when [m] has an own property named
    [hasOwnProperty], its value, a string, is what gets called, and the call
    throws a TypeError ([None]); otherwise the method of [Object.prototype]
    answers. *)
Definition hasOwnProperty_call (m : Metadata) (k : jsstring) : option bool :=
  if hasOwnProperty m (js "hasOwnProperty") then None
  else Some (hasOwnProperty m k).

(** [delete m[k]] *)
Definition delete_key (k : jsstring) (m : Metadata) : Metadata :=
  filter (fun kv => kv.1 ≠ k) m.

(** [Object.keys(m)] *)
Definition keys (m : Metadata) : list jsstring := m.*1.

(** The outcome of [await fetch(...)] followed by [await response.json()]:
    either of them throws, or a value of the expected shape arrives. *)
Inductive Fetched (A : Type) : Type :=
| Threw (message : jsstring)
| Got (a : A).
Arguments Threw {A} message.
Arguments Got {A} a.

Record Item : Type := {
  it_name : jsstring;
  it_path : jsstring;
  it_type : jsstring;
  is_dir : bool;
  image_count : option Z
}.

Record BrowseResult : Type := {
  br_success : bool;
  current_path : jsstring;
  items : list Item;
  br_error : option jsstring
}.

Record LoadFolderResult : Type := {
  lf_success : bool;
  count : Z;
  lf_error : option jsstring
}.

Record ImageData : Type := {
  img_error : option jsstring;
  filename : jsstring;
  dimensions : jsstring;
  size_mb : jsstring;
  index : Z;
  total : Z;
  metadata : option Metadata
}.

Record SaveResult : Type := {
  sv_success : bool;
  sv_message : option jsstring;
  sv_error : option jsstring
}.

Record FooterResult : Type := {
  ft_success : bool;
  footer_metadata : Metadata;
  ft_error : option jsstring
}.

Record Identification : Type := {
  species : option jsstring;
  id_count : option Z;
  confidence : option jsstring;
  scientific_name : option jsstring;
  habitat : option jsstring;
  description : option jsstring
}.

Record IdentifyResult : Type := {
  id_success : bool;
  identification : Identification;
  id_error : option jsstring
}.

(** ** Selection geometry *)

Record Point : Type := { pt_x : float; pt_y : float }.

Record Rect : Type := { x : float; y : float; width : float; height : float }.

(** What the handlers assign to the inline style of [selectionBox]: the
    keyword given to [display], and for each length the Number [n] of the
    string [n + 'px'] assigned last. *)
Record BoxStyle : Type := {
  display : jsstring;
  box_left : float;
  box_top : float;
  box_width : float;
  box_height : float
}.

(** What a mouse event carries, and the layout read by the handler:
    [getBoundingClientRect()] of the wrapper and of the image, and the
    natural and client sizes of the image. *)
Record MouseEvent : Type := { clientX : float; clientY : float }.

Record Layout : Type := {
  wrapperRect_left : float;
  wrapperRect_top : float;
  imageRect_left : float;
  imageRect_top : float;
  naturalWidth : float;
  naturalHeight : float;
  clientWidth : float;
  clientHeight : float
}.

(** ** Effects and the outside world *)

Inductive Request : Type :=
| GetBrowseFolders (path : option jsstring)
| PostLoadFolder (folder_path : jsstring)
| GetImage (i : Z)
| PostSaveMetadata (i : Z) (payload : gmap jsstring jsstring)
| GetExtractFooter (i : Z)
| PostIdentifySpecies (image_index : Z) (selection : Rect).

Inductive Effect : Type :=
| Fetch (r : Request)
| Alert (message : jsstring)
| ConsoleLog (message : jsstring)
| SetTimeout (ms : Z) (originalText : jsstring)
| Focus
| Uncaught (message : jsstring).  (* an exception no handler caught *)

Record World : Type := {
  browse_folders : nat -> option jsstring -> Fetched BrowseResult;
  load_folder : nat -> jsstring -> Fetched LoadFolderResult;
  image : nat -> Z -> Fetched ImageData;
  save_metadata : nat -> Z -> gmap jsstring jsstring -> Fetched SaveResult;
  extract_footer : nat -> Z -> Fetched FooterResult;
  identify_species : nat -> Z -> Rect -> Fetched IdentifyResult;
  getTime : nat -> Z;
  toLocaleTimeString : nat -> jsstring;
  (* the [message] the engine gives to the TypeError of a call whose callee
     is not a function, and to the URIError of [encodeURIComponent] *)
  not_a_function : jsstring;
  uri_malformed : jsstring
}.

(** ** The application state *)

(** The elements of [initializeElements] whose properties the methods set. *)
Inductive Elem : Type :=
| selectedPath | loadFolderBtn | mainContent | welcomeMessage
| currentImage | imageWrapper | imageInfo | imageCounter | selectionInfo
| firstBtn | prevBtn | nextBtn | lastBtn | identifyBtn
| saveBtn | debugOutput
| folderBrowserModal | currentPath | selectFolderBtn
| addFieldModal | fieldName | fieldValue.

Inductive Class : Type := hidden | active | selecting.

#[global] Instance Elem_eq_dec : EqDecision Elem.
Proof. solve_decision. Defined.

#[global] Instance Class_eq_dec : EqDecision Class.
Proof. solve_decision. Defined.

(** One [div.metadata-field] of the form: the [input] with its
    [dataset.field], [value] and [readOnly], and whether a
    [button.delete-field] was attached. *)
Record FieldDiv : Type := {
  label : jsstring;
  value : jsstring;
  readOnly : bool;
  deleteBtn : bool
}.

(** One [div.folder-item] of the browser tree. *)
Record FolderItemDiv : Type := {
  item : Item;
  icon : jsstring;
  image_count_text : option jsstring;
  selected : bool
}.

Record App : Type := {
  (* fields of [this] *)
  currentIndex : Z;
  totalImages : Z;
  currentMetadata : Metadata;
  debugBuffer : jsstring;
  isSelecting : bool;
  selectionStart : option Point;
  currentSelection : option Rect;
  currentBrowserPath : option jsstring;
  selectedFolderPath : option jsstring;
  (* properties of the elements *)
  disabled : Elem -> bool;
  classList : Elem -> Class -> bool;
  text : Elem -> jsstring;  (* [textContent], [value] or [src] *)
  saveBtnBackground : jsstring;
  selectionBox : BoxStyle;
  metadataContainer : list FieldDiv;
  folderTree : list FolderItemDiv;
  (* reads of the world so far, effects so far *)
  tick : nat;
  log : list Effect
}.

(** *** Record update *)

Definition set_currentIndex (v : Z) (s : App) : App :=
  {| currentIndex := v; totalImages := totalImages s;
     currentMetadata := currentMetadata s; debugBuffer := debugBuffer s;
     isSelecting := isSelecting s; selectionStart := selectionStart s;
     currentSelection := currentSelection s;
     currentBrowserPath := currentBrowserPath s;
     selectedFolderPath := selectedFolderPath s; disabled := disabled s;
     classList := classList s; text := text s;
     saveBtnBackground := saveBtnBackground s;
     selectionBox := selectionBox s;
     metadataContainer := metadataContainer s; folderTree := folderTree s;
     tick := tick s; log := log s |}.

Definition set_totalImages (v : Z) (s : App) : App :=
  {| currentIndex := currentIndex s; totalImages := v;
     currentMetadata := currentMetadata s; debugBuffer := debugBuffer s;
     isSelecting := isSelecting s; selectionStart := selectionStart s;
     currentSelection := currentSelection s;
     currentBrowserPath := currentBrowserPath s;
     selectedFolderPath := selectedFolderPath s; disabled := disabled s;
     classList := classList s; text := text s;
     saveBtnBackground := saveBtnBackground s;
     selectionBox := selectionBox s;
     metadataContainer := metadataContainer s; folderTree := folderTree s;
     tick := tick s; log := log s |}.

Definition set_currentMetadata (v : Metadata) (s : App) : App :=
  {| currentIndex := currentIndex s; totalImages := totalImages s;
     currentMetadata := v; debugBuffer := debugBuffer s;
     isSelecting := isSelecting s; selectionStart := selectionStart s;
     currentSelection := currentSelection s;
     currentBrowserPath := currentBrowserPath s;
     selectedFolderPath := selectedFolderPath s; disabled := disabled s;
     classList := classList s; text := text s;
     saveBtnBackground := saveBtnBackground s;
     selectionBox := selectionBox s;
     metadataContainer := metadataContainer s; folderTree := folderTree s;
     tick := tick s; log := log s |}.

Definition set_debugBuffer (v : jsstring) (s : App) : App :=
  {| currentIndex := currentIndex s; totalImages := totalImages s;
     currentMetadata := currentMetadata s; debugBuffer := v;
     isSelecting := isSelecting s; selectionStart := selectionStart s;
     currentSelection := currentSelection s;
     currentBrowserPath := currentBrowserPath s;
     selectedFolderPath := selectedFolderPath s; disabled := disabled s;
     classList := classList s; text := text s;
     saveBtnBackground := saveBtnBackground s;
     selectionBox := selectionBox s;
     metadataContainer := metadataContainer s; folderTree := folderTree s;
     tick := tick s; log := log s |}.

Definition set_isSelecting (v : bool) (s : App) : App :=
  {| currentIndex := currentIndex s; totalImages := totalImages s;
     currentMetadata := currentMetadata s; debugBuffer := debugBuffer s;
     isSelecting := v; selectionStart := selectionStart s;
     currentSelection := currentSelection s;
     currentBrowserPath := currentBrowserPath s;
     selectedFolderPath := selectedFolderPath s; disabled := disabled s;
     classList := classList s; text := text s;
     saveBtnBackground := saveBtnBackground s;
     selectionBox := selectionBox s;
     metadataContainer := metadataContainer s; folderTree := folderTree s;
     tick := tick s; log := log s |}.

Definition set_selectionStart (v : option Point) (s : App) : App :=
  {| currentIndex := currentIndex s; totalImages := totalImages s;
     currentMetadata := currentMetadata s; debugBuffer := debugBuffer s;
     isSelecting := isSelecting s; selectionStart := v;
     currentSelection := currentSelection s;
     currentBrowserPath := currentBrowserPath s;
     selectedFolderPath := selectedFolderPath s; disabled := disabled s;
     classList := classList s; text := text s;
     saveBtnBackground := saveBtnBackground s;
     selectionBox := selectionBox s;
     metadataContainer := metadataContainer s; folderTree := folderTree s;
     tick := tick s; log := log s |}.

Definition set_currentSelection (v : option Rect) (s : App) : App :=
  {| currentIndex := currentIndex s; totalImages := totalImages s;
     currentMetadata := currentMetadata s; debugBuffer := debugBuffer s;
     isSelecting := isSelecting s; selectionStart := selectionStart s;
     currentSelection := v; currentBrowserPath := currentBrowserPath s;
     selectedFolderPath := selectedFolderPath s; disabled := disabled s;
     classList := classList s; text := text s;
     saveBtnBackground := saveBtnBackground s;
     selectionBox := selectionBox s;
     metadataContainer := metadataContainer s; folderTree := folderTree s;
     tick := tick s; log := log s |}.

Definition set_currentBrowserPath (v : option jsstring) (s : App) : App :=
  {| currentIndex := currentIndex s; totalImages := totalImages s;
     currentMetadata := currentMetadata s; debugBuffer := debugBuffer s;
     isSelecting := isSelecting s; selectionStart := selectionStart s;
     currentSelection := currentSelection s; currentBrowserPath := v;
     selectedFolderPath := selectedFolderPath s; disabled := disabled s;
     classList := classList s; text := text s;
     saveBtnBackground := saveBtnBackground s;
     selectionBox := selectionBox s;
     metadataContainer := metadataContainer s; folderTree := folderTree s;
     tick := tick s; log := log s |}.

Definition set_selectedFolderPath (v : option jsstring) (s : App) : App :=
  {| currentIndex := currentIndex s; totalImages := totalImages s;
     currentMetadata := currentMetadata s; debugBuffer := debugBuffer s;
     isSelecting := isSelecting s; selectionStart := selectionStart s;
     currentSelection := currentSelection s;
     currentBrowserPath := currentBrowserPath s; selectedFolderPath := v;
     disabled := disabled s; classList := classList s; text := text s;
     saveBtnBackground := saveBtnBackground s;
     selectionBox := selectionBox s;
     metadataContainer := metadataContainer s; folderTree := folderTree s;
     tick := tick s; log := log s |}.

Definition set_disabled (v : Elem -> bool) (s : App) : App :=
  {| currentIndex := currentIndex s; totalImages := totalImages s;
     currentMetadata := currentMetadata s; debugBuffer := debugBuffer s;
     isSelecting := isSelecting s; selectionStart := selectionStart s;
     currentSelection := currentSelection s;
     currentBrowserPath := currentBrowserPath s;
     selectedFolderPath := selectedFolderPath s; disabled := v;
     classList := classList s; text := text s;
     saveBtnBackground := saveBtnBackground s;
     selectionBox := selectionBox s;
     metadataContainer := metadataContainer s; folderTree := folderTree s;
     tick := tick s; log := log s |}.

Definition set_classList (v : Elem -> Class -> bool) (s : App) : App :=
  {| currentIndex := currentIndex s; totalImages := totalImages s;
     currentMetadata := currentMetadata s; debugBuffer := debugBuffer s;
     isSelecting := isSelecting s; selectionStart := selectionStart s;
     currentSelection := currentSelection s;
     currentBrowserPath := currentBrowserPath s;
     selectedFolderPath := selectedFolderPath s; disabled := disabled s;
     classList := v; text := text s;
     saveBtnBackground := saveBtnBackground s;
     selectionBox := selectionBox s;
     metadataContainer := metadataContainer s; folderTree := folderTree s;
     tick := tick s; log := log s |}.

Definition set_text (v : Elem -> jsstring) (s : App) : App :=
  {| currentIndex := currentIndex s; totalImages := totalImages s;
     currentMetadata := currentMetadata s; debugBuffer := debugBuffer s;
     isSelecting := isSelecting s; selectionStart := selectionStart s;
     currentSelection := currentSelection s;
     currentBrowserPath := currentBrowserPath s;
     selectedFolderPath := selectedFolderPath s; disabled := disabled s;
     classList := classList s; text := v;
     saveBtnBackground := saveBtnBackground s;
     selectionBox := selectionBox s;
     metadataContainer := metadataContainer s; folderTree := folderTree s;
     tick := tick s; log := log s |}.

Definition set_saveBtnBackground (v : jsstring) (s : App) : App :=
  {| currentIndex := currentIndex s; totalImages := totalImages s;
     currentMetadata := currentMetadata s; debugBuffer := debugBuffer s;
     isSelecting := isSelecting s; selectionStart := selectionStart s;
     currentSelection := currentSelection s;
     currentBrowserPath := currentBrowserPath s;
     selectedFolderPath := selectedFolderPath s; disabled := disabled s;
     classList := classList s; text := text s; saveBtnBackground := v;
     selectionBox := selectionBox s;
     metadataContainer := metadataContainer s; folderTree := folderTree s;
     tick := tick s; log := log s |}.

Definition set_selectionBox (v : BoxStyle) (s : App) : App :=
  {| currentIndex := currentIndex s; totalImages := totalImages s;
     currentMetadata := currentMetadata s; debugBuffer := debugBuffer s;
     isSelecting := isSelecting s; selectionStart := selectionStart s;
     currentSelection := currentSelection s;
     currentBrowserPath := currentBrowserPath s;
     selectedFolderPath := selectedFolderPath s; disabled := disabled s;
     classList := classList s; text := text s;
     saveBtnBackground := saveBtnBackground s; selectionBox := v;
     metadataContainer := metadataContainer s; folderTree := folderTree s;
     tick := tick s; log := log s |}.

Definition set_metadataContainer (v : list FieldDiv) (s : App) : App :=
  {| currentIndex := currentIndex s; totalImages := totalImages s;
     currentMetadata := currentMetadata s; debugBuffer := debugBuffer s;
     isSelecting := isSelecting s; selectionStart := selectionStart s;
     currentSelection := currentSelection s;
     currentBrowserPath := currentBrowserPath s;
     selectedFolderPath := selectedFolderPath s; disabled := disabled s;
     classList := classList s; text := text s;
     saveBtnBackground := saveBtnBackground s;
     selectionBox := selectionBox s; metadataContainer := v;
     folderTree := folderTree s; tick := tick s; log := log s |}.

Definition set_folderTree (v : list FolderItemDiv) (s : App) : App :=
  {| currentIndex := currentIndex s; totalImages := totalImages s;
     currentMetadata := currentMetadata s; debugBuffer := debugBuffer s;
     isSelecting := isSelecting s; selectionStart := selectionStart s;
     currentSelection := currentSelection s;
     currentBrowserPath := currentBrowserPath s;
     selectedFolderPath := selectedFolderPath s; disabled := disabled s;
     classList := classList s; text := text s;
     saveBtnBackground := saveBtnBackground s;
     selectionBox := selectionBox s;
     metadataContainer := metadataContainer s; folderTree := v;
     tick := tick s; log := log s |}.

Definition set_tick (v : nat) (s : App) : App :=
  {| currentIndex := currentIndex s; totalImages := totalImages s;
     currentMetadata := currentMetadata s; debugBuffer := debugBuffer s;
     isSelecting := isSelecting s; selectionStart := selectionStart s;
     currentSelection := currentSelection s;
     currentBrowserPath := currentBrowserPath s;
     selectedFolderPath := selectedFolderPath s; disabled := disabled s;
     classList := classList s; text := text s;
     saveBtnBackground := saveBtnBackground s;
     selectionBox := selectionBox s;
     metadataContainer := metadataContainer s; folderTree := folderTree s;
     tick := v; log := log s |}.

Definition set_log (v : list Effect) (s : App) : App :=
  {| currentIndex := currentIndex s; totalImages := totalImages s;
     currentMetadata := currentMetadata s; debugBuffer := debugBuffer s;
     isSelecting := isSelecting s; selectionStart := selectionStart s;
     currentSelection := currentSelection s;
     currentBrowserPath := currentBrowserPath s;
     selectedFolderPath := selectedFolderPath s; disabled := disabled s;
     classList := classList s; text := text s;
     saveBtnBackground := saveBtnBackground s;
     selectionBox := selectionBox s;
     metadataContainer := metadataContainer s; folderTree := folderTree s;
     tick := tick s; log := v |}.

(** *** Element properties and effects *)

Definition upd {A B : Type} `{EqDecision A} (f : A -> B) (a : A) (b : B) : A -> B :=
  fun a' => if decide (a' = a) then b else f a'.

Definition setDisabled (e : Elem) (b : bool) (s : App) : App :=
  set_disabled (upd (disabled s) e b) s.

Definition setText (e : Elem) (t : jsstring) (s : App) : App :=
  set_text (upd (text s) e t) s.

Definition classList_add (e : Elem) (c : Class) (s : App) : App :=
  set_classList (upd (classList s) e (upd (classList s e) c true)) s.

Definition classList_remove (e : Elem) (c : Class) (s : App) : App :=
  set_classList (upd (classList s) e (upd (classList s e) c false)) s.

Definition alert (message : jsstring) (s : App) : App :=
  set_log (log s ++ [Alert message]) s.

Definition console_log (message : jsstring) (s : App) : App :=
  set_log (log s ++ [ConsoleLog message]) s.

Definition effect (e : Effect) (s : App) : App :=
  set_log (log s ++ [e]) s.

(** One read of the world. *)
Definition next_tick (s : App) : App := set_tick (S (tick s)) s.

(** A request leaves; its answer is the world's at the current tick. *)
Definition fetch (r : Request) (s : App) : App :=
  next_tick (effect (Fetch r) s).

(** *** Exceptions *)

(** How a call that may throw ends: the state it leaves, and the [message]
    of the exception when it ended by one. *)
Record Completion : Type := {
  state : App;
  thrown : option jsstring
}.

Definition Normal (s : App) : Completion := {| state := s; thrown := None |}.

Definition Throw (message : jsstring) (s : App) : Completion :=
  {| state := s; thrown := Some message |}.

(** An exception that leaves a listener is reported by the browser; the
    listener has ended where it was thrown. *)
Definition uncaught (c : Completion) : App :=
  match thrown c with
  | Some message => effect (Uncaught message) (state c)
  | None => state c
  end.

(** [encodeURIComponent] throws a URIError on a string that is not
    well-formed UTF-16, that is, has a surrogate code unit outside a pair. *)
Definition isLeadingSurrogate (c : N) : bool := ((55296 <=? c) && (c <=? 56319))%N.

Definition isTrailingSurrogate (c : N) : bool := ((56320 <=? c) && (c <=? 57343))%N.

Fixpoint isWellFormed (s : jsstring) : bool :=
  match s with
  | [] => true
  | c :: r =>
      if isLeadingSurrogate c then
        match r with
        | d :: r' => isTrailingSurrogate d && isWellFormed r'
        | [] => false
        end
      else if isTrailingSurrogate c then false
      else isWellFormed r
  end.

(** ** The methods of [CameraTrapApp] *)

(** [constructor] with the field initialisations of [initializeElements];
    the element properties are those of the page it runs on. *)
Definition constructor (page : App) : App :=
  let s := set_currentIndex 0 page in
  let s := set_totalImages 0 s in
  let s := set_currentMetadata [] s in
  let s := set_debugBuffer [] s in
  let s := set_isSelecting false s in
  let s := set_selectionStart None s in
  let s := set_currentSelection None s in
  let s := set_currentBrowserPath None s in
  set_selectedFolderPath None s.

(** *** Folder browser *)

Definition hideFolderBrowser (s : App) : App :=
  let s := classList_add folderBrowserModal hidden s in
  let s := set_selectedFolderPath None s in
  setDisabled selectFolderBtn true s.

Definition folder_icon (it : Item) : jsstring :=
  if bool_decide (it_type it = js "parent") then [8624%N]
  else if is_dir it then [55357; 56513]%N
  else [55357; 56764; 65039]%N.

Definition folder_count (it : Item) : option jsstring :=
  match image_count it with
  | Some n =>
      if is_dir it && negb (bool_decide (it_type it = js "parent")) then
        Some (if n =? 0 then js "empty" else Z_toString n ++ js " images")
      else None
  | None => None
  end.

Definition displayFolderTree (its : list Item) (s : App) : App :=
  set_folderTree
    (map (fun it => {| item := it; icon := folder_icon it;
                       image_count_text := folder_count it;
                       selected := false |}) its) s.

Definition browseTo (w : World) (path : option jsstring) (s : App) : App :=
  let query := if truthy_opt path then path else None in
  if negb (from_option isWellFormed true query)
  then (* [encodeURIComponent(path)] throws, inside the [try] *)
    alert (js "Error: " ++ uri_malformed w) s
  else
    let response := browse_folders w (tick s) query in
    let s := fetch (GetBrowseFolders query) s in
    match response with
    | Got result =>
        if br_success result then
          let s := set_currentBrowserPath (Some (current_path result)) s in
          let s := setText currentPath (current_path result) s in
          displayFolderTree (items result) s
        else alert (js "Error browsing folders: " ++ show (br_error result)) s
    | Threw message => alert (js "Error: " ++ message) s
    end.

Definition showFolderBrowser (w : World) (s : App) : App :=
  let s := classList_remove folderBrowserModal hidden s in
  browseTo w None s.

Definition select_item (n : nat) (tree : list FolderItemDiv) : list FolderItemDiv :=
  imap (fun i d => {| item := item d; icon := icon d;
                      image_count_text := image_count_text d;
                      selected := bool_decide (i = n) |}) tree.

Definition selectFolder (n : nat) (path : jsstring) (s : App) : App :=
  let s := set_folderTree (select_item n (folderTree s)) s in
  let s := set_selectedFolderPath (Some path) s in
  setDisabled selectFolderBtn false s.

Definition selectCurrentFolder (s : App) : App :=
  match selectedFolderPath s with
  | Some p =>
      if truthy p then
        let s := setText selectedPath p s in
        let s := setDisabled loadFolderBtn false s in
        hideFolderBrowser s
      else s
  | None => s
  end.

(** The [click] and [dblclick] listeners attached to the [n]-th item. *)
Definition click_folderItem (w : World) (n : nat) (s : App) : App :=
  match folderTree s !! n with
  | Some d =>
      if is_dir (item d) then
        if bool_decide (it_type (item d) = js "parent")
        then browseTo w (Some (it_path (item d))) s
        else selectFolder n (it_path (item d)) s
      else s
  | None => s
  end.

Definition dblclick_folderItem (w : World) (n : nat) (s : App) : App :=
  match folderTree s !! n with
  | Some d =>
      if is_dir (item d) then browseTo w (Some (it_path (item d))) s else s
  | None => s
  end.

(** *** Debug log *)

(** The template [`[${timestamp}] ${message}\n`]. *)
Definition formattedMessage (timestamp message : jsstring) : jsstring :=
  js "[" ++ timestamp ++ js "] " ++ message ++ [10%N].

Definition addDebugOutput (w : World) (message : jsstring) (s : App) : App :=
  let timestamp := toLocaleTimeString w (tick s) in
  let s := next_tick s in
  let s := set_debugBuffer (debugBuffer s ++ formattedMessage timestamp message) s in
  let s :=
    if (500 <? length (debugBuffer s))%nat
    then set_debugBuffer (slice_last 500 (debugBuffer s)) s
    else s in
  setText debugOutput (debugBuffer s) s.

(** *** Metadata form *)

Definition readonlyFields : list jsstring :=
  [js "filename"; js "size_mb"; js "dimensions"].

(** The list is written out twice in the source, in [displayMetadata] and
    in [isCommonField], with the same elements. *)
Definition commonFields : list jsstring :=
  [js "Species"; js "Count"; js "Behavior"; js "Weather";
   js "Temperature_C"; js "Temperature_F";
   js "Location"; js "Camera_ID"; js "Researcher"; js "Notes"].

Definition isCommonField (fieldName : jsstring) : bool :=
  includes commonFields fieldName.

Definition createMetadataField
    (label : jsstring) (value : jsstring) (readonly : bool) (s : App) : App :=
  let fieldDiv :=
    {| label := label; value := sanitize value; readOnly := readonly;
       deleteBtn := negb readonly && negb (isCommonField label) |} in
  set_metadataContainer (metadataContainer s ++ [fieldDiv]) s.

(** The [click] listener of the delete button of the [n]-th field:
    [fieldDiv.remove(); delete this.currentMetadata[label]]. *)
Definition click_deleteField (n : nat) (s : App) : App :=
  match metadataContainer s !! n with
  | Some fieldDiv =>
      if deleteBtn fieldDiv then
        let s := set_metadataContainer (delete n (metadataContainer s)) s in
        set_currentMetadata (delete_key (label fieldDiv) (currentMetadata s)) s
      else s
  | None => s
  end.

(** The second loop of [displayMetadata], over the common fields that are
    left; the call of [hasOwnProperty] may throw. *)
Fixpoint add_commonFields (w : World) (fields : list jsstring) (s : App) : Completion :=
  match fields with
  | [] => Normal s
  | field :: fields =>
      match hasOwnProperty_call (currentMetadata s) field with
      | Some own =>
          let s := if negb own then createMetadataField field [] false s else s in
          add_commonFields w fields s
      | None => Throw (not_a_function w) s
      end
  end.

Definition displayMetadata (w : World) (s : App) : Completion :=
  let s := set_metadataContainer [] s in
  let s :=
    fold_left
      (fun s kv =>
         let isReadonly := includes readonlyFields (toLowerCase kv.1) in
         createMetadataField kv.1 kv.2 isReadonly s)
      (currentMetadata s) s in
  add_commonFields w commonFields s.

Definition showAddFieldModal (s : App) : App :=
  let s := setText fieldName [] s in
  let s := setText fieldValue [] s in
  let s := classList_remove addFieldModal hidden s in
  effect Focus s.

Definition hideAddFieldModal (s : App) : App :=
  classList_add addFieldModal hidden s.

Definition addCustomField (w : World) (s : App) : Completion :=
  let name := trim (text s fieldName) in
  let value := trim (text s fieldValue) in
  if negb (truthy name) then Normal (alert (js "Please enter a field name") s)
  else
    match hasOwnProperty_call (currentMetadata s) name with
    | Some true => Normal (alert (js "A field with this name already exists") s)
    | Some false =>
        let s := createMetadataField name value false s in
        Normal (hideAddFieldModal s)
    | None => Throw (not_a_function w) s
    end.

(** [querySelectorAll('.field-input:not([readonly])')] *)
Definition editable_inputs (form : list FieldDiv) : list FieldDiv :=
  filter (fun f => readOnly f = false) form.

(** The assignment [metadata[fieldName] = value] to the plain object
    [metadata].  The name [__proto__] is not a property of the object: the
    assignment reaches the setter of [Object.prototype], which ignores a
    value that is a string, and nothing is stored. *)
Definition assign (fieldName value : jsstring) (metadata : gmap jsstring jsstring)
    : gmap jsstring jsstring :=
  if bool_decide (fieldName = js "__proto__") then metadata
  else <[fieldName := value]> metadata.

(** The object [metadata] built by the [forEach] of [saveMetadata]. *)
Definition collect (inputs : list FieldDiv) : gmap jsstring jsstring :=
  fold_left
    (fun metadata input =>
       let fieldName := label input in
       let value := trim (value input) in
       if truthy value then assign fieldName value metadata else metadata)
    inputs ∅.

Definition saveMetadata (w : World) (s : App) : App :=
  let metadata := collect (editable_inputs (metadataContainer s)) in
  let response := save_metadata w (tick s) (currentIndex s) metadata in
  let s := fetch (PostSaveMetadata (currentIndex s) metadata) s in
  match response with
  | Got result =>
      if sv_success result then
        let originalText := text s saveBtn in
        let s := setText saveBtn (js "Saved to File & EXIF!") s in
        let s := set_saveBtnBackground (js "#4CAF50") s in
        let s :=
          if truthy_opt (sv_message result)
          then console_log (show (sv_message result)) s
          else s in
        effect (SetTimeout 3000 originalText) s
      else
        let error :=
          if truthy_opt (sv_error result) then show (sv_error result)
          else js "Unknown error" in
        alert (js "Failed to save metadata: " ++ error) s
  | Threw message => alert (js "Error saving metadata: " ++ message) s
  end.

(** The callback handed to [setTimeout] by a successful save. *)
Definition timeout_saveBtn (originalText : jsstring) (s : App) : App :=
  let s := setText saveBtn originalText s in
  set_saveBtnBackground [] s.

(** [querySelector('[data-field="..."]')] followed by an assignment to the
    [value] of the element found: the first field with that label. *)
Fixpoint set_first_value (field : jsstring) (v : jsstring) (form : list FieldDiv)
    : list FieldDiv :=
  match form with
  | [] => []
  | f :: r =>
      if decide (label f = field)
      then {| label := label f; value := sanitize v; readOnly := readOnly f;
              deleteBtn := deleteBtn f |} :: r
      else f :: set_first_value field v r
  end.

Definition querySelector (field : jsstring) (form : list FieldDiv) : option FieldDiv :=
  find (fun f => bool_decide (label f = field)) form.

(** *** Silent footer extraction *)

(** One of the three [if (footerData.X) { ... }] blocks: the form and
    [updatedFields] after it. *)
Definition extract_field (field : jsstring) (footerData : Metadata)
    (acc : list FieldDiv * list jsstring) : list FieldDiv * list jsstring :=
  let '(form, updatedFields) := acc in
  match get field footerData with
  | Some v =>
      if truthy v then
        match querySelector field form with
        | Some _ =>
            (set_first_value field v form,
             updatedFields ++ [field ++ js ": " ++ v])
        | None => acc
        end
      else acc
  | None => acc
  end.

Definition extractFooterDataSilent (w : World) (s : App) : App :=
  if totalImages s =? 0 then s
  else
    let s := addDebugOutput w ([55358; 56598]%N ++ js " Extracting footer metadata...") s in
    let response := extract_footer w (tick s) (currentIndex s) in
    let s := fetch (GetExtractFooter (currentIndex s)) s in
    match response with
    | Got result =>
        if ft_success result then
          let footerData := footer_metadata result in
          if (0 <? length (keys footerData))%nat then
            let acc := (metadataContainer s, []) in
            let acc := extract_field (js "Temperature_C") footerData acc in
            let acc := extract_field (js "Temperature_F") footerData acc in
            let acc := extract_field (js "Camera_ID") footerData acc in
            let s := set_metadataContainer acc.1 s in
            let updatedFields := acc.2 in
            let s :=
              if truthy_opt (get (js "DateTime") footerData)
              then addDebugOutput w
                     ([9989%N] ++ js " DateTime: " ++ show (get (js "DateTime") footerData)) s
              else s in
            if (0 <? length updatedFields)%nat
            then addDebugOutput w
                   ([9989%N] ++ js " Extracted: " ++ join (js ", ") updatedFields) s
            else addDebugOutput w
                   ([9888; 65039]%N ++ js " Footer data extracted but no matching fields found") s
          else addDebugOutput w ([10060%N] ++ js " No footer data could be extracted") s
        else addDebugOutput w
               ([10060%N] ++ js " Footer extraction failed: " ++ show (ft_error result)) s
    | Threw message =>
        addDebugOutput w ([10060%N] ++ js " Error extracting footer data: " ++ message) s
    end.

(** *** Image navigator *)

Definition updateNavigationButtons (s : App) : App :=
  let s := setDisabled firstBtn (currentIndex s =? 0) s in
  let s := setDisabled prevBtn (currentIndex s =? 0) s in
  let s := setDisabled nextBtn (currentIndex s =? totalImages s - 1) s in
  setDisabled lastBtn (currentIndex s =? totalImages s - 1) s.

Definition cancelIdentifyMode (s : App) : App :=
  let s := set_isSelecting false s in
  let s := classList_remove identifyBtn active s in
  let s := setText identifyBtn (js "Identify Species") s in
  let s := classList_remove imageWrapper selecting s in
  let s := classList_add selectionInfo hidden s in
  let s :=
    set_selectionBox
      {| display := js "none"; box_left := box_left (selectionBox s);
         box_top := box_top (selectionBox s);
         box_width := box_width (selectionBox s);
         box_height := box_height (selectionBox s) |} s in
  let s := set_currentSelection None s in
  updateNavigationButtons s.

Definition resetInterface (s : App) : App :=
  let s := setText currentImage [] s in
  let s := setText imageInfo [] s in
  let s := setText imageCounter [] s in
  let s := set_metadataContainer [] s in
  let s := cancelIdentifyMode s in
  let s := set_currentIndex 0 s in
  let s := set_totalImages 0 s in
  let s := set_currentMetadata [] s in
  let s := setDisabled firstBtn true s in
  let s := setDisabled prevBtn true s in
  let s := setDisabled nextBtn true s in
  let s := setDisabled lastBtn true s in
  console_log (js "Interface reset for new folder") s.

Definition showMainContent (s : App) : App :=
  let s := classList_add welcomeMessage hidden s in
  classList_remove mainContent hidden s.

(** The [catch] block of [loadCurrentImage]. *)
Definition loadCurrentImage_catch (w : World) (message : jsstring) (s : App) : App :=
  let s := addDebugOutput w (js "Error loading image: " ++ message) s in
  alert (js "Error loading image: " ++ message) s.

Definition loadCurrentImage (w : World) (s : App) : App :=
  let response := image w (tick s) (currentIndex s) in
  let s := fetch (GetImage (currentIndex s)) s in
  match response with
  | Got imageData =>
      if truthy_opt (img_error imageData)
      then alert (js "Error loading image: " ++ show (img_error imageData)) s
      else
        let timestamp := getTime w (tick s) in
        let s := next_tick s in
        let s :=
          setText currentImage
            (js "/api/image_file/" ++ Z_toString (currentIndex s)
             ++ js "?t=" ++ Z_toString timestamp) s in
        let s :=
          setText imageInfo
            (dimensions imageData ++ [32; 8226; 32]%N ++ size_mb imageData ++ js " MB") s in
        let s :=
          setText imageCounter
            (Z_toString (index imageData + 1) ++ js " of " ++ Z_toString (total imageData)
             ++ js " - " ++ filename imageData) s in
        let s := updateNavigationButtons s in
        let s := set_currentMetadata (default [] (metadata imageData)) s in
        let rendered := displayMetadata w s in
        let s := state rendered in
        match thrown rendered with
        | Some message => loadCurrentImage_catch w message s
        | None =>
            let hasTemperatureC := truthy_opt (get (js "Temperature_C") (currentMetadata s)) in
            let hasTemperatureF := truthy_opt (get (js "Temperature_F") (currentMetadata s)) in
            let hasCameraID := truthy_opt (get (js "Camera_ID") (currentMetadata s)) in
            if negb hasTemperatureC || negb hasTemperatureF || negb hasCameraID then
              let s := addDebugOutput w (js "Loading image " ++ filename imageData) s in
              let s := addDebugOutput w (js "Missing metadata - extracting footer data...") s in
              extractFooterDataSilent w s
            else
              addDebugOutput w
                (js "Image " ++ filename imageData ++ js " loaded - metadata complete") s
        end
  | Threw message => loadCurrentImage_catch w message s
  end.

Definition navigateToImage (w : World) (index : Z) (s : App) : App :=
  if (index <? 0) || (index >=? totalImages s) then s
  else
    let s := set_currentIndex index s in
    loadCurrentImage w s.

Definition loadFolder (w : World) (s : App) : App :=
  let folderPath := text s selectedPath in
  if negb (truthy folderPath) || bool_decide (folderPath = js "No folder selected")
  then alert (js "Please select a folder first") s
  else
    let s := resetInterface s in
    let response := load_folder w (tick s) folderPath in
    let s := fetch (PostLoadFolder folderPath) s in
    match response with
    | Got result =>
        if lf_success result then
          let s := set_totalImages (count result) s in
          let s := set_currentIndex 0 s in
          let s := set_currentMetadata [] s in
          if 0 <? totalImages s then
            let s := showMainContent s in
            loadCurrentImage w s
          else alert (js "No supported image files found in the selected folder.") s
        else alert (js "Error loading folder: " ++ show (lf_error result)) s
    | Threw message => alert (js "Error: " ++ message) s
    end.

(** *** Region selector and identification *)

Definition startIdentifyMode (s : App) : App :=
  let s := set_isSelecting true s in
  let s := classList_add identifyBtn active s in
  let s := setText identifyBtn (js "Cancel Identify") s in
  let s := classList_add imageWrapper selecting s in
  let s := classList_remove selectionInfo hidden s in
  let s := setDisabled firstBtn true s in
  let s := setDisabled prevBtn true s in
  let s := setDisabled nextBtn true s in
  setDisabled lastBtn true s.

Definition toggleIdentifyMode (s : App) : App :=
  if isSelecting s then cancelIdentifyMode s else startIdentifyMode s.

Definition startSelection (e : MouseEvent) (l : Layout) (s : App) : App :=
  if negb (isSelecting s) then s
  else
    let start :=
      {| pt_x := sub (clientX e) (wrapperRect_left l);
         pt_y := sub (clientY e) (wrapperRect_top l) |} in
    let s := set_selectionStart (Some start) s in
    set_selectionBox
      {| display := js "block"; box_left := pt_x start; box_top := pt_y start;
         box_width := 0%float; box_height := 0%float |} s.

Definition updateSelection (e : MouseEvent) (l : Layout) (s : App) : App :=
  match selectionStart s with
  | Some start =>
      if negb (isSelecting s) then s
      else
        let currentX := sub (clientX e) (wrapperRect_left l) in
        let currentY := sub (clientY e) (wrapperRect_top l) in
        set_selectionBox
          {| display := display (selectionBox s);
             box_left := Math_min (pt_x start) currentX;
             box_top := Math_min (pt_y start) currentY;
             box_width := Math_abs (sub currentX (pt_x start));
             box_height := Math_abs (sub currentY (pt_y start)) |} s
  | None => s
  end.

Definition handleIdentificationResult (idn : Identification) (s : App) : App :=
  let speciesInput := querySelector (js "Species") (metadataContainer s) in
  let s :=
    if bool_decide (is_Some speciesInput) && truthy_opt (species idn)
       && negb (bool_decide (species idn = Some (js "Unknown")))
    then set_metadataContainer
           (set_first_value (js "Species") (show (species idn)) (metadataContainer s)) s
    else s in
  let countInput := querySelector (js "Count") (metadataContainer s) in
  let s :=
    match id_count idn with
    | Some n =>
        if bool_decide (is_Some countInput) && (0 <? n)
        then set_metadataContainer
               (set_first_value (js "Count") (Z_toString n) (metadataContainer s)) s
        else s
    | None => s
    end in
  let s :=
    if truthy_opt (confidence idn)
    then createMetadataField (js "AI_Confidence") (show (confidence idn)) false s
    else s in
  let s :=
    if truthy_opt (scientific_name idn)
    then createMetadataField (js "Scientific_Name") (show (scientific_name idn)) false s
    else s in
  let s :=
    if truthy_opt (habitat idn)
    then createMetadataField (js "Habitat") (show (habitat idn)) false s
    else s in
  let s :=
    if truthy_opt (description idn) then
      match querySelector (js "Notes") (metadataContainer s) with
      | Some notesInput =>
          let existingNotes := trim (value notesInput) in
          let aiNote := js "AI (Namibia): " ++ show (description idn) in
          set_metadataContainer
            (set_first_value (js "Notes")
               (if truthy existingNotes then existingNotes ++ [10%N] ++ aiNote else aiNote)
               (metadataContainer s)) s
      | None => s
      end
    else s in
  alert
    (js "Species identification complete!" ++ [10; 10]%N
     ++ js "Species: " ++ show (species idn) ++ [10%N]
     ++ js "Confidence: " ++ show (confidence idn) ++ [10; 10]%N
     ++ js "Metadata has been updated. Don't forget to save your changes.") s.

Definition identifySpecies (w : World) (s : App) : App :=
  match currentSelection s with
  | None => s
  | Some selection =>
      let s := setText identifyBtn (js "Identifying...") s in
      let s := setDisabled identifyBtn true s in
      let response := identify_species w (tick s) (currentIndex s) selection in
      let s := fetch (PostIdentifySpecies (currentIndex s) selection) s in
      let s :=
        match response with
        | Got result =>
            if id_success result
            then handleIdentificationResult (identification result) s
            else alert (js "Identification failed: " ++ show (id_error result)) s
        | Threw message => alert (js "Error during identification: " ++ message) s
        end in
      (* finally *)
      let s := setDisabled identifyBtn false s in
      cancelIdentifyMode s
  end.

Definition endSelection (w : World) (e : MouseEvent) (l : Layout) (s : App) : App :=
  match selectionStart s with
  | Some start =>
      if negb (isSelecting s) then s
      else
        let currentX := sub (clientX e) (wrapperRect_left l) in
        let currentY := sub (clientY e) (wrapperRect_top l) in
        let selectionWidth := Math_abs (sub currentX (pt_x start)) in
        let selectionHeight := Math_abs (sub currentY (pt_y start)) in
        if ltb selectionWidth 20%float || ltb selectionHeight 20%float
        then cancelIdentifyMode s
        else
          let imageLeft := sub (imageRect_left l) (wrapperRect_left l) in
          let imageTop := sub (imageRect_top l) (wrapperRect_top l) in
          let selectionLeft := sub (Math_min (pt_x start) currentX) imageLeft in
          let selectionTop := sub (Math_min (pt_y start) currentY) imageTop in
          let scaleX := div (naturalWidth l) (clientWidth l) in
          let scaleY := div (naturalHeight l) (clientHeight l) in
          let s :=
            set_currentSelection
              (Some {| x := Math_max 0%float (mul selectionLeft scaleX);
                       y := Math_max 0%float (mul selectionTop scaleY);
                       width := mul selectionWidth scaleX;
                       height := mul selectionHeight scaleY |}) s in
          identifySpecies w s
  | None => s
  end.

(** ** Events: the listeners of [bindEvents] *)

Inductive Event : Type :=
| Click_browseFolders
| Click_loadFolder
| Click_selectFolderBtn
| Click_cancelBrowserBtn
| Click_firstBtn
| Click_prevBtn
| Click_nextBtn
| Click_lastBtn
| Click_identifyBtn
| Keydown (key : jsstring)
| Mousedown (e : MouseEvent) (l : Layout)
| Mousemove (e : MouseEvent) (l : Layout)
| Mouseup (e : MouseEvent) (l : Layout)
| Click_cancelSelection
| Click_addFieldBtn
| Click_saveBtn
| Click_addFieldConfirm
| Click_addFieldCancel
| Click_addFieldModal
| Click_folderBrowserModal
| Click_folderItem (n : nat)
| Dblclick_folderItem (n : nat)
| Click_deleteField (n : nat)
| Input_fieldName (v : jsstring)
| Input_fieldValue (v : jsstring)
| Input_field (n : nat) (v : jsstring)
| Timeout_saveBtn (originalText : jsstring).

(** A disabled button dispatches no [click]. *)
Definition click (e : Elem) (handler : App -> App) (s : App) : App :=
  if disabled s e then s else handler s.

Definition keydown (w : World) (key : jsstring) (s : App) : App :=
  if (totalImages s =? 0) || isSelecting s then s
  else if bool_decide (key = js "ArrowLeft") then navigateToImage w (currentIndex s - 1) s
  else if bool_decide (key = js "ArrowRight") then navigateToImage w (currentIndex s + 1) s
  else if bool_decide (key = js "Home") then navigateToImage w 0 s
  else if bool_decide (key = js "End") then navigateToImage w (totalImages s - 1) s
  else if bool_decide (key = js "Escape") then
    (if isSelecting s then cancelIdentifyMode s else s)
  else s.

(** The user types into the [n]-th input of the form. *)
Definition input_field (n : nat) (v : jsstring) (s : App) : App :=
  match metadataContainer s !! n with
  | Some f =>
      if readOnly f then s
      else set_metadataContainer
             (<[n := {| label := label f; value := sanitize v; readOnly := readOnly f;
                        deleteBtn := deleteBtn f |}]> (metadataContainer s)) s
  | None => s
  end.

Definition step (w : World) (ev : Event) (s : App) : App :=
  match ev with
  | Click_browseFolders => showFolderBrowser w s
  | Click_loadFolder => click loadFolderBtn (loadFolder w) s
  | Click_selectFolderBtn => click selectFolderBtn selectCurrentFolder s
  | Click_cancelBrowserBtn => hideFolderBrowser s
  | Click_firstBtn => click firstBtn (navigateToImage w 0) s
  | Click_prevBtn => click prevBtn (navigateToImage w (currentIndex s - 1)) s
  | Click_nextBtn => click nextBtn (navigateToImage w (currentIndex s + 1)) s
  | Click_lastBtn => click lastBtn (navigateToImage w (totalImages s - 1)) s
  | Click_identifyBtn => click identifyBtn toggleIdentifyMode s
  | Keydown key => keydown w key s
  | Mousedown e l => startSelection e l s
  | Mousemove e l => updateSelection e l s
  | Mouseup e l => endSelection w e l s
  | Click_cancelSelection => cancelIdentifyMode s
  | Click_addFieldBtn => showAddFieldModal s
  | Click_saveBtn => saveMetadata w s
  | Click_addFieldConfirm => uncaught (addCustomField w s)
  | Click_addFieldCancel => hideAddFieldModal s
  | Click_addFieldModal => hideAddFieldModal s
  | Click_folderBrowserModal => hideFolderBrowser s
  | Click_folderItem n => click_folderItem w n s
  | Dblclick_folderItem n => dblclick_folderItem w n s
  | Click_deleteField n => click_deleteField n s
  | Input_fieldName v => setText fieldName (sanitize v) s
  | Input_fieldValue v => setText fieldValue (sanitize v) s
  | Input_field n v => input_field n v s
  | Timeout_saveBtn originalText => timeout_saveBtn originalText s
  end.

(** A run of the application over a sequence of events. *)
Definition run (w : World) (evs : list Event) (s : App) : App :=
  fold_left (fun s ev => step w ev s) evs s.

(** ** A sample page, server and session

    Concrete inputs on which the methods are evaluated. *)

(** The page before the script runs: the path label reads
    ['No folder selected'], the main area, the overlays and the dialogs are
    hidden, the load and select buttons are disabled. *)
Definition example_page : App :=
  {| currentIndex := 0; totalImages := 0; currentMetadata := [];
     debugBuffer := []; isSelecting := false; selectionStart := None;
     currentSelection := None; currentBrowserPath := None;
     selectedFolderPath := None;
     disabled := fun e => bool_decide (e ∈ [loadFolderBtn; selectFolderBtn]);
     classList := fun e c =>
       bool_decide (c = hidden ∧
                    e ∈ [mainContent; selectionInfo; folderBrowserModal; addFieldModal]);
     text := fun e =>
       if decide (e = selectedPath) then js "No folder selected"
       else if decide (e = identifyBtn) then js "Identify Species"
       else if decide (e = saveBtn) then js "Save Metadata"
       else [];
     saveBtnBackground := [];
     selectionBox := {| display := js "none"; box_left := 0%float;
                        box_top := 0%float; box_width := 0%float;
                        box_height := 0%float |};
     metadataContainer := []; folderTree := []; tick := 0; log := [] |}.

Definition example_metadata : Metadata :=
  [(js "filename", js "IMG_0001.JPG"); (js "Species", js "Kudu")].

Definition example_identification : Identification :=
  {| species := Some (js "Kudu"); id_count := Some 2;
     confidence := Some (js "High"); scientific_name := None;
     habitat := None; description := Some (js "Two adults") |}.

(** A server holding a folder of [n] images that all carry [md]. *)
Definition example_world (n : Z) (md : Metadata) : World :=
  {| browse_folders := fun _ _ => Threw (js "Failed to fetch");
     load_folder := fun _ _ =>
       Got {| lf_success := true; count := n; lf_error := None |};
     image := fun _ i =>
       Got {| img_error := None; filename := js "IMG_0001.JPG";
              dimensions := js "640x480"; size_mb := js "1.2";
              index := i; total := n; metadata := Some md |};
     save_metadata := fun _ _ _ =>
       Got {| sv_success := true; sv_message := None; sv_error := None |};
     extract_footer := fun _ _ =>
       Got {| ft_success := true;
              footer_metadata := [(js "Temperature_C", js "21")];
              ft_error := None |};
     identify_species := fun _ _ _ =>
       Got {| id_success := true; identification := example_identification;
              id_error := None |};
     getTime := fun t => 1700000000000 + Z.of_nat t;
     toLocaleTimeString := fun _ => js "10:15:00";
     not_a_function := js "this.currentMetadata.hasOwnProperty is not a function";
     uri_malformed := js "URI malformed" |}.

(** The application started on the sample page, with the folder
    [/photos] picked in the browser and confirmed. *)
Definition example_start : App :=
  selectCurrentFolder
    (set_selectedFolderPath (Some (js "/photos")) (constructor example_page)).

(** The same after the folder of three images has been loaded. *)
Definition example_loaded : App :=
  loadFolder (example_world 3 example_metadata) example_start.

(** ** Definitions used by the statements *)

(** What the form holds for the key [k]: the trimmed value of the last
    editable input labelled [k] whose trimmed value is not empty. *)
Definition last_entered (form : list FieldDiv) (k : jsstring) : option jsstring :=
  last (filter (fun v => v <> [])
          (map (fun f => trim (value f))
             (filter (fun f => readOnly f = false /\ label f = k) form))).

(** The form of the example: [Species] holds ["Kudu"], [Notes] two blanks. *)
Definition kudu_form : list FieldDiv :=
  [ {| label := js "Species"; value := js "Kudu"; readOnly := false; deleteBtn := false |};
    {| label := js "Notes"; value := js "  "; readOnly := false; deleteBtn := false |} ].


(** The mapping has an own key named [hasOwnProperty]. *)
Definition shadowed (m : Metadata) : Prop := js "hasOwnProperty" ∈ keys m.

(** A mapping with such a key, as the response for an image whose stored
    fields include one of that name. *)
Definition shadowing_metadata : Metadata :=
  [(js "Species", js "Kudu"); (js "hasOwnProperty", js "yes")].

(** The field [displayMetadata] renders for an entry of the mapping. *)
Definition entry_field (kv : jsstring * jsstring) : FieldDiv :=
  let readonly := bool_decide (toLowerCase kv.1 ∈ readonlyFields) in
  {| label := kv.1; value := sanitize kv.2; readOnly := readonly;
     deleteBtn := negb readonly && bool_decide (kv.1 ∉ commonFields) |}.

(** The empty editable field rendered for a common name. *)
Definition empty_field (field : jsstring) : FieldDiv :=
  {| label := field; value := []; readOnly := false; deleteBtn := false |}.

(** The session of the example: the current image carries
    [{Species: "Kudu"}]. *)
Definition kudu_session : App :=
  set_currentMetadata [(js "Species", js "Kudu")] example_loaded.

(** The image shown at half its natural size, flush with its wrapper. *)
Definition example_layout : Layout :=
  {| wrapperRect_left := 0; wrapperRect_top := 0;
     imageRect_left := 0; imageRect_top := 0;
     naturalWidth := 1280; naturalHeight := 960;
     clientWidth := 640; clientHeight := 480 |}%float.

(** Identify mode is on and the pointer went down at (10, 10). *)
Definition example_dragging : App :=
  startSelection {| clientX := 10; clientY := 10 |}%float example_layout
    (startIdentifyMode example_loaded).

(** The states of the region selector, read off the two fields that
    encode them. *)
Inductive SelectorState : Type := Idle | Selecting | Dragging.

Definition selector_state (s : App) : SelectorState :=
  if isSelecting s then
    match selectionStart s with Some _ => Dragging | None => Selecting end
  else Idle.

(** The drag from the anchor [start] to the pointer position of [e], as
    Numbers.  Its size in display pixels: the distance between the anchor
    and the pointer position in the wrapper.  The rectangle it denotes in
    the natural coordinates of the image: the box, whose corner is the
    smaller coordinate on each axis, moved by the offset of the image in its
    wrapper and scaled by [naturalWidth / clientWidth] and
    [naturalHeight / clientHeight], the origin clamped at 0. *)
Definition drag_width (start : Point) (e : MouseEvent) (l : Layout) : float :=
  Math_abs (sub (sub (clientX e) (wrapperRect_left l)) (pt_x start)).

Definition drag_height (start : Point) (e : MouseEvent) (l : Layout) : float :=
  Math_abs (sub (sub (clientY e) (wrapperRect_top l)) (pt_y start)).

Definition natural_rect (start : Point) (e : MouseEvent) (l : Layout) : Rect :=
  let left := Math_min (pt_x start) (sub (clientX e) (wrapperRect_left l)) in
  let top := Math_min (pt_y start) (sub (clientY e) (wrapperRect_top l)) in
  let offset_x := sub (imageRect_left l) (wrapperRect_left l) in
  let offset_y := sub (imageRect_top l) (wrapperRect_top l) in
  let scale_x := div (naturalWidth l) (clientWidth l) in
  let scale_y := div (naturalHeight l) (clientHeight l) in
  {| x := Math_max 0 (mul (sub left offset_x) scale_x);
     y := Math_max 0 (mul (sub top offset_y) scale_y);
     width := mul (drag_width start e l) scale_x;
     height := mul (drag_height start e l) scale_y |}.

(** A sequence of debug-log appends, and the timestamped entries they
    write: the [i]-th append reads the clock at tick [t0 + i]. *)
Definition appendDebugOutputs (w : World) (messages : list jsstring) (s : App) : App :=
  fold_left (fun s message => addDebugOutput w message s) messages s.

Definition debug_entries (w : World) (t0 : nat) (messages : list jsstring)
    : list jsstring :=
  imap (fun i message => formattedMessage (toLocaleTimeString w (t0 + i)) message)
    messages.

(** Sixty messages of ten characters: 1320 characters once stamped. *)
Definition example_messages : list jsstring := replicate 60 (js "0123456789").

(** The effects a method emitted: what the log of [s'] holds beyond the
    log of [s]. *)
Definition emitted (s s' : App) : list Effect := drop (length (log s)) (log s').

(** The three keys whose absence sends the client to the image footer. *)
Definition footer_keys : list jsstring :=
  [js "Temperature_C"; js "Temperature_F"; js "Camera_ID"].

(** All three keys are present, [Temperature_C] with an empty value. *)
Definition blank_temperature : Metadata :=
  [(js "Temperature_C", []); (js "Temperature_F", js "70");
   (js "Camera_ID", js "CAM1")].

(** The names of the fields the form shows. *)
Definition form_labels (s : App) : list jsstring := label <$> metadataContainer s.

(** The add-field dialog filled in with a name and a value. *)
Definition fill_dialog (name value : jsstring) (s : App) : App :=
  setText fieldValue value (setText fieldName name (showAddFieldModal s)).

(** After the folder of three images an empty folder was loaded: the main
    content is still shown, the form is empty. *)
Definition example_emptied : App :=
  loadFolder (example_world 0 []) example_loaded.

(** The events whose listener loads a folder or an image. *)
Definition loads_image (ev : Event) : Prop :=
  match ev with
  | Click_loadFolder | Click_firstBtn | Click_prevBtn | Click_nextBtn
  | Click_lastBtn | Keydown _ => True
  | _ => False
  end.

(** The field [Trail] was added through the dialog to the loaded form. *)
Definition example_trail : App :=
  state (addCustomField (example_world 3 example_metadata)
           (fill_dialog (js "Trail") (js "north") example_loaded)).

(** The statements of [loadCurrentImage] from the request to the
    assignment of [currentMetadata], for a response that reports no
    error. *)
Definition received (w : World) (imageData : ImageData) (s : App) : App :=
  let s := fetch (GetImage (currentIndex s)) s in
  let timestamp := getTime w (tick s) in
  let s := next_tick s in
  let s :=
    setText currentImage
      (js "/api/image_file/" ++ Z_toString (currentIndex s)
       ++ js "?t=" ++ Z_toString timestamp) s in
  let s :=
    setText imageInfo
      (dimensions imageData ++ [32; 8226; 32]%N ++ size_mb imageData ++ js " MB") s in
  let s :=
    setText imageCounter
      (Z_toString (index imageData + 1) ++ js " of " ++ Z_toString (total imageData)
       ++ js " - " ++ filename imageData) s in
  let s := updateNavigationButtons s in
  set_currentMetadata (default [] (metadata imageData)) s.

(** ** Definitions used by the further properties *)

(** [currentIndex] is 0 or the index of an image of the folder. *)
Definition index_in_range (s : App) : Prop :=
  0 <= currentIndex s /\ (currentIndex s = 0 \/ currentIndex s < totalImages s).

(** The three-image session in which a drag has been completed and the
    identification answered. *)
Definition example_identified : App :=
  endSelection (example_world 3 example_metadata)
    {| clientX := 40; clientY := 50 |}%float example_layout example_dragging.

(** The sample page with [/photos] shown as the selected path and the load
    button enabled. *)
Definition example_page_ready : App :=
  setDisabled loadFolderBtn false (setText selectedPath (js "/photos") example_page).

(** Two states with the same fields and the same element properties. *)
Definition same_state (a b : App) : Prop :=
  currentIndex a = currentIndex b /\
  totalImages a = totalImages b /\
  currentMetadata a = currentMetadata b /\
  debugBuffer a = debugBuffer b /\
  isSelecting a = isSelecting b /\
  selectionStart a = selectionStart b /\
  currentSelection a = currentSelection b /\
  currentBrowserPath a = currentBrowserPath b /\
  selectedFolderPath a = selectedFolderPath b /\
  (forall e, disabled a e = disabled b e) /\
  (forall e c, classList a e c = classList b e c) /\
  (forall e, text a e = text b e) /\
  saveBtnBackground a = saveBtnBackground b /\
  selectionBox a = selectionBox b /\
  metadataContainer a = metadataContainer b /\
  folderTree a = folderTree b /\
  tick a = tick b /\
  log a = log b.

(** The keys that navigate. *)
Definition navigation_keys : list jsstring :=
  [js "ArrowLeft"; js "ArrowRight"; js "Home"; js "End"].

(** The events that ask for another image. *)
Definition navigates (ev : Event) : Prop :=
  match ev with
  | Click_firstBtn | Click_prevBtn | Click_nextBtn | Click_lastBtn
  | Keydown _ => True
  | _ => False
  end.

(** The four navigation buttons. *)
Definition navigation_buttons : list Elem := [firstBtn; prevBtn; nextBtn; lastBtn].

(** A server that reports a failure for every request. *)
Definition failing_world : World :=
  {| browse_folders := fun _ _ =>
       Got {| br_success := false; current_path := []; items := [];
              br_error := Some (js "Permission denied") |};
     load_folder := fun _ _ =>
       Got {| lf_success := false; count := 0;
              lf_error := Some (js "Folder not found") |};
     image := fun _ _ => Threw (js "Failed to fetch");
     save_metadata := fun _ _ _ =>
       Got {| sv_success := false; sv_message := None; sv_error := None |};
     extract_footer := fun _ _ => Threw (js "Failed to fetch");
     identify_species := fun _ _ _ => Threw (js "Failed to fetch");
     getTime := fun t => 1700000000000 + Z.of_nat t;
     toLocaleTimeString := fun _ => js "10:15:00";
     not_a_function := js "this.currentMetadata.hasOwnProperty is not a function";
     uri_malformed := js "URI malformed" |}.

(** [form'] has the fields of [form], in the same order, each with the
    same label and the same flags; only the value of a field labelled by one
    of [names] may differ. *)
Definition values_edited (names : list jsstring) (form form' : list FieldDiv) : Prop :=
  Forall2
    (fun f f' =>
       label f' = label f /\ readOnly f' = readOnly f /\
       deleteBtn f' = deleteBtn f /\
       (label f ∉ names -> value f' = value f))
    form form'.

(** The labels of the fields an identification adds to the form. *)
Definition identification_labels (idn : Identification) : list jsstring :=
  (if truthy_opt (confidence idn) then [js "AI_Confidence"] else []) ++
  (if truthy_opt (scientific_name idn) then [js "Scientific_Name"] else []) ++
  (if truthy_opt (habitat idn) then [js "Habitat"] else []).

(** The fields whose value an identification may overwrite. *)
Definition identification_inputs : list jsstring :=
  [js "Species"; js "Count"; js "Notes"].

(** The sample page with the browser showing one directory. *)
Definition example_browsing : App :=
  displayFolderTree
    [{| it_name := js "trip"; it_path := js "/photos/trip";
        it_type := js "directory"; is_dir := true; image_count := Some 3 |}]
    (constructor example_page).

(** * Properties *)

Arguments js : simpl never.
Arguments Z_toString : simpl never.
Arguments trim : simpl never.
Arguments slice_last : simpl never.
Arguments formattedMessage : simpl never.
Arguments get : simpl never.
Arguments hasOwnProperty : simpl never.
Arguments hasOwnProperty_call : simpl never.
Arguments querySelector : simpl never.
Arguments set_first_value : simpl never.
Arguments extract_field : simpl never.
Arguments truthy_opt : simpl never.
Arguments show : simpl never.
Arguments join : simpl never.

(** ** Frame lemmas: what a method leaves alone *)

Section Frame.
Context {C : Type} (proj : App -> C).

Lemma fold_left_frame {B : Type} (f : App -> B -> App) (l : list B) (s : App) :
  (forall s b, proj (f s b) = proj s) -> proj (fold_left f l s) = proj s.
Proof.
  intros Hf. revert s. induction l as [|b l IH]; intros s; simpl; [done|].
  by rewrite IH, Hf.
Qed.

Lemma frame_let (a : App) (b : App -> App) (r : C) :
  proj a = r -> (forall x, proj x = r -> proj (b x) = r) ->
  proj (let x := a in b x) = r.
Proof. intros Ha Hb. by apply Hb. Qed.

Lemma frame_let_post (a : App) (b : App -> App) (r : C) (Q : C -> Prop) :
  proj a = r -> (forall x, proj x = r -> Q (proj (b x))) ->
  Q (proj (let x := a in b x)).
Proof. intros Ha Hb. by apply Hb. Qed.

Lemma frame_let_any_post {A : Type} (a : A) (b : A -> App) (Q : C -> Prop) :
  (forall x, Q (proj (b x))) -> Q (proj (let x := a in b x)).
Proof. intros Hb. apply Hb. Qed.

Lemma frame_let_any {A : Type} (a : A) (b : A -> App) (r : C) :
  (forall x, proj (b x) = r) -> proj (let x := a in b x) = r.
Proof. intros Hb. apply Hb. Qed.
End Frame.

(** Reduces the projections of assignments, and nothing else. *)
Ltac prims :=
  cbn [currentIndex totalImages currentMetadata debugBuffer isSelecting
       selectionStart currentSelection currentBrowserPath selectedFolderPath
       disabled classList text saveBtnBackground selectionBox
       metadataContainer folderTree tick log
       set_currentIndex set_totalImages set_currentMetadata set_debugBuffer
       set_isSelecting set_selectionStart set_currentSelection
       set_currentBrowserPath set_selectedFolderPath set_disabled
       set_classList set_text set_saveBtnBackground set_selectionBox
       set_metadataContainer set_folderTree set_tick set_log
       state thrown Normal Throw
       setDisabled setText classList_add classList_remove alert console_log
       effect next_tick fetch createMetadataField
       updateNavigationButtons cancelIdentifyMode resetInterface
       showMainContent startIdentifyMode hideAddFieldModal showAddFieldModal
       hideFolderBrowser displayFolderTree selectFolder timeout_saveBtn].

(** The same, keeping every [let] in place. *)
Ltac prims_keep :=
  cbn beta iota delta
      [currentIndex totalImages currentMetadata debugBuffer isSelecting
       selectionStart currentSelection currentBrowserPath selectedFolderPath
       disabled classList text saveBtnBackground selectionBox
       metadataContainer folderTree tick log
       set_currentIndex set_totalImages set_currentMetadata set_debugBuffer
       set_isSelecting set_selectionStart set_currentSelection
       set_currentBrowserPath set_selectedFolderPath set_disabled
       set_classList set_text set_saveBtnBackground set_selectionBox
       set_metadataContainer set_folderTree set_tick set_log
       state thrown Normal Throw
       setDisabled setText classList_add classList_remove alert console_log
       effect next_tick fetch createMetadataField
       updateNavigationButtons cancelIdentifyMode resetInterface
       showMainContent startIdentifyMode hideAddFieldModal showAddFieldModal
       hideFolderBrowser displayFolderTree selectFolder timeout_saveBtn].

(** Proves [proj (method ... s) = proj s] statement by statement: a [let]
    that binds a state hands the property on to the rest of the body, any
    other [let] is read as an arbitrary value, a branch is split, an
    assignment to another field is stepped over, and so is a method that
    has a frame lemma. *)
Ltac frame :=
  intros;
  repeat first
    [ assumption
    | lazymatch goal with |- ?a = ?a => reflexivity end
    | lazymatch goal with
      | |- ?p (let x := ?a in @?b x) = ?r =>
          lazymatch type of a with
          | Completion => change (p (b a) = r); cbv beta
          end
      end
    | lazymatch goal with
      | |- ?p (let x := ?a in @?b x) = ?r =>
          first [ apply (frame_let p a b r); [|intros ? ?]
                | apply (frame_let_any p a b r); intros ? ]
      end
    | lazymatch goal with
      | |- ?p (match ?c with _ => _ end) = _ => destruct c
      end
    | progress prims_keep
    | progress cbv beta delta
        [createMetadataField updateNavigationButtons cancelIdentifyMode
         resetInterface showMainContent startIdentifyMode hideAddFieldModal
         showAddFieldModal hideFolderBrowser displayFolderTree selectFolder
         timeout_saveBtn loadCurrentImage_catch uncaught]
    | progress autorewrite with frame ].

(** Steps over every assignment and every method with a frame lemma. *)
Ltac step_over := repeat (progress (autorewrite with frame; prims)).

Tactic Notation "frame_of" reference(method) :=
  cbv beta delta [method]; frame.

Lemma currentIndex_addDebugOutput w m s :
  currentIndex (addDebugOutput w m s) = currentIndex s.
Proof. frame_of addDebugOutput. Qed.

Lemma totalImages_addDebugOutput w m s :
  totalImages (addDebugOutput w m s) = totalImages s.
Proof. frame_of addDebugOutput. Qed.

Lemma currentMetadata_addDebugOutput w m s :
  currentMetadata (addDebugOutput w m s) = currentMetadata s.
Proof. frame_of addDebugOutput. Qed.

Lemma metadataContainer_addDebugOutput w m s :
  metadataContainer (addDebugOutput w m s) = metadataContainer s.
Proof. frame_of addDebugOutput. Qed.

Lemma log_addDebugOutput w m s : log (addDebugOutput w m s) = log s.
Proof. frame_of addDebugOutput. Qed.

Lemma classList_addDebugOutput w m s :
  classList (addDebugOutput w m s) = classList s.
Proof. frame_of addDebugOutput. Qed.

Lemma disabled_addDebugOutput w m s :
  disabled (addDebugOutput w m s) = disabled s.
Proof. frame_of addDebugOutput. Qed.

Create Rewrite HintDb frame.

#[global] Hint Rewrite
  currentIndex_addDebugOutput totalImages_addDebugOutput
  currentMetadata_addDebugOutput metadataContainer_addDebugOutput
  log_addDebugOutput classList_addDebugOutput disabled_addDebugOutput : frame.

Arguments addDebugOutput : simpl never.

(** [displayMetadata] rebuilds the form and nothing else, also when it
    throws. *)
Lemma displayMetadata_frame {C : Type} (proj : App -> C) :
  (forall v s, proj (set_metadataContainer v s) = proj s) ->
  forall w s, proj (state (displayMetadata w s)) = proj s.
Proof.
  intros Hproj w s. unfold displayMetadata; cbv zeta.
  transitivity
    (proj (fold_left
             (fun s kv =>
                createMetadataField kv.1 kv.2
                  (includes readonlyFields (toLowerCase kv.1)) s)
             (currentMetadata (set_metadataContainer [] s))
             (set_metadataContainer [] s))).
  - generalize commonFields as fields. intros fields.
    match goal with |- proj (state (add_commonFields w fields ?s0)) = _ =>
      generalize s0
    end.
    induction fields as [|field fields IH]; intros s0; cbn [add_commonFields];
      [reflexivity|].
    destruct (hasOwnProperty_call (currentMetadata s0) field) as [own|];
      [|reflexivity].
    cbv zeta. rewrite IH. destruct (negb own); [apply Hproj | done].
  - rewrite fold_left_frame; [apply Hproj | intros; apply Hproj].
Qed.

Lemma currentIndex_displayMetadata w s :
  currentIndex (state (displayMetadata w s)) = currentIndex s.
Proof. by apply displayMetadata_frame. Qed.

Lemma totalImages_displayMetadata w s :
  totalImages (state (displayMetadata w s)) = totalImages s.
Proof. by apply displayMetadata_frame. Qed.

Lemma currentMetadata_displayMetadata w s :
  currentMetadata (state (displayMetadata w s)) = currentMetadata s.
Proof. by apply displayMetadata_frame. Qed.

Lemma log_displayMetadata w s :
  log (state (displayMetadata w s)) = log s.
Proof. by apply displayMetadata_frame. Qed.

Lemma tick_displayMetadata w s :
  tick (state (displayMetadata w s)) = tick s.
Proof. by apply displayMetadata_frame. Qed.

Lemma classList_displayMetadata w s :
  classList (state (displayMetadata w s)) = classList s.
Proof. by apply displayMetadata_frame. Qed.

Lemma disabled_displayMetadata w s :
  disabled (state (displayMetadata w s)) = disabled s.
Proof. by apply displayMetadata_frame. Qed.

Lemma debugBuffer_displayMetadata w s :
  debugBuffer (state (displayMetadata w s)) = debugBuffer s.
Proof. by apply displayMetadata_frame. Qed.

#[global] Hint Rewrite
  currentIndex_displayMetadata totalImages_displayMetadata
  currentMetadata_displayMetadata log_displayMetadata tick_displayMetadata
  classList_displayMetadata disabled_displayMetadata
  debugBuffer_displayMetadata : frame.

Arguments displayMetadata : simpl never.

Lemma currentIndex_extractFooterDataSilent w s :
  currentIndex (extractFooterDataSilent w s) = currentIndex s.
Proof. frame_of extractFooterDataSilent. Qed.

Lemma totalImages_extractFooterDataSilent w s :
  totalImages (extractFooterDataSilent w s) = totalImages s.
Proof. frame_of extractFooterDataSilent. Qed.

Lemma currentMetadata_extractFooterDataSilent w s :
  currentMetadata (extractFooterDataSilent w s) = currentMetadata s.
Proof. frame_of extractFooterDataSilent. Qed.

Lemma classList_extractFooterDataSilent w s :
  classList (extractFooterDataSilent w s) = classList s.
Proof. frame_of extractFooterDataSilent. Qed.

Lemma disabled_extractFooterDataSilent w s :
  disabled (extractFooterDataSilent w s) = disabled s.
Proof. frame_of extractFooterDataSilent. Qed.

(** The silent extraction issues its one request unless no folder is
    loaded, and never alerts. *)
Lemma log_extractFooterDataSilent w s :
  log (extractFooterDataSilent w s) =
  log s ++ (if totalImages s =? 0 then []
            else [Fetch (GetExtractFooter (currentIndex s))]).
Proof.
  unfold extractFooterDataSilent; cbv zeta.
  destruct (totalImages s =? 0); [by rewrite app_nil_r|].
  transitivity
    (log (fetch (GetExtractFooter (currentIndex s))
            (addDebugOutput w
               ([55358; 56598]%N ++ js " Extracting footer metadata...") s))).
  - rewrite currentIndex_addDebugOutput. frame.
  - cbn. by rewrite log_addDebugOutput.
Qed.

#[global] Hint Rewrite
  currentIndex_extractFooterDataSilent totalImages_extractFooterDataSilent
  currentMetadata_extractFooterDataSilent classList_extractFooterDataSilent
  disabled_extractFooterDataSilent log_extractFooterDataSilent : frame.

Arguments extractFooterDataSilent : simpl never.

Lemma currentIndex_loadCurrentImage w s :
  currentIndex (loadCurrentImage w s) = currentIndex s.
Proof. frame_of loadCurrentImage. Qed.

Lemma totalImages_loadCurrentImage w s :
  totalImages (loadCurrentImage w s) = totalImages s.
Proof. frame_of loadCurrentImage. Qed.

Lemma classList_loadCurrentImage w s :
  classList (loadCurrentImage w s) = classList s.
Proof. frame_of loadCurrentImage. Qed.


Lemma log_loadCurrentImage_catch w message s :
  log (loadCurrentImage_catch w message s) =
  log s ++ [Alert (js "Error loading image: " ++ message)].
Proof. unfold loadCurrentImage_catch. prims. by rewrite log_addDebugOutput. Qed.

Lemma log_loadCurrentImage_prefix w s :
  exists rest,
    log (loadCurrentImage w s) = log s ++ Fetch (GetImage (currentIndex s)) :: rest.
Proof.
  unfold loadCurrentImage; cbv zeta.
  destruct (image w (tick s) (currentIndex s)) as [message|imageData].
  - eexists. rewrite log_loadCurrentImage_catch. prims.
    rewrite <- app_assoc. reflexivity.
  - destruct (truthy_opt (img_error imageData)).
    + eexists. prims. rewrite <- app_assoc. reflexivity.
    + destruct (thrown (displayMetadata w _)).
      * eexists. rewrite log_loadCurrentImage_catch.
        repeat (autorewrite with frame; prims).
        rewrite <- ?app_assoc. reflexivity.
      * match goal with
        | |- context [if ?c then _ else _] => destruct c
        end; eexists; repeat (autorewrite with frame; prims);
          rewrite <- ?app_assoc; reflexivity.
Qed.

(** ** Navigation *)

(** C1. [navigateToImage(i)] with [i < 0] or [i >= totalImages] leaves the
    whole state as it is, so it issues no request and keeps [currentIndex];
    with [0 <= i < totalImages] it sets [currentIndex] to [i] and reloads the
    current image, the request for image [i] being the first thing it
    emits. *)
Theorem navigateToImage_spec (w : World) (i : Z) (s : App) :
  (i < 0 \/ totalImages s <= i ->
     navigateToImage w i s = s /\
     log (navigateToImage w i s) = log s /\
     currentIndex (navigateToImage w i s) = currentIndex s) /\
  (0 <= i < totalImages s ->
     navigateToImage w i s = loadCurrentImage w (set_currentIndex i s) /\
     currentIndex (navigateToImage w i s) = i /\
     exists rest,
       log (navigateToImage w i s) = log s ++ Fetch (GetImage i) :: rest).
Proof.
  unfold navigateToImage. split.
  - intros Hout.
    assert ((i <? 0) || (i >=? totalImages s) = true) as ->; [|done].
    apply orb_true_iff. destruct Hout; [left|right]; lia.
  - intros Hin.
    assert ((i <? 0) || (i >=? totalImages s) = false) as ->.
    { apply orb_false_iff. lia. }
    split; [done|]. split.
    + by rewrite currentIndex_loadCurrentImage.
    + apply (log_loadCurrentImage_prefix w (set_currentIndex i s)).
Qed.

Lemma navigateToImage_spec_witness :
  (7 < 0 \/ totalImages example_loaded <= 7) /\
  navigateToImage (example_world 3 example_metadata) 7 example_loaded
    = example_loaded /\
  0 <= 2 < totalImages example_loaded /\
  currentIndex (navigateToImage (example_world 3 example_metadata) 2 example_loaded) = 2.
Proof.
  assert (totalImages example_loaded = 3) as Htotal by (vm_compute; reflexivity).
  split; [right; rewrite Htotal; lia|].
  split.
  { apply (navigateToImage_spec (example_world 3 example_metadata) 7 example_loaded).
    right. rewrite Htotal. lia. }
  split; [rewrite Htotal; lia|].
  apply (navigateToImage_spec (example_world 3 example_metadata) 2 example_loaded).
  rewrite Htotal. lia.
Defined.

(** ** Folder load *)

(** C2. A folder load (a path is committed, so the request is made) whose
    response reports success: with [count = 0] a hidden main content stays
    hidden (the load touches neither its visibility nor that of the welcome
    view), an alert is shown and no image is requested; with [count > 0]
    [currentIndex] is 0, the main content is revealed and the request for
    image 0 follows the load request. *)
Theorem loadFolder_spec (w : World) (s : App) (result : LoadFolderResult) :
  truthy (text s selectedPath) = true ->
  text s selectedPath <> js "No folder selected" ->
  load_folder w (tick s) (text s selectedPath) = Got result ->
  lf_success result = true ->
  (count result = 0 ->
     (classList s mainContent hidden = true ->
      classList (loadFolder w s) mainContent hidden = true) /\
     classList (loadFolder w s) mainContent hidden = classList s mainContent hidden /\
     classList (loadFolder w s) welcomeMessage hidden = classList s welcomeMessage hidden /\
     log (loadFolder w s) =
       log s ++ [ConsoleLog (js "Interface reset for new folder");
                 Fetch (PostLoadFolder (text s selectedPath));
                 Alert (js "No supported image files found in the selected folder.")]) /\
  (0 < count result ->
     currentIndex (loadFolder w s) = 0 /\
     totalImages (loadFolder w s) = count result /\
     classList (loadFolder w s) mainContent hidden = false /\
     classList (loadFolder w s) welcomeMessage hidden = true /\
     exists rest,
       log (loadFolder w s) =
         log s ++ ConsoleLog (js "Interface reset for new folder")
               :: Fetch (PostLoadFolder (text s selectedPath))
               :: Fetch (GetImage 0) :: rest).
Proof.
  intros Hpath Hsel Hresp Hok. unfold loadFolder; cbv zeta.
  rewrite Hpath, bool_decide_eq_false_2 by done.
  cbn [negb orb]. prims. rewrite Hresp, Hok. prims. split.
  - intros ->. cbn [Z.ltb Z.compare]. prims.
    repeat split; [done | by rewrite <- !app_assoc].
  - intros Hpos. apply Z.ltb_lt in Hpos as ->.
    rewrite currentIndex_loadCurrentImage, totalImages_loadCurrentImage,
      classList_loadCurrentImage.
    prims. repeat split.
    match goal with
    | |- context [loadCurrentImage w ?s0] =>
        destruct (log_loadCurrentImage_prefix w s0) as [rest ->]
    end.
    exists rest. prims. by rewrite <- !app_assoc.
Qed.

Lemma loadFolder_spec_witness :
  let w := example_world 3 example_metadata in
  0 < 3 /\
  currentIndex (loadFolder w example_start) = 0 /\
  classList (loadFolder w example_start) mainContent hidden = false.
Proof.
  intros w. split; [lia|].
  destruct (loadFolder_spec w example_start
              {| lf_success := true; count := 3; lf_error := None |})
    as [_ Hpos]; [reflexivity | discriminate | reflexivity | reflexivity |].
  destruct (Hpos ltac:(simpl; lia)) as (Hindex & _ & Hshown & _).
  split; assumption.
Defined.

(** ** Saving *)

Lemma collect_snoc (inputs : list FieldDiv) (input : FieldDiv) :
  collect (inputs ++ [input]) =
  if truthy (trim (value input))
  then assign (label input) (trim (value input)) (collect inputs)
  else collect inputs.
Proof. unfold collect. by rewrite fold_left_app. Qed.

Lemma assign_lookup (fieldName v k : jsstring) (metadata : gmap jsstring jsstring) :
  assign fieldName v metadata !! k =
  if bool_decide (fieldName = k /\ k <> js "__proto__") then Some v
  else metadata !! k.
Proof.
  unfold assign. destruct (decide (fieldName = js "__proto__")) as [Hp|Hp].
  - rewrite (bool_decide_eq_true_2 _ Hp), bool_decide_eq_false_2; [done|].
    intros [<- ?]. done.
  - rewrite (bool_decide_eq_false_2 _ Hp).
    destruct (decide (fieldName = k)) as [<-|Hk].
    + by rewrite bool_decide_eq_true_2, lookup_insert_eq.
    + rewrite bool_decide_eq_false_2 by (by intros [? _]).
      by rewrite lookup_insert_ne.
Qed.

Lemma editable_inputs_snoc (form : list FieldDiv) (f : FieldDiv) :
  editable_inputs (form ++ [f]) =
  editable_inputs form ++ (if readOnly f then [] else [f]).
Proof.
  unfold editable_inputs. rewrite filter_app. f_equal.
  destruct (readOnly f) eqn:Hro.
  - rewrite filter_cons_False; [done | by rewrite Hro].
  - by rewrite filter_cons_True.
Qed.

Lemma truthy_true (v : jsstring) : truthy v = true <-> v <> [].
Proof. by destruct v. Qed.

Lemma collect_proto (inputs : list FieldDiv) :
  collect inputs !! js "__proto__" = None.
Proof.
  induction inputs as [|input inputs IH] using rev_ind; [done|].
  rewrite collect_snoc. destruct (truthy _); [|done].
  rewrite assign_lookup, bool_decide_eq_false_2; [done|]. by intros [_ ?].
Qed.

Lemma collect_lookup (form : list FieldDiv) (k : jsstring) :
  k <> js "__proto__" ->
  collect (editable_inputs form) !! k = last_entered form k.
Proof.
  intros Hproto. unfold last_entered.
  induction form as [|f form IH] using rev_ind; [done|].
  rewrite editable_inputs_snoc, filter_app, map_app, filter_app.
  destruct (readOnly f) eqn:Hro.
  - rewrite app_nil_r, filter_cons_False, filter_nil by (intros [? _]; congruence).
    by rewrite app_nil_r.
  - rewrite collect_snoc.
    destruct (decide (label f = k)) as [Hk|Hk].
    + rewrite filter_cons_True, filter_nil by done. cbn [map].
      destruct (truthy (trim (value f))) eqn:Hv.
      * rewrite filter_cons_True, filter_nil by by apply truthy_true.
        rewrite last_snoc, assign_lookup. by rewrite bool_decide_eq_true_2.
      * rewrite filter_cons_False, filter_nil, app_nil_r; [done|].
        intros Hne. apply truthy_true in Hne. congruence.
    + rewrite filter_cons_False, filter_nil by (intros [_ ?]; congruence).
      cbn [map]. rewrite filter_nil, app_nil_r.
      destruct (truthy (trim (value f))); [|done].
      rewrite assign_lookup, bool_decide_eq_false_2; [done|]. by intros [? _].
Qed.

Lemma collect_Some (form : list FieldDiv) (k v : jsstring) :
  collect (editable_inputs form) !! k = Some v ->
  k <> js "__proto__" /\ last_entered form k = Some v.
Proof.
  intros Hk. destruct (decide (k = js "__proto__")) as [->|Hp].
  - by rewrite collect_proto in Hk.
  - split; [done|]. by rewrite <- collect_lookup.
Qed.

Lemma last_entered_Some (form : list FieldDiv) (k v : jsstring) :
  last_entered form k = Some v ->
  v <> [] /\
  exists f, f ∈ form /\ readOnly f = false /\ label f = k /\ trim (value f) = v.
Proof.
  unfold last_entered. intros Hlast. apply last_Some_elem_of in Hlast.
  apply list_elem_of_filter in Hlast as [Hv Hin]. split; [done|].
  apply list_elem_of_fmap in Hin as (f & -> & Hf).
  apply list_elem_of_filter in Hf as [[Hro Hk] Hf]. by exists f.
Qed.

Lemma last_entered_NoDup (form : list FieldDiv) (f : FieldDiv) :
  NoDup (label <$> editable_inputs form) ->
  f ∈ form -> readOnly f = false ->
  last_entered form (label f) =
  if truthy (trim (value f)) then Some (trim (value f)) else None.
Proof.
  unfold last_entered.
  induction form as [|g form IH] using rev_ind; [by intros _ ?%elem_of_nil|].
  rewrite editable_inputs_snoc, fmap_app. intros Hnd Hin Hro.
  apply NoDup_app in Hnd as (Hnd & Hfresh & _).
  rewrite filter_app, map_app, filter_app.
  apply elem_of_app in Hin as [Hin|Hin%list_elem_of_singleton].
  - assert (readOnly g = false -> label g <> label f) as Hg.
    { intros Hrog Heq. apply (Hfresh (label f)).
      - apply list_elem_of_fmap. exists f. split; [done|].
        by apply list_elem_of_filter.
      - rewrite Hrog. cbn. rewrite Heq. by apply list_elem_of_singleton. }
    rewrite (filter_cons_False _ g), filter_nil by (intros [? ?]; by apply Hg).
    cbn [map]. rewrite filter_nil, app_nil_r. by apply IH.
  - subst g. rewrite (filter_cons_True _ f), filter_nil by done. cbn [map].
    destruct (truthy (trim (value f))) eqn:Hv.
    + rewrite filter_cons_True, filter_nil by by apply truthy_true.
      apply last_snoc.
    + rewrite filter_cons_False, filter_nil, app_nil_r.
      2:{ intros Hne. apply truthy_true in Hne. congruence. }
      destruct (filter _ form) as [|g others] eqn:Hfilter; [done|].
      assert (g ∈ filter (fun f0 => readOnly f0 = false /\ label f0 = label f) form)
        as Hg by (rewrite Hfilter; left).
      apply list_elem_of_filter in Hg as [[Hrog Hk] Hg].
      exfalso. apply (Hfresh (label f)).
      * apply list_elem_of_fmap. exists g. split; [done|].
        by apply list_elem_of_filter.
      * rewrite Hro. cbn. by apply list_elem_of_singleton.
Qed.

Example kudu_test : collect (editable_inputs kudu_form) = {[ js "Species" := js "Kudu" ]}.
Proof. vm_compute. reflexivity. Qed.

Lemma log_saveMetadata (w : World) (s : App) :
  exists rest,
    log (saveMetadata w s) =
    log s ++ Fetch (PostSaveMetadata (currentIndex s)
                      (collect (editable_inputs (metadataContainer s)))) :: rest.
Proof.
  unfold saveMetadata; cbv zeta.
  destruct (save_metadata w _ _ _) as [message|result].
  - eexists. prims. rewrite <- app_assoc. reflexivity.
  - destruct (sv_success result).
    + destruct (truthy_opt (sv_message result));
        eexists; prims; rewrite <- ?app_assoc; reflexivity.
    + eexists. prims. rewrite <- app_assoc. reflexivity.
Qed.

(** C3, the divergence.  In the session of a folder whose images carry no
    metadata (the footer extraction has filled in [Temperature_C]), a field
    named [__proto__] is added through the dialog with the value
    ["north"].  The form shows it as an editable input that holds
    ["north"]; the save that follows submits [{Temperature_C: "21"}], an
    object without it, although the input is not readonly and its trimmed
    value is not empty. *)
Theorem saveMetadata_proto_dropped :
  let w := example_world 3 [] in
  let s := run w [Click_addFieldBtn; Input_fieldName (js "__proto__");
                  Input_fieldValue (js "north"); Click_addFieldConfirm]
             (loadFolder w example_start) in
  last (metadataContainer s) =
    Some {| label := js "__proto__"; value := js "north"; readOnly := false;
            deleteBtn := true |} /\
  emitted s (step w Click_saveBtn s) =
    [Fetch (PostSaveMetadata 0 {[ js "Temperature_C" := js "21" ]});
     SetTimeout 3000 (js "Save Metadata")].
Proof. split; vm_compute; reflexivity. Qed.

(** X20. What [save()] submits: for the current index, the object built
    from the non-readonly inputs of the form.  The object never has the
    key [__proto__]; any other key carries the trimmed value of the last
    non-readonly input with that label and a non-empty trimmed value.  So
    no submitted value is empty, every submitted entry comes from a
    non-readonly input, and when the labels of the non-readonly inputs are
    pairwise distinct every one of them other than [__proto__] is submitted
    with its trimmed value exactly when that value is not empty.  The form
    [{Species: "Kudu", Notes: "  "}] submits [{Species: "Kudu"}]. *)
Theorem saveMetadata_payload :
  (forall (w : World) (s : App), exists rest,
      log (saveMetadata w s) =
      log s ++ Fetch (PostSaveMetadata (currentIndex s)
                        (collect (editable_inputs (metadataContainer s)))) :: rest) /\
  (forall (form : list FieldDiv) (k : jsstring),
      collect (editable_inputs form) !! k =
      if bool_decide (k = js "__proto__") then None else last_entered form k) /\
  (forall (form : list FieldDiv) (k v : jsstring),
      collect (editable_inputs form) !! k = Some v ->
      v <> [] /\
      exists f, f ∈ form /\ readOnly f = false /\ label f = k /\ trim (value f) = v) /\
  (forall (form : list FieldDiv) (f : FieldDiv),
      NoDup (label <$> editable_inputs form) ->
      f ∈ form -> readOnly f = false -> label f <> js "__proto__" ->
      collect (editable_inputs form) !! label f =
      if truthy (trim (value f)) then Some (trim (value f)) else None) /\
  collect (editable_inputs kudu_form) = {[ js "Species" := js "Kudu" ]}.
Proof.
  split; [|split; [|split; [|split]]].
  - apply log_saveMetadata.
  - intros form k. destruct (decide (k = js "__proto__")) as [->|Hk].
    + rewrite bool_decide_eq_true_2 by done. apply collect_proto.
    + rewrite bool_decide_eq_false_2 by done. by apply collect_lookup.
  - intros form k v [_ Hlast]%collect_Some. by apply last_entered_Some in Hlast.
  - intros form f Hnd Hin Hro Hproto. rewrite collect_lookup by done.
    by apply last_entered_NoDup.
  - vm_compute. reflexivity.
Qed.

Lemma saveMetadata_payload_witness :
  NoDup (label <$> editable_inputs kudu_form) /\
  collect (editable_inputs kudu_form) !! js "Species" = Some (js "Kudu") /\
  collect (editable_inputs kudu_form) !! js "Notes" = None.
Proof.
  assert (NoDup (label <$> editable_inputs kudu_form)) as Hnd.
  { apply (bool_decide_unpack _). vm_compute. exact I. }
  destruct saveMetadata_payload as (_ & _ & _ & Hall & _).
  split; [exact Hnd|]. split.
  - apply (Hall kudu_form
             {| label := js "Species"; value := js "Kudu"; readOnly := false;
                deleteBtn := false |} Hnd); [|reflexivity|vm_compute; discriminate].
    apply list_elem_of_In. left. reflexivity.
  - apply (Hall kudu_form
             {| label := js "Notes"; value := js "  "; readOnly := false;
                deleteBtn := false |} Hnd); [|reflexivity|vm_compute; discriminate].
    apply list_elem_of_In. right. left. reflexivity.
Defined.

(** ** Rendering the form *)

Lemma isCommonField_true (field : jsstring) :
  field ∈ commonFields -> isCommonField field = true.
Proof. intros Hin. unfold isCommonField, includes. by apply bool_decide_eq_true. Qed.

Lemma createMetadataField_entry (kv : jsstring * jsstring) (s : App) :
  metadataContainer
    (createMetadataField kv.1 kv.2 (includes readonlyFields (toLowerCase kv.1)) s)
  = metadataContainer s ++ [entry_field kv].
Proof.
  unfold createMetadataField, entry_field, isCommonField, includes. prims.
  do 3 f_equal. f_equal. by rewrite bool_decide_not.
Qed.

Lemma createMetadataField_empty (field : jsstring) (s : App) :
  field ∈ commonFields ->
  metadataContainer (createMetadataField field [] false s)
  = metadataContainer s ++ [empty_field field].
Proof.
  intros Hin. unfold createMetadataField, empty_field. prims.
  by rewrite isCommonField_true.
Qed.

Lemma render_entries (m : Metadata) (s : App) :
  metadataContainer
    (fold_left
       (fun s kv =>
          createMetadataField kv.1 kv.2 (includes readonlyFields (toLowerCase kv.1)) s)
       m s)
  = metadataContainer s ++ map entry_field m.
Proof.
  revert s. induction m as [|kv m IH]; intros s; cbn [fold_left map].
  - by rewrite app_nil_r.
  - by rewrite IH, createMetadataField_entry, <- app_assoc.
Qed.

Lemma hasOwnProperty_call_Some (m : Metadata) (k : jsstring) :
  ~ shadowed m -> hasOwnProperty_call m k = Some (hasOwnProperty m k).
Proof.
  intros Hm. unfold hasOwnProperty_call, hasOwnProperty at 1.
  by rewrite bool_decide_eq_false_2.
Qed.

Lemma hasOwnProperty_call_None (m : Metadata) (k : jsstring) :
  shadowed m -> hasOwnProperty_call m k = None.
Proof.
  intros Hm. unfold hasOwnProperty_call, hasOwnProperty at 1.
  by rewrite bool_decide_eq_true_2.
Qed.

Lemma render_common (w : World) (fields : list jsstring) (s : App) :
  Forall (fun field => field ∈ commonFields) fields ->
  ~ shadowed (currentMetadata s) ->
  thrown (add_commonFields w fields s) = None /\
  currentMetadata (state (add_commonFields w fields s)) = currentMetadata s /\
  metadataContainer (state (add_commonFields w fields s))
  = metadataContainer s
    ++ map empty_field (filter (fun field => field ∉ keys (currentMetadata s)) fields).
Proof.
  intros Hfields. revert s.
  induction Hfields as [|field fields Hin _ IH]; intros s Hm; cbn [add_commonFields].
  - by rewrite app_nil_r.
  - rewrite hasOwnProperty_call_Some by done. cbv zeta.
    unfold hasOwnProperty, keys.
    destruct (decide (field ∈ (currentMetadata s).*1)) as [Hown|Hown].
    + rewrite bool_decide_eq_true_2 by done. cbn [negb].
      rewrite filter_cons_False by (intros Hn; by apply Hn). by apply IH.
    + rewrite bool_decide_eq_false_2 by done. cbn [negb].
      rewrite filter_cons_True by done.
      destruct (IH (createMetadataField field [] false s)) as (Hthrown & Hmd & Hform);
        [done|].
      rewrite Hthrown, Hmd, Hform, createMetadataField_empty by done.
      split; [done|]. split; [done|].
      unfold createMetadataField. prims. by rewrite <- app_assoc.
Qed.

Lemma add_commonFields_throw (w : World) (fields : list jsstring) (s : App) :
  fields <> [] ->
  shadowed (currentMetadata s) ->
  add_commonFields w fields s = Throw (not_a_function w) s.
Proof.
  intros Hfields Hm. destruct fields as [|field fields]; [done|].
  cbn [add_commonFields]. by rewrite hasOwnProperty_call_None.
Qed.

(** The completion of [displayMetadata] and the form it leaves. *)
Lemma displayMetadata_normal (w : World) (s : App) :
  ~ shadowed (currentMetadata s) ->
  thrown (displayMetadata w s) = None /\
  metadataContainer (state (displayMetadata w s)) =
  map entry_field (currentMetadata s)
  ++ map empty_field (filter (fun field => field ∉ keys (currentMetadata s)) commonFields).
Proof.
  intros Hm. unfold displayMetadata; cbv zeta.
  match goal with |- context [add_commonFields w commonFields ?s0] =>
    assert (currentMetadata s0 = currentMetadata s) as Hmd
      by (rewrite fold_left_frame; [done|]; intros; by unfold createMetadataField);
    destruct (render_common w commonFields s0) as (Hthrown & _ & Hform);
      [apply Forall_forall; auto | by rewrite Hmd |]
  end.
  split; [exact Hthrown|]. rewrite Hform, Hmd, render_entries. by prims.
Qed.

Lemma displayMetadata_throw (w : World) (s : App) :
  shadowed (currentMetadata s) ->
  thrown (displayMetadata w s) = Some (not_a_function w) /\
  metadataContainer (state (displayMetadata w s)) = map entry_field (currentMetadata s).
Proof.
  intros Hm. unfold displayMetadata; cbv zeta.
  match goal with |- context [add_commonFields w commonFields ?s0] =>
    assert (currentMetadata s0 = currentMetadata s) as Hmd
      by (rewrite fold_left_frame; [done|]; intros; by unfold createMetadataField)
  end.
  rewrite add_commonFields_throw by (done || by rewrite Hmd).
  split; [reflexivity|]. prims. rewrite render_entries. by prims.
Qed.

(** C4, the divergence.  For the mapping
    [{Species: "Kudu", hasOwnProperty: "yes"}] the two entries are
    rendered and the call of [hasOwnProperty] for the first common name
    throws: the form is left without the nine common fields the mapping
    lacks.  A load that receives this mapping alerts the error. *)
Theorem displayMetadata_shadowed :
  let w := example_world 3 shadowing_metadata in
  let rendered := displayMetadata w (set_currentMetadata shadowing_metadata example_loaded) in
  thrown rendered = Some (js "this.currentMetadata.hasOwnProperty is not a function") /\
  metadataContainer (state rendered) =
    [ {| label := js "Species"; value := js "Kudu"; readOnly := false;
         deleteBtn := false |};
      {| label := js "hasOwnProperty"; value := js "yes"; readOnly := false;
         deleteBtn := true |} ] /\
  form_labels (loadFolder w example_start) = [js "Species"; js "hasOwnProperty"] /\
  last (log (loadFolder w example_start)) =
    Some (Alert (js "Error loading image: this.currentMetadata.hasOwnProperty is not a function")).
Proof. repeat split; vm_compute; reflexivity. Qed.

(** X19. What [displayMetadata] renders.  For a mapping without a key named
    [hasOwnProperty] it completes, and the form is one field per entry of
    [currentMetadata], readonly exactly when the lower-cased key is one of
    [filename], [size_mb], [dimensions], followed by one empty editable
    field for each common name that is not a key of the mapping.  For a
    mapping with such a key it throws after the entries: the form holds the
    fields of the entries only.  In both cases a readonly field and a field
    with a common name carry no delete button.  For [{Species: "Kudu"}] the
    form is the editable field [Species] holding ["Kudu"] followed by the
    nine other common names, empty and editable. *)
Theorem displayMetadata_rendering :
  (forall (w : World) (s : App),
      ~ shadowed (currentMetadata s) ->
      thrown (displayMetadata w s) = None /\
      metadataContainer (state (displayMetadata w s)) =
      map entry_field (currentMetadata s)
      ++ map empty_field
           (filter (fun field => field ∉ keys (currentMetadata s)) commonFields)) /\
  (forall (w : World) (s : App),
      shadowed (currentMetadata s) ->
      thrown (displayMetadata w s) = Some (not_a_function w) /\
      metadataContainer (state (displayMetadata w s)) =
      map entry_field (currentMetadata s)) /\
  (forall kv : jsstring * jsstring,
      label (entry_field kv) = kv.1 /\
      (readOnly (entry_field kv) = true <->
       toLowerCase kv.1 ∈ [js "filename"; js "size_mb"; js "dimensions"])) /\
  (forall (w : World) (s : App) (f : FieldDiv),
      f ∈ metadataContainer (state (displayMetadata w s)) ->
      readOnly f = true \/ label f ∈ commonFields ->
      deleteBtn f = false) /\
  (forall w : World,
      metadataContainer (state (displayMetadata w kudu_session)) =
      {| label := js "Species"; value := js "Kudu"; readOnly := false;
         deleteBtn := false |}
      :: map empty_field
           [js "Count"; js "Behavior"; js "Weather"; js "Temperature_C";
            js "Temperature_F"; js "Location"; js "Camera_ID"; js "Researcher";
            js "Notes"]).
Proof.
  assert (forall kv, readOnly (entry_field kv) = true \/ label (entry_field kv) ∈ commonFields ->
                     deleteBtn (entry_field kv) = false) as Hentry.
  { intros kv Hcase. unfold entry_field in *. cbn [readOnly label deleteBtn] in *.
    destruct Hcase as [->|Hcommon]; [done|].
    rewrite (bool_decide_eq_false_2 (kv.1 ∉ commonFields)) by (intros Hn; by apply Hn).
    apply andb_false_r. }
  split; [|split; [|split; [|split]]].
  - apply displayMetadata_normal.
  - apply displayMetadata_throw.
  - intros kv. split; [done|]. unfold entry_field. cbn [readOnly].
    apply bool_decide_eq_true.
  - intros w s f.
    destruct (decide (shadowed (currentMetadata s))) as [Hm|Hm].
    + destruct (displayMetadata_throw w s Hm) as [_ ->].
      intros (kv & -> & _)%list_elem_of_fmap. apply Hentry.
    + destruct (displayMetadata_normal w s Hm) as [_ ->].
      intros [Hin|Hin]%elem_of_app Hcase.
      * apply list_elem_of_fmap in Hin as (kv & -> & _). by apply Hentry.
      * by apply list_elem_of_fmap in Hin as (field & -> & _).
  - intros w.
    destruct (displayMetadata_normal w kudu_session) as [_ ->].
    + unfold shadowed. apply (bool_decide_unpack _). vm_compute. exact I.
    + vm_compute. reflexivity.
Qed.

Lemma displayMetadata_rendering_witness :
  let w := example_world 3 example_metadata in
  ~ shadowed (currentMetadata kudu_session) /\
  thrown (displayMetadata w kudu_session) = None /\
  shadowed shadowing_metadata /\
  thrown (displayMetadata w (set_currentMetadata shadowing_metadata kudu_session))
    = Some (not_a_function w).
Proof.
  intros w.
  assert (~ shadowed (currentMetadata kudu_session)) as Hfree.
  { apply (bool_decide_unpack _). vm_compute. exact I. }
  assert (shadowed shadowing_metadata) as Hshadow.
  { apply (bool_decide_unpack _). vm_compute. exact I. }
  destruct displayMetadata_rendering as (Hnormal & Hthrow & _).
  split; [exact Hfree|]. split; [apply (Hnormal w kudu_session Hfree)|].
  split; [exact Hshadow|].
  apply (Hthrow w (set_currentMetadata shadowing_metadata kudu_session) Hshadow).
Defined.

(** ** Region selector *)

Lemma log_handleIdentificationResult (idn : Identification) (s : App) :
  exists message,
    log (handleIdentificationResult idn s) = log s ++ [Alert message].
Proof.
  eexists. cbv beta delta [handleIdentificationResult].
  repeat lazymatch goal with
         | |- log (let x := ?a in @?b x) = ?rhs =>
             first [ apply (frame_let_post log a b (log s) (fun l => l = rhs));
                     [frame | intros ? ?]
                   | apply (frame_let_any_post log a b (fun l => l = rhs));
                     intros ? ]
         end.
  prims. f_equal. assumption.
Qed.

Lemma currentIndex_handleIdentificationResult idn s :
  currentIndex (handleIdentificationResult idn s) = currentIndex s.
Proof. frame_of handleIdentificationResult. Qed.

Lemma totalImages_handleIdentificationResult idn s :
  totalImages (handleIdentificationResult idn s) = totalImages s.
Proof. frame_of handleIdentificationResult. Qed.

Lemma currentMetadata_handleIdentificationResult idn s :
  currentMetadata (handleIdentificationResult idn s) = currentMetadata s.
Proof. frame_of handleIdentificationResult. Qed.

Lemma disabled_handleIdentificationResult idn s :
  disabled (handleIdentificationResult idn s) = disabled s.
Proof. frame_of handleIdentificationResult. Qed.

#[global] Hint Rewrite
  currentIndex_handleIdentificationResult totalImages_handleIdentificationResult
  currentMetadata_handleIdentificationResult
  disabled_handleIdentificationResult : frame.

Arguments handleIdentificationResult : simpl never.

Lemma log_identifySpecies (w : World) (s : App) (selection : Rect) :
  currentSelection s = Some selection ->
  exists message,
    log (identifySpecies w s) =
    log s ++ [Fetch (PostIdentifySpecies (currentIndex s) selection); Alert message].
Proof.
  intros Hsel. unfold identifySpecies. rewrite Hsel. prims.
  destruct (identify_species w (tick s) (currentIndex s) selection)
    as [message|result].
  - eexists. prims. rewrite <- app_assoc. reflexivity.
  - destruct (id_success result).
    + match goal with
      | |- context [handleIdentificationResult ?idn ?s0] =>
          destruct (log_handleIdentificationResult idn s0) as [message Hlog]
      end.
      exists message. prims. rewrite Hlog. prims. by rewrite <- app_assoc.
    + eexists. prims. rewrite <- app_assoc. reflexivity.
Qed.

(** [Math.max(0, n)] is never negative; it is [NaN] only for [NaN]. *)
Lemma Math_max_0_not_negative (n : float) : ltb (Math_max 0 n) 0 = false.
Proof.
  unfold Math_max.
  change (is_nan 0) with false. change (is_nzero 0) with false.
  rewrite andb_false_r, orb_false_r. cbn [orb].
  destruct (is_nan n); [reflexivity|].
  destruct (ltb 0 n) eqn:Hlt; [|reflexivity].
  rewrite ltb_spec in Hlt. rewrite ltb_spec.
  change (Prim2SF 0) with (S754_zero false) in *.
  destruct (Prim2SF n) as [sign|sign| |sign m e]; try destruct sign;
    cbn in Hlt |- *; congruence.
Qed.

(** C5. A drag that ends while the selector is dragging.  Its width and
    height in display pixels are the distances, as Numbers, between the
    anchor and the pointer position in the wrapper.  If one of them is below
    20 the selection is discarded: nothing is requested and the selector is
    back in [Idle] with no selection.  Otherwise one identification request
    is made for the current index; its rectangle is the box moved by the
    offset of the image in its wrapper and multiplied by
    [naturalWidth / clientWidth], resp. [naturalHeight / clientHeight], the
    origin clamped by [Math.max(0, ...)], so that neither coordinate of the
    origin is negative.  The drag (10,10)-(25,22) is discarded, the drag
    (10,10)-(40,50) requests the rectangle (20, 20, 60, 80) of the image
    shown at half size. *)
Theorem endSelection_spec :
  (forall (w : World) (e : MouseEvent) (l : Layout) (s : App) (start : Point),
      isSelecting s = true -> selectionStart s = Some start ->
      (ltb (drag_width start e l) 20 = true \/
       ltb (drag_height start e l) 20 = true ->
         endSelection w e l s = cancelIdentifyMode s /\
         log (endSelection w e l s) = log s /\
         selector_state (endSelection w e l s) = Idle /\
         currentSelection (endSelection w e l s) = None) /\
      (ltb (drag_width start e l) 20 = false /\
       ltb (drag_height start e l) 20 = false ->
         exists (rect : Rect) (message : jsstring),
           log (endSelection w e l s) =
             log s ++ [Fetch (PostIdentifySpecies (currentIndex s) rect); Alert message] /\
           x rect =
             Math_max 0
               (mul (sub (Math_min (pt_x start) (sub (clientX e) (wrapperRect_left l)))
                       (sub (imageRect_left l) (wrapperRect_left l)))
                  (div (naturalWidth l) (clientWidth l))) /\
           y rect =
             Math_max 0
               (mul (sub (Math_min (pt_y start) (sub (clientY e) (wrapperRect_top l)))
                       (sub (imageRect_top l) (wrapperRect_top l)))
                  (div (naturalHeight l) (clientHeight l))) /\
           width rect =
             mul (drag_width start e l) (div (naturalWidth l) (clientWidth l)) /\
           height rect =
             mul (drag_height start e l) (div (naturalHeight l) (clientHeight l)) /\
           rect = natural_rect start e l /\
           ltb (x rect) 0 = false /\
           ltb (y rect) 0 = false)) /\
  (let s' := endSelection (example_world 3 example_metadata)
               {| clientX := 25; clientY := 22 |} example_layout example_dragging in
   selector_state example_dragging = Dragging /\
   log s' = log example_dragging /\ selector_state s' = Idle) /\
  (let s' := endSelection (example_world 3 example_metadata)
               {| clientX := 40; clientY := 50 |} example_layout example_dragging in
   exists message : jsstring,
     log s' =
     log example_dragging
       ++ [Fetch (PostIdentifySpecies 0
                    {| x := 20; y := 20; width := 60; height := 80 |});
           Alert message]).
Proof.
  split; [|split].
  - intros w e l s start Hsel Hstart.
    unfold drag_width, drag_height, endSelection. rewrite Hstart, Hsel.
    cbn [negb]. cbv zeta. split.
    + intros Hsmall.
      match goal with
      | |- context [if ?c then _ else _] => assert (c = true) as ->
      end.
      { apply orb_true_iff. exact Hsmall. }
      unfold selector_state. by prims.
    + intros [Hw Hh].
      match goal with
      | |- context [if ?c then _ else _] => assert (c = false) as ->
      end.
      { apply orb_false_iff. by split. }
      match goal with
      | |- context [identifySpecies w (set_currentSelection (Some ?r) s)] =>
          destruct (log_identifySpecies w (set_currentSelection (Some r) s) r)
            as [message Hlog]; [done|]; exists r, message
      end.
      split; [exact Hlog|]. cbn [x y width height].
      repeat split; try reflexivity; apply Math_max_0_not_negative.
  - vm_compute. repeat split.
  - eexists. vm_compute. reflexivity.
Qed.

Lemma endSelection_spec_witness :
  let w := example_world 3 example_metadata in
  let e := {| clientX := 25; clientY := 22 |} in
  let start := {| pt_x := 10; pt_y := 10 |} in
  isSelecting example_dragging = true /\
  selectionStart example_dragging = Some start /\
  (ltb (drag_width start e example_layout) 20 = true \/
   ltb (drag_height start e example_layout) 20 = true) /\
  log (endSelection w e example_layout example_dragging) = log example_dragging.
Proof.
  intros w e start.
  assert (isSelecting example_dragging = true) as Hsel
    by (vm_compute; reflexivity).
  assert (selectionStart example_dragging = Some start) as Hstart
    by (vm_compute; reflexivity).
  assert (ltb (drag_width start e example_layout) 20 = true \/
          ltb (drag_height start e example_layout) 20 = true) as Hsmall
    by (left; vm_compute; reflexivity).
  split; [exact Hsel|]. split; [exact Hstart|]. split; [exact Hsmall|].
  destruct endSelection_spec as [Hall _].
  destruct (Hall w e example_layout example_dragging start Hsel Hstart)
    as [Hdiscard _].
  apply (Hdiscard Hsmall).
Defined.

(** ** Debug log *)

Lemma slice_last_short (n : nat) (s : jsstring) :
  (length s <= n)%nat -> slice_last n s = s.
Proof.
  intros Hlen. unfold slice_last.
  by replace (length s - n)%nat with 0%nat by lia.
Qed.

Lemma length_slice_last (n : nat) (s : jsstring) :
  (n <= length s)%nat -> length (slice_last n s) = n.
Proof. intros Hlen. unfold slice_last. rewrite length_drop. lia. Qed.

(** Truncating, appending and truncating again keeps what truncating the
    whole concatenation keeps. *)
Lemma slice_last_app (n : nat) (a b : jsstring) :
  slice_last n (slice_last n a ++ b) = slice_last n (a ++ b).
Proof.
  destruct (decide (length a <= n)%nat) as [Hshort|Hlong].
  - by rewrite (slice_last_short n a).
  - unfold slice_last.
    assert (length (drop (length a - n) a ++ b) - n = length b)%nat as ->
      by (rewrite length_app, length_drop; lia).
    assert (length (a ++ b) - n = (length a - n) + length b)%nat as ->
      by (rewrite length_app; lia).
    rewrite <- drop_drop. by rewrite (drop_app_le a b) by lia.
Qed.

Lemma debugBuffer_addDebugOutput (w : World) (message : jsstring) (s : App) :
  debugBuffer (addDebugOutput w message s) =
  slice_last 500
    (debugBuffer s ++ formattedMessage (toLocaleTimeString w (tick s)) message).
Proof.
  unfold addDebugOutput. prims.
  destruct (Nat.ltb_spec 500
              (length (debugBuffer s
                       ++ formattedMessage (toLocaleTimeString w (tick s)) message)));
    prims; [done|].
  by rewrite slice_last_short by lia.
Qed.

Lemma tick_addDebugOutput (w : World) (message : jsstring) (s : App) :
  tick (addDebugOutput w message s) = S (tick s).
Proof. unfold addDebugOutput. prims. by destruct (_ <? _)%nat. Qed.

Lemma debugBuffer_appendDebugOutputs (w : World) (messages : list jsstring) (s : App) :
  (length (debugBuffer s) <= 500)%nat ->
  debugBuffer (appendDebugOutputs w messages s) =
  slice_last 500 (debugBuffer s ++ concat (debug_entries w (tick s) messages)).
Proof.
  unfold appendDebugOutputs, debug_entries. revert s.
  induction messages as [|message messages IH]; intros s Hlen; cbn [fold_left].
  - cbn. by rewrite app_nil_r, slice_last_short.
  - rewrite IH.
    + rewrite debugBuffer_addDebugOutput, tick_addDebugOutput, slice_last_app.
      rewrite imap_cons. cbn [concat]. rewrite <- app_assoc, Nat.add_0_r.
      do 4 f_equal. apply imap_ext. intros i m _. cbn. do 2 f_equal. lia.
    + rewrite debugBuffer_addDebugOutput. unfold slice_last.
      rewrite length_drop. lia.
Qed.

(** C6. Appends to an empty debug buffer: when the timestamped entries,
    concatenated, are longer than 500 characters the buffer is exactly the
    last 500 characters of the concatenation, what is dropped being its
    front; when they are not the buffer is the whole concatenation. *)
Theorem addDebugOutput_spec (w : World) (messages : list jsstring) (s : App) :
  debugBuffer s = [] ->
  let written := concat (debug_entries w (tick s) messages) in
  let buffer := debugBuffer (appendDebugOutputs w messages s) in
  ((500 < length written)%nat ->
     buffer = drop (length written - 500) written /\
     length buffer = 500%nat /\
     written = take (length written - 500) written ++ buffer) /\
  ((length written <= 500)%nat -> buffer = written).
Proof.
  intros Hempty written buffer. subst buffer.
  rewrite debugBuffer_appendDebugOutputs by (rewrite Hempty; cbn; lia).
  rewrite Hempty. cbn [app]. fold written. split.
  - intros Hlong. unfold slice_last. split; [done|]. split.
    + rewrite length_drop. lia.
    + by rewrite take_drop.
  - intros Hshort. by apply slice_last_short.
Qed.

Lemma addDebugOutput_spec_witness :
  let w := example_world 3 example_metadata in
  let s := constructor example_page in
  let written := concat (debug_entries w (tick s) example_messages) in
  debugBuffer s = [] /\
  (500 < length written)%nat /\
  debugBuffer (appendDebugOutputs w example_messages s)
    = drop (length written - 500) written.
Proof.
  intros w s written.
  assert (debugBuffer s = []) as Hempty by reflexivity.
  assert (500 < length written)%nat as Hlong.
  { apply Nat.ltb_lt. vm_compute. reflexivity. }
  split; [exact Hempty|]. split; [exact Hlong|].
  destruct (addDebugOutput_spec w example_messages s Hempty) as [Hover _].
  apply (Hover Hlong).
Defined.

(** ** Footer extraction after an image load *)

Lemma get_None (k : jsstring) (m : Metadata) : get k m = None <-> k ∉ keys m.
Proof.
  unfold keys. induction m as [|[k' v] m IH].
  - split; [intros _; apply not_elem_of_nil | done].
  - change (get k ((k', v) :: m))
      with (if decide (k' = k) then Some v else get k m).
    rewrite fmap_cons, not_elem_of_cons. cbn [fst].
    destruct (decide (k' = k)) as [->|Hne].
    + split; [done | by intros [? _]].
    + rewrite IH. split; [by intros ?; split | by intros [_ ?]].
Qed.

(** The condition of the [if] in [loadCurrentImage]: some key of the three
    has a falsy value. *)
Lemma footer_incomplete (m : Metadata) :
  negb (truthy_opt (get (js "Temperature_C") m))
  || negb (truthy_opt (get (js "Temperature_F") m))
  || negb (truthy_opt (get (js "Camera_ID") m)) = true
  <-> exists k, k ∈ footer_keys /\ (k ∉ keys m \/ get k m = Some []).
Proof.
  assert (forall k, negb (truthy_opt (get k m)) = true
                    <-> (k ∉ keys m \/ get k m = Some [])) as Hfalsy.
  { intros k. rewrite <- get_None. unfold truthy_opt.
    destruct (get k m) as [[|c v]|]; cbn.
    - split; [by right | done].
    - split; [done | by intros [?|?]].
    - split; [by left | done]. }
  rewrite !orb_true_iff, !Hfalsy. unfold footer_keys. split.
  - intros [[H|H]|H]; eexists; (split; [|exact H]);
      apply list_elem_of_In; cbn; tauto.
  - intros (k & Hk & H).
    rewrite !elem_of_cons in Hk. destruct Hk as [->|[->|[->|[]%elem_of_nil]]]; auto.
Qed.

Lemma loadCurrentImage_received (w : World) (s : App) (imageData : ImageData) :
  image w (tick s) (currentIndex s) = Got imageData ->
  truthy_opt (img_error imageData) = false ->
  loadCurrentImage w s =
  let s := received w imageData s in
  let rendered := displayMetadata w s in
  let s := state rendered in
  match thrown rendered with
  | Some message => loadCurrentImage_catch w message s
  | None =>
      if negb (truthy_opt (get (js "Temperature_C") (currentMetadata s)))
         || negb (truthy_opt (get (js "Temperature_F") (currentMetadata s)))
         || negb (truthy_opt (get (js "Camera_ID") (currentMetadata s)))
      then
        extractFooterDataSilent w
          (addDebugOutput w (js "Missing metadata - extracting footer data...")
             (addDebugOutput w (js "Loading image " ++ filename imageData) s))
      else
        addDebugOutput w
          (js "Image " ++ filename imageData ++ js " loaded - metadata complete") s
  end.
Proof. intros Hresp Herr. unfold loadCurrentImage. by rewrite Hresp, Herr. Qed.

Lemma log_received (w : World) (imageData : ImageData) (s : App) :
  log (received w imageData s) = log s ++ [Fetch (GetImage (currentIndex s))].
Proof. reflexivity. Qed.

Lemma totalImages_received (w : World) (imageData : ImageData) (s : App) :
  totalImages (received w imageData s) = totalImages s.
Proof. reflexivity. Qed.

Lemma currentIndex_received (w : World) (imageData : ImageData) (s : App) :
  currentIndex (received w imageData s) = currentIndex s.
Proof. reflexivity. Qed.

Lemma currentMetadata_received (w : World) (imageData : ImageData) (s : App) :
  currentMetadata (received w imageData s) = default [] (metadata imageData).
Proof. reflexivity. Qed.

Arguments received : simpl never.

(** The effects of a successful image load, in full. *)
Lemma log_loadCurrentImage_success (w : World) (s : App) (imageData : ImageData) :
  image w (tick s) (currentIndex s) = Got imageData ->
  truthy_opt (img_error imageData) = false ->
  let m := default [] (metadata imageData) in
  ~ shadowed m ->
  log (loadCurrentImage w s) =
  log s ++ Fetch (GetImage (currentIndex s))
        :: (if negb (truthy_opt (get (js "Temperature_C") m))
               || negb (truthy_opt (get (js "Temperature_F") m))
               || negb (truthy_opt (get (js "Camera_ID") m))
            then if totalImages s =? 0 then []
                 else [Fetch (GetExtractFooter (currentIndex s))]
            else []).
Proof.
  intros Hresp Herr m Hm.
  rewrite (loadCurrentImage_received w s imageData Hresp Herr). cbv zeta.
  destruct (displayMetadata_normal w (received w imageData s)) as [-> _];
    [by rewrite currentMetadata_received|].
  rewrite currentMetadata_displayMetadata, currentMetadata_received. fold m.
  destruct (negb _ || negb _ || negb _); autorewrite with frame.
  - rewrite log_received, totalImages_received, currentIndex_received.
    by rewrite <- app_assoc.
  - by rewrite log_received.
Qed.

(** The effects of a load whose response carries a mapping with a key
    named [hasOwnProperty]: the exception of [displayMetadata] is caught
    and alerted, the footer is not looked at. *)
Lemma log_loadCurrentImage_shadowed (w : World) (s : App) (imageData : ImageData) :
  image w (tick s) (currentIndex s) = Got imageData ->
  truthy_opt (img_error imageData) = false ->
  shadowed (default [] (metadata imageData)) ->
  log (loadCurrentImage w s) =
  log s ++ [Fetch (GetImage (currentIndex s));
            Alert (js "Error loading image: " ++ not_a_function w)].
Proof.
  intros Hresp Herr Hm.
  rewrite (loadCurrentImage_received w s imageData Hresp Herr). cbv zeta.
  destruct (displayMetadata_throw w (received w imageData s)) as [-> _];
    [by rewrite currentMetadata_received|].
  rewrite log_loadCurrentImage_catch, log_displayMetadata, log_received.
  by rewrite <- app_assoc.
Qed.

(** C7, as amended.  After a successful image load in a loaded folder,
    the loaded mapping having no key named [hasOwnProperty], the
    footer-extraction request for the current index is emitted if and only
    if one of [Temperature_C], [Temperature_F], [Camera_ID] is absent from
    the loaded mapping or present with an empty value; with all three
    present and non-empty the only request is the one for the image. *)
Theorem loadCurrentImage_footer_spec
    (w : World) (s : App) (imageData : ImageData) :
  image w (tick s) (currentIndex s) = Got imageData ->
  truthy_opt (img_error imageData) = false ->
  totalImages s <> 0 ->
  let m := default [] (metadata imageData) in
  ~ shadowed m ->
  (Fetch (GetExtractFooter (currentIndex s)) ∈ emitted s (loadCurrentImage w s)
   <-> exists k, k ∈ footer_keys /\ (k ∉ keys m \/ get k m = Some [])) /\
  ((forall k, k ∈ footer_keys -> exists v, get k m = Some v /\ v <> []) ->
   emitted s (loadCurrentImage w s) = [Fetch (GetImage (currentIndex s))]).
Proof.
  intros Hresp Herr Htotal m Hm. unfold emitted.
  rewrite (log_loadCurrentImage_success w s imageData Hresp Herr Hm).
  rewrite drop_app_length. fold m. rewrite <- footer_incomplete.
  apply Z.eqb_neq in Htotal as ->.
  destruct (negb _ || negb _ || negb _) eqn:Hcond.
  - split; [split; [done | intros _; set_solver]|].
    intros Hall. apply footer_incomplete in Hcond as (k & Hk & Hmissing).
    destruct (Hall k Hk) as (v & Hv & Hne).
    destruct Hmissing as [Habsent%get_None|Hblank]; congruence.
  - split; [|done]. split; [|done].
    intros [Hin|Hin%elem_of_nil]%elem_of_cons; done.
Qed.

Lemma loadCurrentImage_footer_spec_witness :
  let w := example_world 3 blank_temperature in
  let s := example_loaded in
  totalImages s <> 0 /\
  Fetch (GetExtractFooter (currentIndex s)) ∈ emitted s (loadCurrentImage w s).
Proof.
  intros w s.
  assert (totalImages s <> 0) as Htotal by (vm_compute; discriminate).
  assert (~ shadowed blank_temperature) as Hfree.
  { apply (bool_decide_unpack _). vm_compute. exact I. }
  split; [exact Htotal|].
  destruct (loadCurrentImage_footer_spec w s
              {| img_error := None; filename := js "IMG_0001.JPG";
                 dimensions := js "640x480"; size_mb := js "1.2";
                 index := currentIndex s; total := 3;
                 metadata := Some blank_temperature |}
              eq_refl eq_refl Htotal Hfree) as [Hiff _].
  apply Hiff. exists (js "Temperature_C"). split.
  - apply list_elem_of_In. left. reflexivity.
  - right. reflexivity.
Defined.

(** C7 as the specification words it fails on the code: all three keys
    are present in [blank_temperature], none is absent, and the footer
    extraction is requested all the same. *)
Lemma footer_trigger_counterexample :
  let w := example_world 3 blank_temperature in
  image w (tick example_loaded) (currentIndex example_loaded)
    = Got {| img_error := None; filename := js "IMG_0001.JPG";
             dimensions := js "640x480"; size_mb := js "1.2";
             index := 0; total := 3; metadata := Some blank_temperature |} /\
  (forall k, k ∈ footer_keys -> k ∈ keys blank_temperature) /\
  Fetch (GetExtractFooter 0) ∈ emitted example_loaded (loadCurrentImage w example_loaded) /\
  ~ (Fetch (GetExtractFooter 0) ∈ emitted example_loaded (loadCurrentImage w example_loaded)
     <-> exists k, k ∈ footer_keys /\ k ∉ keys blank_temperature).
Proof.
  intros w.
  assert (forall k, k ∈ footer_keys -> k ∈ keys blank_temperature) as Hpresent.
  { intros k Hk. unfold footer_keys in Hk. rewrite !elem_of_cons in Hk.
    destruct Hk as [->|[->|[->|[]%elem_of_nil]]];
      apply list_elem_of_In; vm_compute; tauto. }
  assert (Fetch (GetExtractFooter 0)
            ∈ emitted example_loaded (loadCurrentImage w example_loaded)) as Hfetch.
  { apply list_elem_of_In. vm_compute. right. left. reflexivity. }
  split; [vm_compute; reflexivity|]. split; [exact Hpresent|]. split; [exact Hfetch|].
  intros Hiff. apply Hiff in Hfetch as (k & Hk & Habsent).
  apply Habsent, Hpresent, Hk.
Qed.

(** ** Adding a field *)

Lemma hasOwnProperty_true (m : Metadata) (k : jsstring) :
  hasOwnProperty m k = true <-> k ∈ keys m.
Proof. unfold hasOwnProperty, keys. apply bool_decide_eq_true. Qed.

(** C8, as amended.  [addCustomField] reads the trimmed name and value of
    the dialog.  With a blank name it only alerts, and so it does, when
    [currentMetadata] has no key named [hasOwnProperty], with a name that
    is a key of [currentMetadata]: [currentMetadata] and the form are what
    they were.  When [currentMetadata] has no key named [hasOwnProperty],
    with a name that is neither a key of [currentMetadata] nor the label of
    a field of the form it appends exactly one field, not readonly, with a
    delete button exactly when the name is not a common field name, closes
    the dialog, alerts nothing and leaves [currentMetadata] alone; labels
    that were pairwise distinct stay so. *)
Theorem addCustomField_spec (w : World) (s : App) :
  let name := trim (text s fieldName) in
  let value := trim (text s fieldValue) in
  let s' := state (addCustomField w s) in
  (name = [] \/
   (~ shadowed (currentMetadata s) /\ name ∈ keys (currentMetadata s)) ->
     thrown (addCustomField w s) = None /\
     (exists message, s' = alert message s) /\
     currentMetadata s' = currentMetadata s /\
     metadataContainer s' = metadataContainer s) /\
  (~ shadowed (currentMetadata s) ->
   name <> [] -> name ∉ keys (currentMetadata s) -> name ∉ form_labels s ->
     thrown (addCustomField w s) = None /\
     metadataContainer s' =
       metadataContainer s
       ++ [{| label := name; value := sanitize value; readOnly := false;
              deleteBtn := bool_decide (name ∉ commonFields) |}] /\
     currentMetadata s' = currentMetadata s /\
     classList s' addFieldModal hidden = true /\
     log s' = log s /\
     (NoDup (form_labels s) -> NoDup (form_labels s'))).
Proof.
  intros name value s'. subst s'. unfold addCustomField. fold name value. split.
  - intros [Hblank|[Hm Hkey]].
    + rewrite Hblank. cbn [truthy negb]. split; [done|]. split; [by eexists|]. by prims.
    + rewrite hasOwnProperty_call_Some by done.
      apply hasOwnProperty_true in Hkey as ->.
      destruct (negb (truthy name)); (split; [done|]); (split; [by eexists|]); by prims.
  - intros Hm Hname Hkey Hfresh.
    apply truthy_true in Hname as ->. cbn [negb].
    rewrite hasOwnProperty_call_Some by done.
    assert (hasOwnProperty (currentMetadata s) name = false) as ->.
    { apply not_true_iff_false. by rewrite hasOwnProperty_true. }
    unfold form_labels. prims.
    assert (negb (isCommonField name) = bool_decide (name ∉ commonFields)) as ->.
    { unfold isCommonField, includes. by rewrite bool_decide_not. }
    repeat split.
    intros Hnodup. rewrite fmap_app. apply NoDup_app.
    split; [done|]. split; [|apply NoDup_singleton].
    intros k Hk [->|[]%elem_of_nil]%elem_of_cons. by apply Hfresh.
Qed.

Lemma addCustomField_spec_witness :
  let w := example_world 3 example_metadata in
  let s := fill_dialog (js "Trail") (js " north ") example_loaded in
  ~ shadowed (currentMetadata s) /\
  trim (text s fieldName) <> [] /\
  (trim (text s fieldName) ∉ keys (currentMetadata s)) /\
  (trim (text s fieldName) ∉ form_labels s) /\
  metadataContainer (state (addCustomField w s)) =
    metadataContainer s
    ++ [{| label := js "Trail"; value := js "north"; readOnly := false;
           deleteBtn := true |}].
Proof.
  intros w s.
  assert (~ shadowed (currentMetadata s)) as Hm.
  { apply (bool_decide_unpack _). vm_compute. exact I. }
  assert (trim (text s fieldName) <> []) as Hname by (vm_compute; discriminate).
  assert (trim (text s fieldName) ∉ keys (currentMetadata s)) as Hkey.
  { apply (bool_decide_unpack _). vm_compute. exact I. }
  assert (trim (text s fieldName) ∉ form_labels s) as Hfresh.
  { apply (bool_decide_unpack _). vm_compute. exact I. }
  split; [exact Hm|]. split; [exact Hname|]. split; [exact Hkey|].
  split; [exact Hfresh|].
  destruct (addCustomField_spec w s) as [_ Hadd].
  destruct (Hadd Hm Hname Hkey Hfresh) as (_ & Hform & _).
  rewrite Hform. vm_compute. reflexivity.
Defined.

(** C8 as the specification words it fails on the code: in the empty form
    left by loading an empty folder the name [Species] is not blank and
    not in the field set, and the one field appended for it has no delete
    button. *)
Lemma addCustomField_counterexample :
  let w := example_world 0 [] in
  let s := fill_dialog (js "Species") (js "Kudu") example_emptied in
  trim (text s fieldName) <> [] /\
  metadataContainer s = [] /\
  currentMetadata s = [] /\
  thrown (addCustomField w s) = None /\
  metadataContainer (state (addCustomField w s)) =
    [{| label := js "Species"; value := js "Kudu"; readOnly := false;
        deleteBtn := false |}] /\
  ~ (exists f, metadataContainer (state (addCustomField w s)) = metadataContainer s ++ [f]
               /\ readOnly f = false /\ deleteBtn f = true).
Proof.
  intros w s.
  assert (metadataContainer s = []) as Hform by (vm_compute; reflexivity).
  assert (metadataContainer (state (addCustomField w s)) =
            [{| label := js "Species"; value := js "Kudu"; readOnly := false;
                deleteBtn := false |}]) as Hadded by (vm_compute; reflexivity).
  split; [vm_compute; discriminate|]. split; [exact Hform|].
  split; [vm_compute; reflexivity|]. split; [vm_compute; reflexivity|].
  split; [exact Hadded|].
  rewrite Hadded, Hform. intros (f & [= <-] & _ & Hdelete). discriminate.
Qed.

(** The name check of [addCustomField] consults [currentMetadata], which
    the fields added through the dialog never enter: the same new name is
    accepted a second time, and a common name already rendered as an empty
    field is accepted as well. *)
Lemma addCustomField_duplicate :
  let add := fun name value s =>
    state (addCustomField (example_world 3 example_metadata) (fill_dialog name value s)) in
  form_labels (add (js "Trail") (js "south") (add (js "Trail") (js "north") example_loaded))
    = form_labels example_loaded ++ [js "Trail"; js "Trail"] /\
  js "Notes" ∈ form_labels example_loaded /\
  form_labels (add (js "Notes") (js "seen at dusk") example_loaded)
    = form_labels example_loaded ++ [js "Notes"].
Proof.
  intros add. split; [vm_compute; reflexivity|]. split.
  - apply (bool_decide_unpack _). vm_compute. exact I.
  - vm_compute. reflexivity.
Qed.

(** X21. While [currentMetadata] has a key named [hasOwnProperty], the
    confirm button of the add-field dialog adds nothing: with a name that
    is not blank the name check throws, the exception leaves the listener,
    and the state is what it was; no field is appended, nothing is alerted
    and the dialog stays as it is. *)
Theorem addCustomField_shadowed (w : World) (s : App) :
  shadowed (currentMetadata s) ->
  trim (text s fieldName) <> [] ->
  addCustomField w s = Throw (not_a_function w) s /\
  step w Click_addFieldConfirm s = effect (Uncaught (not_a_function w)) s /\
  metadataContainer (step w Click_addFieldConfirm s) = metadataContainer s /\
  classList (step w Click_addFieldConfirm s) = classList s /\
  (forall message, Alert message ∉ emitted s (step w Click_addFieldConfirm s)).
Proof.
  intros Hm Hname.
  assert (addCustomField w s = Throw (not_a_function w) s) as Hthrow.
  { unfold addCustomField; cbv zeta.
    apply truthy_true in Hname as ->. cbn [negb].
    by rewrite hasOwnProperty_call_None. }
  split; [exact Hthrow|]. cbn [step]. rewrite Hthrow.
  split; [reflexivity|]. split; [reflexivity|]. split; [reflexivity|].
  intros message. unfold emitted, uncaught. prims. rewrite drop_app_length.
  intros Hin. apply list_elem_of_singleton in Hin. discriminate.
Qed.

Lemma addCustomField_shadowed_witness :
  let w := example_world 3 shadowing_metadata in
  let s := fill_dialog (js "Trail") (js "north") (loadFolder w example_start) in
  shadowed (currentMetadata s) /\
  form_labels (step w Click_addFieldConfirm s) = [js "Species"; js "hasOwnProperty"].
Proof.
  intros w s.
  assert (shadowed (currentMetadata s)) as Hm.
  { apply (bool_decide_unpack _). vm_compute. exact I. }
  split; [exact Hm|].
  destruct (addCustomField_shadowed w s Hm) as (_ & _ & Hform & _);
    [vm_compute; discriminate|].
  unfold form_labels. rewrite Hform. vm_compute. reflexivity.
Defined.

(** ** Identification *)

(** C9. Whatever the identification request comes back with (a result, a
    failure reported by the server, an exception) the identify button is
    enabled again and the selector is back in [Idle]: no selection, the box
    and the overlay hidden, the button with its idle label, the navigation
    buttons as [updateNavigationButtons] sets them for the current index.
    Exactly one alert follows the request; for a reported failure and for
    an exception it is the error alert. *)
Theorem identifySpecies_spec (w : World) (s : App) (selection : Rect) :
  currentSelection s = Some selection ->
  let s' := identifySpecies w s in
  let outcome := identify_species w (tick s) (currentIndex s) selection in
  disabled s' identifyBtn = false /\
  selector_state s' = Idle /\
  currentSelection s' = None /\
  display (selectionBox s') = js "none" /\
  classList s' identifyBtn active = false /\
  classList s' imageWrapper selecting = false /\
  classList s' selectionInfo hidden = true /\
  text s' identifyBtn = js "Identify Species" /\
  disabled s' firstBtn = (currentIndex s =? 0) /\
  disabled s' prevBtn = (currentIndex s =? 0) /\
  disabled s' nextBtn = (currentIndex s =? totalImages s - 1) /\
  disabled s' lastBtn = (currentIndex s =? totalImages s - 1) /\
  (exists message,
      log s' = log s ++ [Fetch (PostIdentifySpecies (currentIndex s) selection);
                         Alert message]) /\
  (forall message, outcome = Threw message ->
      log s' = log s ++ [Fetch (PostIdentifySpecies (currentIndex s) selection);
                         Alert (js "Error during identification: " ++ message)]) /\
  (forall result, outcome = Got result -> id_success result = false ->
      log s' = log s ++ [Fetch (PostIdentifySpecies (currentIndex s) selection);
                         Alert (js "Identification failed: " ++ show (id_error result))]).
Proof.
  intros Hsel s' outcome. subst s' outcome.
  unfold identifySpecies, selector_state. rewrite Hsel. prims.
  destruct (identify_species w (tick s) (currentIndex s) selection)
    as [message|result]; [|destruct (id_success result) eqn:Hok].
  - prims. do 12 (split; [reflexivity|]).
    rewrite <- app_assoc. split; [by eexists|]. split.
    + by intros ? [= <-].
    + by intros ? [=].
  - destruct (log_handleIdentificationResult (identification result)
                (fetch (PostIdentifySpecies (currentIndex s) selection)
                   (setDisabled identifyBtn true
                      (setText identifyBtn (js "Identifying...") s))))
      as [message Hlog].
    prims. autorewrite with frame. prims.
    do 12 (split; [reflexivity|]).
    rewrite Hlog. prims. rewrite <- app_assoc. split; [by eexists|]. split.
    + by intros ? [=].
    + intros ? [= <-] ?. congruence.
  - prims. do 12 (split; [reflexivity|]).
    rewrite <- app_assoc. split; [by eexists|]. split.
    + by intros ? [=].
    + by intros ? [= <-] _.
Qed.

Lemma identifySpecies_spec_witness :
  let w := example_world 3 example_metadata in
  let selection := {| x := 20; y := 20; width := 60; height := 80 |} in
  let s := set_currentSelection (Some selection) example_dragging in
  currentSelection s = Some selection /\
  disabled (identifySpecies w s) identifyBtn = false /\
  selector_state (identifySpecies w s) = Idle.
Proof.
  intros w selection s.
  assert (currentSelection s = Some selection) as Hsel by reflexivity.
  split; [exact Hsel|].
  destruct (identifySpecies_spec w s selection Hsel) as (Henabled & Hidle & _).
  split; [exact Henabled | exact Hidle].
Defined.

(** ** Who writes [currentMetadata] *)

Lemma currentMetadata_addCustomField w s :
  currentMetadata (state (addCustomField w s)) = currentMetadata s.
Proof.
  unfold addCustomField; cbv zeta.
  destruct (negb _); [reflexivity|].
  by destruct (hasOwnProperty_call _ _) as [[|]|].
Qed.

Lemma currentMetadata_uncaught (c : Completion) :
  currentMetadata (uncaught c) = currentMetadata (state c).
Proof. unfold uncaught. by destruct (thrown c). Qed.

Lemma currentMetadata_identifySpecies w s :
  currentMetadata (identifySpecies w s) = currentMetadata s.
Proof. frame_of identifySpecies. Qed.

Lemma currentMetadata_endSelection w e l s :
  currentMetadata (endSelection w e l s) = currentMetadata s.
Proof.
  cbv beta delta [endSelection]. frame.
  by rewrite currentMetadata_identifySpecies.
Qed.

Lemma currentMetadata_saveMetadata w s :
  currentMetadata (saveMetadata w s) = currentMetadata s.
Proof. frame_of saveMetadata. Qed.

Lemma currentMetadata_browseTo w path s :
  currentMetadata (browseTo w path s) = currentMetadata s.
Proof. frame_of browseTo. Qed.

Lemma currentMetadata_selectCurrentFolder s :
  currentMetadata (selectCurrentFolder s) = currentMetadata s.
Proof. frame_of selectCurrentFolder. Qed.

Lemma currentMetadata_input_field n v s :
  currentMetadata (input_field n v s) = currentMetadata s.
Proof. frame_of input_field. Qed.

Lemma currentMetadata_loadCurrentImage_catch w message s :
  currentMetadata (loadCurrentImage_catch w message s) = currentMetadata s.
Proof. frame_of loadCurrentImage_catch. Qed.

(** An image load keeps the mapping when the load fails and takes the one
    of the response, or the empty one, when it succeeds. *)
Lemma currentMetadata_loadCurrentImage w s :
  currentMetadata (loadCurrentImage w s) =
  match image w (tick s) (currentIndex s) with
  | Got imageData =>
      if truthy_opt (img_error imageData) then currentMetadata s
      else default [] (metadata imageData)
  | Threw _ => currentMetadata s
  end.
Proof.
  destruct (image w (tick s) (currentIndex s)) as [message|imageData] eqn:Hresp.
  - unfold loadCurrentImage. rewrite Hresp.
    by rewrite currentMetadata_loadCurrentImage_catch.
  - destruct (truthy_opt (img_error imageData)) eqn:Herr.
    + unfold loadCurrentImage. rewrite Hresp, Herr. by prims.
    + rewrite (loadCurrentImage_received w s imageData Hresp Herr). cbv zeta.
      destruct (thrown (displayMetadata w (received w imageData s))).
      * rewrite currentMetadata_loadCurrentImage_catch.
        autorewrite with frame. apply currentMetadata_received.
      * match goal with
        | |- context [if ?c then _ else _] => destruct c
        end; autorewrite with frame; apply currentMetadata_received.
Qed.

Lemma currentMetadata_loadCurrentImage_cases w s :
  currentMetadata (loadCurrentImage w s) = currentMetadata s \/
  exists t i imageData,
    image w t i = Got imageData /\
    currentMetadata (loadCurrentImage w s) = default [] (metadata imageData).
Proof.
  rewrite currentMetadata_loadCurrentImage.
  destruct (image w (tick s) (currentIndex s)) as [message|imageData] eqn:Himage;
    [by left|].
  destruct (truthy_opt (img_error imageData)); [by left|].
  right. by exists (tick s), (currentIndex s), imageData.
Qed.

Lemma currentMetadata_navigateToImage w i s :
  currentMetadata (navigateToImage w i s) = currentMetadata s \/
  exists t j imageData,
    image w t j = Got imageData /\
    currentMetadata (navigateToImage w i s) = default [] (metadata imageData).
Proof.
  unfold navigateToImage. destruct (_ || _); [by left|].
  apply (currentMetadata_loadCurrentImage_cases w (set_currentIndex i s)).
Qed.

Lemma currentMetadata_loadFolder w s :
  currentMetadata (loadFolder w s) = currentMetadata s \/
  currentMetadata (loadFolder w s) = [] \/
  exists t i imageData,
    image w t i = Got imageData /\
    currentMetadata (loadFolder w s) = default [] (metadata imageData).
Proof.
  unfold loadFolder. destruct (_ || _); [by left|]. prims.
  destruct (load_folder w (tick s) (text s selectedPath)) as [message|result];
    [by right; left|].
  destruct (lf_success result); [|by right; left]. prims.
  destruct (0 <? count result); [|by right; left].
  match goal with
  | |- context [loadCurrentImage w ?s0] =>
      destruct (currentMetadata_loadCurrentImage_cases w s0) as [->|Hload]
  end; [by right; left | by right; right].
Qed.

Lemma currentMetadata_keydown w key s :
  currentMetadata (keydown w key s) = currentMetadata s \/
  exists t j imageData,
    image w t j = Got imageData /\
    currentMetadata (keydown w key s) = default [] (metadata imageData).
Proof.
  unfold keydown.
  repeat lazymatch goal with
         | |- context [if ?c then _ else _] => destruct c
         end;
    first [ by left | apply currentMetadata_navigateToImage ].
Qed.

(** C10. Adding a field through the dialog and merging an identification
    result leave [currentMetadata] as it is.  Over all the listeners, an
    event changes [currentMetadata] only in two ways: a folder load or an
    image load replaces it by the empty mapping or by the mapping of an
    image response, and the delete button of a field removes the key of
    that field.  What [save] submits is computed from the inputs of the
    form: the field [Trail] added through the dialog is submitted although
    [currentMetadata] has no such key. *)
Theorem currentMetadata_writers :
  (forall (w : World) (s : App),
      currentMetadata (state (addCustomField w s)) = currentMetadata s) /\
  (forall (idn : Identification) (s : App),
      currentMetadata (handleIdentificationResult idn s) = currentMetadata s) /\
  (forall (w : World) (s : App),
      currentMetadata (identifySpecies w s) = currentMetadata s) /\
  (forall (w : World) (ev : Event) (s : App),
      currentMetadata (step w ev s) = currentMetadata s \/
      (loads_image ev /\
       (currentMetadata (step w ev s) = [] \/
        exists t i imageData,
          image w t i = Got imageData /\
          currentMetadata (step w ev s) = default [] (metadata imageData))) \/
      (exists n f,
          ev = Click_deleteField n /\
          metadataContainer s !! n = Some f /\ deleteBtn f = true /\
          currentMetadata (step w ev s) = delete_key (label f) (currentMetadata s))) /\
  (forall (w : World) (s : App), exists rest,
      log (saveMetadata w s) =
      log s ++ Fetch (PostSaveMetadata (currentIndex s)
                        (collect (editable_inputs (metadataContainer s)))) :: rest) /\
  ((js "Trail" ∉ keys (currentMetadata example_trail)) /\
   collect (editable_inputs (metadataContainer example_trail)) !! js "Trail"
     = Some (js "north")).
Proof.
  split; [apply currentMetadata_addCustomField|].
  split; [apply currentMetadata_handleIdentificationResult|].
  split; [apply currentMetadata_identifySpecies|].
  split; [|split; [apply log_saveMetadata|]].
  - intros w ev s.
    destruct ev; cbn [step]; unfold click;
      try lazymatch goal with
          | |- context [if disabled s ?e then _ else _] =>
              destruct (disabled s e); [by left|]
          end.
    + left. unfold showFolderBrowser. by rewrite currentMetadata_browseTo.
    + destruct (currentMetadata_loadFolder w s) as [?|[?|?]]; [by left|..];
        right; left; (split; [done|]); [by left | by right].
    + left. apply currentMetadata_selectCurrentFolder.
    + by left.
    + destruct (currentMetadata_navigateToImage w 0 s) as [?|?]; [by left|].
      right; left. split; [done | by right].
    + destruct (currentMetadata_navigateToImage w (currentIndex s - 1) s) as [?|?];
        [by left|]. right; left. split; [done | by right].
    + destruct (currentMetadata_navigateToImage w (currentIndex s + 1) s) as [?|?];
        [by left|]. right; left. split; [done | by right].
    + destruct (currentMetadata_navigateToImage w (totalImages s - 1) s) as [?|?];
        [by left|]. right; left. split; [done | by right].
    + left. unfold toggleIdentifyMode. by destruct (isSelecting s).
    + destruct (currentMetadata_keydown w key s) as [?|?]; [by left|].
      right; left. split; [done | by right].
    + left. unfold startSelection. by destruct (negb _).
    + left. unfold updateSelection.
      destruct (selectionStart s); [|done]. by destruct (negb _).
    + left. apply currentMetadata_endSelection.
    + by left.
    + by left.
    + left. apply currentMetadata_saveMetadata.
    + left. rewrite currentMetadata_uncaught. apply currentMetadata_addCustomField.
    + by left.
    + by left.
    + by left.
    + left. unfold click_folderItem. destruct (folderTree s !! n); [|done].
      destruct (is_dir _); [|done].
      destruct (bool_decide _); [apply currentMetadata_browseTo | done].
    + left. unfold dblclick_folderItem. destruct (folderTree s !! n); [|done].
      destruct (is_dir _); [apply currentMetadata_browseTo | done].
    + unfold click_deleteField.
      destruct (metadataContainer s !! n) as [f|] eqn:Hf; [|by left].
      destruct (deleteBtn f) eqn:Hdelete; [|by left].
      right; right. by exists n, f.
    + by left.
    + by left.
    + left. apply currentMetadata_input_field.
    + by left.
  - split; [apply (bool_decide_unpack _); vm_compute; exact I|].
    vm_compute. reflexivity.
Qed.

(** * Further properties *)

(** ** Frames over the listeners *)

(** The listener of the confirm button of the add-field dialog touches
    the form, the classes and the log only, also when it throws. *)
Lemma addCustomField_frame {C : Type} (proj : App -> C) :
  (forall v s, proj (set_metadataContainer v s) = proj s) ->
  (forall v s, proj (set_classList v s) = proj s) ->
  (forall v s, proj (set_log v s) = proj s) ->
  forall w s, proj (uncaught (addCustomField w s)) = proj s.
Proof.
  intros Hform Hclass Hlog w s. unfold addCustomField; cbv zeta.
  destruct (negb _); [apply Hlog|].
  destruct (hasOwnProperty_call _ _) as [[|]|]; [apply Hlog| |apply Hlog].
  unfold uncaught, hideAddFieldModal, classList_add, createMetadataField. prims.
  by rewrite Hclass, Hform.
Qed.

(** [frame], opening the remaining methods as it meets them. *)
Ltac frame_deep :=
  intros;
  repeat first
    [ assumption
    | lazymatch goal with |- ?a = ?a => reflexivity end
    | lazymatch goal with
      | |- ?p (let x := ?a in @?b x) = ?r =>
          lazymatch type of a with
          | Completion => change (p (b a) = r); cbv beta
          end
      end
    | lazymatch goal with
      | |- ?p (let x := ?a in @?b x) = ?r =>
          first [ apply (frame_let p a b r); [|intros ? ?]
                | apply (frame_let_any p a b r); intros ? ]
      end
    | lazymatch goal with
      | |- ?p (match ?c with _ => _ end) = _ => destruct c eqn:?
      end
    | progress prims_keep
    | progress autorewrite with frame
    | progress cbv beta delta
        [createMetadataField updateNavigationButtons cancelIdentifyMode
         resetInterface showMainContent startIdentifyMode hideAddFieldModal
         showAddFieldModal hideFolderBrowser displayFolderTree selectFolder
         timeout_saveBtn
         click keydown input_field click_deleteField click_folderItem
         dblclick_folderItem browseTo showFolderBrowser selectCurrentFolder
         loadFolder navigateToImage loadCurrentImage loadCurrentImage_catch
         saveMetadata toggleIdentifyMode startSelection updateSelection
         endSelection identifySpecies] ].

Lemma selectionStart_addDebugOutput w m s :
  selectionStart (addDebugOutput w m s) = selectionStart s.
Proof. frame_of addDebugOutput. Qed.

Lemma selectionStart_displayMetadata w s :
  selectionStart (state (displayMetadata w s)) = selectionStart s.
Proof. by apply displayMetadata_frame. Qed.

Lemma selectionStart_addCustomField w s :
  selectionStart (uncaught (addCustomField w s)) = selectionStart s.
Proof. by apply addCustomField_frame. Qed.

#[global] Hint Rewrite
  selectionStart_addDebugOutput selectionStart_displayMetadata
  selectionStart_addCustomField : frame.

Lemma selectionStart_extractFooterDataSilent w s :
  selectionStart (extractFooterDataSilent w s) = selectionStart s.
Proof. frame_of extractFooterDataSilent. Qed.

Lemma selectionStart_handleIdentificationResult idn s :
  selectionStart (handleIdentificationResult idn s) = selectionStart s.
Proof. frame_of handleIdentificationResult. Qed.

#[global] Hint Rewrite
  selectionStart_extractFooterDataSilent
  selectionStart_handleIdentificationResult : frame.

Lemma selectionStart_step (w : World) (ev : Event) (s : App) :
  (forall e l, ev <> Mousedown e l) ->
  selectionStart (step w ev s) = selectionStart s.
Proof.
  intros Hev. destruct ev; cbv beta iota delta [step];
    try (by destruct (Hev e l)); frame_deep.
Qed.

Lemma run_invariant (I : App -> Prop) (w : World) (evs : list Event) (s : App) :
  I s -> (forall ev s, I s -> I (step w ev s)) -> I (run w evs s).
Proof.
  intros Hs Hstep. unfold run. revert s Hs.
  induction evs as [|ev evs IH]; intros s Hs; cbn [fold_left]; auto.
Qed.

(** ** The drag anchor *)

(** X1. Once a pointer-down has recorded a drag anchor no listener clears
    it: after any further events [selectionStart] still holds an anchor, so
    activating identify mode puts the selector in [Dragging] at once,
    without a pointer-down. *)
Theorem selectionStart_persists
    (w : World) (evs : list Event) (s : App) (anchor : Point) :
  selectionStart s = Some anchor ->
  is_Some (selectionStart (run w evs s)) /\
  selector_state (startIdentifyMode (run w evs s)) = Dragging.
Proof.
  intros Hanchor.
  assert (is_Some (selectionStart (run w evs s))) as [p Hp].
  { apply (run_invariant (fun s => is_Some (selectionStart s))); [by eexists|].
    clear. intros ev s Hsome.
    destruct ev;
      try (rewrite selectionStart_step; [done | by intros ? ? [=]]).
    cbn [step]. unfold startSelection. destruct (negb _); [done|].
    prims. by eexists. }
  split; [by eexists|].
  unfold selector_state, startIdentifyMode. prims. by rewrite Hp.
Qed.

Lemma selectionStart_persists_witness :
  selectionStart example_identified = Some {| pt_x := 10; pt_y := 10 |}%float /\
  selector_state
    (startIdentifyMode
       (run (example_world 3 example_metadata) [Click_nextBtn; Click_saveBtn]
          example_identified)) = Dragging.
Proof.
  assert (selectionStart example_identified = Some {| pt_x := 10; pt_y := 10 |}%float)
    as Hanchor by (vm_compute; reflexivity).
  split; [exact Hanchor|].
  apply (selectionStart_persists (example_world 3 example_metadata)
           [Click_nextBtn; Click_saveBtn] example_identified _ Hanchor).
Defined.

(** ** Invariants of a session *)

Lemma currentIndex_addCustomField w s :
  currentIndex (uncaught (addCustomField w s)) = currentIndex s.
Proof. by apply addCustomField_frame. Qed.

Lemma totalImages_addCustomField w s :
  totalImages (uncaught (addCustomField w s)) = totalImages s.
Proof. by apply addCustomField_frame. Qed.

#[global] Hint Rewrite currentIndex_addCustomField totalImages_addCustomField : frame.

Lemma currentIndex_step (w : World) (ev : Event) (s : App) :
  ~ loads_image ev -> currentIndex (step w ev s) = currentIndex s.
Proof.
  intros Hev. destruct ev; cbv beta iota delta [step];
    try (by destruct Hev); frame_deep.
Qed.

Lemma totalImages_step (w : World) (ev : Event) (s : App) :
  ~ loads_image ev -> totalImages (step w ev s) = totalImages s.
Proof.
  intros Hev. destruct ev; cbv beta iota delta [step];
    try (by destruct Hev); frame_deep.
Qed.

Lemma index_in_range_navigateToImage (w : World) (i : Z) (s : App) :
  index_in_range s -> index_in_range (navigateToImage w i s).
Proof.
  unfold index_in_range, navigateToImage. intros Hs.
  destruct (Z.ltb_spec i 0); [done|].
  destruct (Z.geb_spec i (totalImages s)); [done|]. cbn [orb].
  rewrite currentIndex_loadCurrentImage, totalImages_loadCurrentImage.
  prims. lia.
Qed.

Lemma index_loadFolder (w : World) (s : App) :
  (currentIndex (loadFolder w s) = currentIndex s /\
   totalImages (loadFolder w s) = totalImages s) \/
  currentIndex (loadFolder w s) = 0.
Proof.
  unfold loadFolder. destruct (_ || _); [by left|]. right. prims.
  destruct (load_folder w (tick s) (text s selectedPath)) as [message|result];
    [done|].
  destruct (lf_success result); [|done]. prims.
  destruct (0 <? count result); [|done].
  by rewrite currentIndex_loadCurrentImage.
Qed.

Lemma index_in_range_step (w : World) (ev : Event) (s : App) :
  index_in_range s -> index_in_range (step w ev s).
Proof.
  intros Hs.
  destruct ev;
    try (unfold index_in_range;
         rewrite currentIndex_step, totalImages_step by (by intros []); done);
    cbn [step]; unfold click, keydown;
    repeat lazymatch goal with
           | |- context [if ?c then _ else _] => destruct c
           end;
    try done; try apply index_in_range_navigateToImage; try done.
  destruct (index_loadFolder w s) as [[Hi Ht]|Hzero];
    unfold index_in_range in *; [rewrite Hi, Ht; done | rewrite Hzero; lia].
Qed.

(** X2. In every state a session reaches, whatever the events and the
    answers of the server, [currentIndex] is not negative, and when
    [totalImages > 0] it is the index of an image of the loaded folder. *)
Theorem currentIndex_in_range (w : World) (evs : list Event) (page : App) :
  let s := run w evs (constructor page) in
  0 <= currentIndex s /\
  (0 < totalImages s -> currentIndex s < totalImages s).
Proof.
  intros s.
  assert (index_in_range s) as [Hnonneg Hrange].
  { apply run_invariant; [|apply index_in_range_step].
    unfold index_in_range, constructor. prims. lia. }
  split; [done|]. lia.
Qed.

Lemma currentIndex_in_range_witness :
  let s := run (example_world 3 example_metadata)
             [Click_loadFolder; Click_nextBtn; Click_lastBtn; Click_nextBtn]
             (constructor example_page_ready) in
  0 < totalImages s /\ currentIndex s < totalImages s.
Proof.
  intros s.
  assert (0 < totalImages s) as Htotal by (vm_compute; reflexivity).
  split; [exact Htotal|].
  apply (currentIndex_in_range (example_world 3 example_metadata)
           [Click_loadFolder; Click_nextBtn; Click_lastBtn; Click_nextBtn]
           example_page_ready).
  exact Htotal.
Defined.

Lemma debugBuffer_handleIdentificationResult idn s :
  debugBuffer (handleIdentificationResult idn s) = debugBuffer s.
Proof. frame_of handleIdentificationResult. Qed.

Lemma debugBuffer_addCustomField w s :
  debugBuffer (uncaught (addCustomField w s)) = debugBuffer s.
Proof. by apply addCustomField_frame. Qed.

#[global] Hint Rewrite
  debugBuffer_handleIdentificationResult debugBuffer_addCustomField : frame.

Lemma debugBuffer_step (w : World) (ev : Event) (s : App) :
  ~ loads_image ev -> debugBuffer (step w ev s) = debugBuffer s.
Proof.
  intros Hev. destruct ev; cbv beta iota delta [step];
    try (by destruct Hev); frame_deep.
Qed.

Lemma debug_bound_addDebugOutput (w : World) (message : jsstring) (s : App) :
  (length (debugBuffer (addDebugOutput w message s)) <= 500)%nat.
Proof.
  rewrite debugBuffer_addDebugOutput. unfold slice_last.
  rewrite length_drop. lia.
Qed.

Lemma debug_bound_extractFooterDataSilent (w : World) (s : App) :
  (length (debugBuffer s) <= 500)%nat ->
  (length (debugBuffer (extractFooterDataSilent w s)) <= 500)%nat.
Proof.
  intros Hs. unfold extractFooterDataSilent.
  destruct (totalImages s =? 0); [done|].
  destruct (extract_footer w _ _) as [message|result];
    [apply debug_bound_addDebugOutput|].
  destruct (ft_success result); [|apply debug_bound_addDebugOutput].
  destruct (0 <? length _)%nat; [|apply debug_bound_addDebugOutput].
  destruct (0 <? length _)%nat; apply debug_bound_addDebugOutput.
Qed.

Lemma debug_bound_loadCurrentImage_catch (w : World) (message : jsstring) (s : App) :
  (length (debugBuffer (loadCurrentImage_catch w message s)) <= 500)%nat.
Proof. unfold loadCurrentImage_catch. prims. apply debug_bound_addDebugOutput. Qed.

Lemma debug_bound_loadCurrentImage (w : World) (s : App) :
  (length (debugBuffer s) <= 500)%nat ->
  (length (debugBuffer (loadCurrentImage w s)) <= 500)%nat.
Proof.
  intros Hs. unfold loadCurrentImage.
  destruct (image w (tick s) (currentIndex s)) as [message|imageData].
  - apply debug_bound_loadCurrentImage_catch.
  - destruct (truthy_opt (img_error imageData)); [by prims|]. cbv zeta.
    destruct (thrown (displayMetadata w _));
      [apply debug_bound_loadCurrentImage_catch|].
    destruct (negb _ || negb _ || negb _).
    + apply debug_bound_extractFooterDataSilent, debug_bound_addDebugOutput.
    + apply debug_bound_addDebugOutput.
Qed.

Lemma debug_bound_navigateToImage (w : World) (i : Z) (s : App) :
  (length (debugBuffer s) <= 500)%nat ->
  (length (debugBuffer (navigateToImage w i s)) <= 500)%nat.
Proof.
  intros Hs. unfold navigateToImage. destruct (_ || _); [done|].
  by apply debug_bound_loadCurrentImage.
Qed.

Lemma debug_bound_loadFolder (w : World) (s : App) :
  (length (debugBuffer s) <= 500)%nat ->
  (length (debugBuffer (loadFolder w s)) <= 500)%nat.
Proof.
  intros Hs. unfold loadFolder. destruct (_ || _); [by prims|]. prims.
  destruct (load_folder w (tick s) (text s selectedPath)) as [message|result];
    [by prims|].
  destruct (lf_success result); [|by prims]. prims.
  destruct (0 <? count result); [|by prims].
  by apply debug_bound_loadCurrentImage.
Qed.

(** X3. In every state a session reaches the debug buffer holds at most
    500 code units. *)
Theorem debugBuffer_bounded (w : World) (evs : list Event) (page : App) :
  (length (debugBuffer (run w evs (constructor page))) <= 500)%nat.
Proof.
  apply (run_invariant (fun s => (length (debugBuffer s) <= 500)%nat)).
  - unfold constructor. prims. cbn. lia.
  - clear. intros ev s Hs.
    destruct ev;
      try (rewrite debugBuffer_step by (by intros []); done);
      cbn [step]; unfold click, keydown;
      repeat lazymatch goal with
             | |- context [if ?c then _ else _] => destruct c
             end;
      try done;
      first [ by apply debug_bound_navigateToImage
            | by apply debug_bound_loadFolder ].
Qed.

(** ** Identify mode and navigation *)

Lemma upd_eq {A B : Type} `{EqDecision A} (f : A -> B) (a : A) (b : B) :
  upd f a b a = b.
Proof. unfold upd. by rewrite decide_True. Qed.

Lemma upd_upd {A B : Type} `{EqDecision A} (f : A -> B) (a : A) (b b' : B) (x : A) :
  upd (upd f a b) a b' x = upd f a b' x.
Proof. unfold upd. by destruct (decide (x = a)). Qed.

(** X4. From [Idle], activating identify mode and activating it again is
    the same as cancelling: every field and every element property is what
    [cancelIdentifyMode] makes it, so the selector is [Idle] and the
    navigation buttons are set from the current index. *)
Theorem toggleIdentifyMode_twice (s : App) :
  isSelecting s = false ->
  let s' := toggleIdentifyMode (toggleIdentifyMode s) in
  same_state s' (cancelIdentifyMode s) /\
  selector_state s' = Idle /\
  disabled s' firstBtn = (currentIndex s =? 0) /\
  disabled s' prevBtn = (currentIndex s =? 0) /\
  disabled s' nextBtn = (currentIndex s =? totalImages s - 1) /\
  disabled s' lastBtn = (currentIndex s =? totalImages s - 1).
Proof.
  intros Hidle s'.
  assert (s' = cancelIdentifyMode (startIdentifyMode s)) as ->.
  { subst s'. unfold toggleIdentifyMode. by rewrite Hidle. }
  split; [|unfold selector_state; prims; by repeat split].
  unfold same_state. prims.
  repeat (split; [try reflexivity|]); try reflexivity.
  - intros []; reflexivity.
  - intros [] []; reflexivity.
  - intros []; reflexivity.
Qed.

Lemma toggleIdentifyMode_twice_witness :
  isSelecting example_loaded = false /\
  selector_state (toggleIdentifyMode (toggleIdentifyMode example_loaded)) = Idle.
Proof.
  assert (isSelecting example_loaded = false) as Hidle by (vm_compute; reflexivity).
  split; [exact Hidle|].
  apply (toggleIdentifyMode_twice example_loaded Hidle).
Defined.

Lemma keydown_other (w : World) (key : jsstring) (s : App) :
  key ∉ navigation_keys -> keydown w key s = s.
Proof.
  unfold navigation_keys. rewrite !not_elem_of_cons. intros (? & ? & ? & ? & _).
  unfold keydown. destruct (_ || _) eqn:Hguard; [done|].
  rewrite !bool_decide_eq_false_2 by done.
  apply orb_false_iff in Hguard as [_ ->]. by destruct (bool_decide _).
Qed.

(** X5. The keyboard.  With no image loaded or while identify mode is on
    a key press changes nothing; a key other than the four navigation keys
    never changes anything, [Escape] included: it does not cancel a
    selection.  Once identify mode is on, the four navigation buttons are
    disabled and a click on them changes nothing either. *)
Theorem keydown_inert (w : World) (key : jsstring) (s : App) :
  (totalImages s = 0 \/ isSelecting s = true -> keydown w key s = s) /\
  (key ∉ navigation_keys -> keydown w key s = s) /\
  keydown w (js "Escape") s = s /\
  (forall ev, navigates ev ->
     step w ev (startIdentifyMode s) = startIdentifyMode s).
Proof.
  split; [|split; [|split]].
  - intros Hguard. unfold keydown.
    assert ((totalImages s =? 0) || isSelecting s = true) as ->; [|done].
    apply orb_true_iff. destruct Hguard as [->| ->]; auto.
  - apply keydown_other.
  - apply keydown_other. apply (bool_decide_unpack _). vm_compute. exact I.
  - intros ev Hev. destruct ev; try (exfalso; exact Hev); cbn [step].
    1-4: unfold click, startIdentifyMode; prims; unfold upd; cbn;
         reflexivity.
    unfold keydown, startIdentifyMode. prims. rewrite orb_true_r. reflexivity.
Qed.

Lemma keydown_inert_witness :
  let w := example_world 3 example_metadata in
  isSelecting example_dragging = true /\
  keydown w (js "ArrowRight") example_dragging = example_dragging /\
  (js "Delete" ∉ navigation_keys) /\
  keydown w (js "Delete") example_loaded = example_loaded.
Proof.
  intros w.
  assert (isSelecting example_dragging = true) as Hsel by (vm_compute; reflexivity).
  assert (js "Delete" ∉ navigation_keys) as Hkey.
  { apply (bool_decide_unpack _). vm_compute. exact I. }
  split; [exact Hsel|]. split.
  - destruct (keydown_inert w (js "ArrowRight") example_dragging) as [Hguard _].
    apply Hguard. right. exact Hsel.
  - split; [exact Hkey|].
    destruct (keydown_inert w (js "Delete") example_loaded) as (_ & Hother & _).
    apply Hother. exact Hkey.
Defined.

(** ** Deleting a field *)

Lemma get_delete_key_eq (k : jsstring) (m : Metadata) :
  get k (delete_key k m) = None.
Proof.
  apply get_None. unfold keys, delete_key.
  intros (kv & -> & Hin)%list_elem_of_fmap.
  by apply list_elem_of_filter in Hin as [Hne _].
Qed.

Lemma get_delete_key_ne (k k' : jsstring) (m : Metadata) :
  k <> k' -> get k (delete_key k' m) = get k m.
Proof.
  intros Hne. unfold delete_key, Metadata in *.
  induction m as [|[k0 v] m IH]; [done|].
  rewrite filter_cons. cbn [fst].
  change (get k ((k0, v) :: m))
    with (if decide (k0 = k) then Some v else get k m).
  destruct (decide (k0 <> k')) as [Hk0|Hk0].
  - change (get k ((k0, v) :: filter (fun kv => kv.1 <> k') m))
      with (if decide (k0 = k) then Some v
            else get k (filter (fun kv => kv.1 <> k') m)).
    by rewrite IH.
  - rewrite IH. rewrite decide_False; [done|].
    intros ->. by apply Hk0.
Qed.

(** X6. The delete button of the [n]-th field removes that field from the
    form and its label from [currentMetadata], and nothing else: the other
    fields keep their order, the other keys their values, nothing is sent.
    On a field without a delete button, or past the end of the form, the
    click changes nothing. *)
Theorem click_deleteField_spec (n : nat) (s : App) :
  (forall f, metadataContainer s !! n = Some f -> deleteBtn f = true ->
     metadataContainer (click_deleteField n s) = delete n (metadataContainer s) /\
     S (length (metadataContainer (click_deleteField n s)))
       = length (metadataContainer s) /\
     hasOwnProperty (currentMetadata (click_deleteField n s)) (label f) = false /\
     (forall k, k <> label f ->
        get k (currentMetadata (click_deleteField n s)) = get k (currentMetadata s)) /\
     log (click_deleteField n s) = log s) /\
  (metadataContainer s !! n = None \/
   (exists f, metadataContainer s !! n = Some f /\ deleteBtn f = false) ->
   click_deleteField n s = s).
Proof.
  unfold click_deleteField. split.
  - intros f Hf Hdelete. rewrite Hf, Hdelete. prims.
    split; [done|]. split.
    { rewrite length_delete by by eexists.
      apply lookup_lt_Some in Hf. lia. }
    split.
    { apply not_true_iff_false. rewrite hasOwnProperty_true, <- get_None.
      apply get_delete_key_eq. }
    split; [|done]. intros k Hk. by apply get_delete_key_ne.
  - intros [->|(f & -> & ->)]; done.
Qed.

Lemma click_deleteField_spec_witness :
  let f := {| label := js "AI_Confidence"; value := js "High";
              readOnly := false; deleteBtn := true |} in
  metadataContainer example_identified !! 11%nat = Some f /\
  deleteBtn f = true /\
  S (length (metadataContainer (click_deleteField 11 example_identified)))
    = length (metadataContainer example_identified).
Proof.
  intros f.
  assert (metadataContainer example_identified !! 11%nat = Some f) as Hf
    by (vm_compute; reflexivity).
  split; [exact Hf|]. split; [reflexivity|].
  destruct (click_deleteField_spec 11 example_identified) as [Hdel _].
  destruct (Hdel f Hf eq_refl) as (_ & Hlen & _). exact Hlen.
Defined.

(** ** A rendered form has distinct labels *)

Lemma commonFields_NoDup : NoDup commonFields.
Proof. apply (bool_decide_unpack _). vm_compute. exact I. Qed.

(** X7. For a mapping with pairwise distinct keys, none of them named
    [hasOwnProperty], [displayMetadata] completes and renders a form whose
    labels are pairwise distinct, and every common field name labels
    exactly one of its fields, whether or not the mapping has it. *)
Theorem displayMetadata_labels (w : World) (s : App) :
  NoDup (keys (currentMetadata s)) ->
  ~ shadowed (currentMetadata s) ->
  let s' := state (displayMetadata w s) in
  thrown (displayMetadata w s) = None /\
  NoDup (form_labels s') /\
  (forall field, field ∈ commonFields -> field ∈ form_labels s') /\
  (forall k, k ∈ form_labels s' <->
     k ∈ keys (currentMetadata s) \/ k ∈ commonFields).
Proof.
  intros Hkeys Hm s'. subst s'. unfold form_labels.
  destruct (displayMetadata_normal w s Hm) as [-> ->]. split; [reflexivity|].
  rewrite fmap_app.
  assert (label <$> map entry_field (currentMetadata s) = keys (currentMetadata s))
    as ->.
  { unfold keys. rewrite <- list_fmap_compose. by apply list_fmap_ext. }
  assert (forall l : list jsstring, label <$> map empty_field l = l) as ->.
  { intros l. rewrite <- list_fmap_compose. rewrite <- (list_fmap_id l) at 2.
    by apply list_fmap_ext. }
  assert (forall k, k ∈ keys (currentMetadata s)
                      ++ filter (fun field => field ∉ keys (currentMetadata s))
                           commonFields
                    <-> k ∈ keys (currentMetadata s) \/ k ∈ commonFields) as Hmem.
  { intros k. rewrite elem_of_app, list_elem_of_filter.
    destruct (decide (k ∈ keys (currentMetadata s))); tauto. }
  split; [|split; [|exact Hmem]].
  - apply NoDup_app. split; [done|]. split.
    + intros k Hk [Habsent _]%list_elem_of_filter. by apply Habsent.
    + apply NoDup_filter, commonFields_NoDup.
  - intros field Hfield. apply Hmem. by right.
Qed.

Lemma displayMetadata_labels_witness :
  let w := example_world 3 example_metadata in
  NoDup (keys (currentMetadata kudu_session)) /\
  ~ shadowed (currentMetadata kudu_session) /\
  NoDup (form_labels (state (displayMetadata w kudu_session))).
Proof.
  intros w.
  assert (NoDup (keys (currentMetadata kudu_session))) as Hkeys.
  { apply (bool_decide_unpack _). vm_compute. exact I. }
  assert (~ shadowed (currentMetadata kudu_session)) as Hm.
  { apply (bool_decide_unpack _). vm_compute. exact I. }
  split; [exact Hkeys|]. split; [exact Hm|].
  apply (displayMetadata_labels w kudu_session Hkeys Hm).
Defined.

(** ** Navigation steps and failed loads *)

Lemma navigateToImage_index (w : World) (i : Z) (s : App) :
  0 <= i < totalImages s ->
  currentIndex (navigateToImage w i s) = i /\
  totalImages (navigateToImage w i s) = totalImages s.
Proof.
  intros Hi. unfold navigateToImage.
  assert ((i <? 0) || (i >=? totalImages s) = false) as ->
    by (apply orb_false_iff; lia).
  by rewrite currentIndex_loadCurrentImage, totalImages_loadCurrentImage.
Qed.

Lemma navigateToImage_outside (w : World) (i : Z) (s : App) :
  i < 0 \/ totalImages s <= i -> navigateToImage w i s = s.
Proof.
  intros Hi. unfold navigateToImage.
  assert ((i <? 0) || (i >=? totalImages s) = true) as ->; [|done].
  apply orb_true_iff. lia.
Qed.

(** X8. Next and previous are inverse on the index: from a valid index
    that is not the last, going to the next image and then to the previous
    one is back at the index it started from, whatever the server answers.
    At the first image the previous step, and at the last image the next
    step, change nothing at all. *)
Theorem navigation_steps (w : World) (s : App) :
  (0 <= currentIndex s -> currentIndex s + 1 < totalImages s ->
     let next := navigateToImage w (currentIndex s + 1) s in
     currentIndex next = currentIndex s + 1 /\
     currentIndex (navigateToImage w (currentIndex next - 1) next) = currentIndex s) /\
  (currentIndex s = 0 -> navigateToImage w (currentIndex s - 1) s = s) /\
  (currentIndex s = totalImages s - 1 ->
     navigateToImage w (currentIndex s + 1) s = s).
Proof.
  split; [|split].
  - intros Hfirst Hlast next.
    destruct (navigateToImage_index w (currentIndex s + 1) s) as [Hi Ht]; [lia|].
    fold next in Hi, Ht. split; [exact Hi|].
    destruct (navigateToImage_index w (currentIndex next - 1) next) as [Hj _];
      [rewrite Hi, Ht; lia|].
    rewrite Hj, Hi. lia.
  - intros Hzero. apply navigateToImage_outside. lia.
  - intros Hlast. apply navigateToImage_outside. lia.
Qed.

Lemma navigation_steps_witness :
  let w := example_world 3 example_metadata in
  let s := example_loaded in
  0 <= currentIndex s /\ currentIndex s + 1 < totalImages s /\
  currentIndex
    (navigateToImage w (currentIndex (navigateToImage w (currentIndex s + 1) s) - 1)
       (navigateToImage w (currentIndex s + 1) s)) = currentIndex s.
Proof.
  intros w s.
  assert (0 <= currentIndex s) as Hfirst by (vm_compute; discriminate).
  assert (currentIndex s + 1 < totalImages s) as Hlast by (vm_compute; reflexivity).
  split; [exact Hfirst|]. split; [exact Hlast|].
  destruct (navigation_steps w s) as [Hround _].
  destruct (Hround Hfirst Hlast) as [_ Hback]. exact Hback.
Defined.

(** An alert touches the log only. *)
Lemma alert_frame {C : Type} (proj : App -> C) (message : jsstring) (s : App) :
  (forall v s, proj (set_log v s) = proj s) ->
  proj (alert message s) = proj s.
Proof. intros Hproj. apply Hproj. Qed.

Lemma log_alert (message : jsstring) (s : App) :
  log (alert message s) = log s ++ [Alert message].
Proof. reflexivity. Qed.

Lemma text_addDebugOutput (w : World) (m : jsstring) (s : App) (e : Elem) :
  e <> debugOutput -> text (addDebugOutput w m s) e = text s e.
Proof.
  intros He. unfold addDebugOutput. prims. unfold upd.
  rewrite decide_False by done. by destruct (_ <? _)%nat.
Qed.

Lemma navigateToImage_inside (w : World) (i : Z) (s : App) :
  0 <= i < totalImages s ->
  navigateToImage w i s = loadCurrentImage w (set_currentIndex i s).
Proof.
  intros Hi. unfold navigateToImage.
  by assert ((i <? 0) || (i >=? totalImages s) = false) as ->
    by (apply orb_false_iff; lia).
Qed.

Lemma loadCurrentImage_threw (w : World) (s : App) (message : jsstring) :
  image w (tick s) (currentIndex s) = Threw message ->
  loadCurrentImage w s =
  alert (js "Error loading image: " ++ message)
    (addDebugOutput w (js "Error loading image: " ++ message)
       (fetch (GetImage (currentIndex s)) s)).
Proof. intros Himage. unfold loadCurrentImage. by rewrite Himage. Qed.

Lemma loadCurrentImage_error (w : World) (s : App) (imageData : ImageData) :
  image w (tick s) (currentIndex s) = Got imageData ->
  truthy_opt (img_error imageData) = true ->
  loadCurrentImage w s =
  alert (js "Error loading image: " ++ show (img_error imageData))
    (fetch (GetImage (currentIndex s)) s).
Proof.
  intros Himage Herror. unfold loadCurrentImage.
  rewrite Himage, Herror. reflexivity.
Qed.

(** X9. A navigation to a valid index whose load fails, by an exception
    or by an error reported in the response, has already moved
    [currentIndex] to the new index, while the image, its counter, the
    form, [currentMetadata] and the navigation buttons are still those of
    the image shown before; the failure is alerted. *)
Theorem navigateToImage_failed_load (w : World) (i : Z) (s : App) :
  0 <= i < totalImages s ->
  match image w (tick s) i with
  | Threw _ => True
  | Got imageData => truthy_opt (img_error imageData) = true
  end ->
  let s' := navigateToImage w i s in
  currentIndex s' = i /\
  currentMetadata s' = currentMetadata s /\
  metadataContainer s' = metadataContainer s /\
  text s' currentImage = text s currentImage /\
  text s' imageCounter = text s imageCounter /\
  disabled s' = disabled s /\
  exists message,
    log s' = log s ++ [Fetch (GetImage i); Alert (js "Error loading image: " ++ message)].
Proof.
  intros Hi Hfail s'. subst s'. rewrite navigateToImage_inside by done.
  destruct (image w (tick s) i) as [message|imageData] eqn:Himage.
  - rewrite (loadCurrentImage_threw w (set_currentIndex i s) message Himage).
    rewrite !alert_frame by done.
    rewrite currentIndex_addDebugOutput, currentMetadata_addDebugOutput,
      metadataContainer_addDebugOutput, disabled_addDebugOutput,
      !text_addDebugOutput by done.
    do 6 (split; [reflexivity|]).
    exists message. rewrite log_alert, log_addDebugOutput. prims.
    rewrite <- app_assoc. reflexivity.
  - rewrite (loadCurrentImage_error w (set_currentIndex i s) imageData Himage Hfail).
    do 6 (split; [reflexivity|]).
    exists (show (img_error imageData)). prims.
    rewrite <- app_assoc. reflexivity.
Qed.

Lemma navigateToImage_failed_load_witness :
  let w := failing_world in
  0 <= 2 < totalImages example_loaded /\
  currentIndex (navigateToImage w 2 example_loaded) = 2 /\
  metadataContainer (navigateToImage w 2 example_loaded)
    = metadataContainer example_loaded.
Proof.
  intros w.
  assert (0 <= 2 < totalImages example_loaded) as Hi
    by (vm_compute; split; [discriminate | reflexivity]).
  split; [exact Hi|].
  destruct (navigateToImage_failed_load w 2 example_loaded Hi I)
    as (Hindex & _ & Hform & _).
  split; [exact Hindex | exact Hform].
Defined.

(** ** A folder load that fails *)

(** X10. Without a committed path [loadFolder] only alerts: the session is
    kept.  With a committed path the interface is reset before the request
    is made, so a load that fails (an exception or a failure reported by
    the server) leaves an empty session behind: no images, index 0, empty
    mapping, empty form, no image shown, identify mode off, the four
    navigation buttons disabled; the visibility of the main content is not
    touched, and the failure is alerted after the one request. *)
Theorem loadFolder_failure (w : World) (s : App) :
  (truthy (text s selectedPath) = false \/
   text s selectedPath = js "No folder selected" ->
   loadFolder w s = alert (js "Please select a folder first") s) /\
  (truthy (text s selectedPath) = true ->
   text s selectedPath <> js "No folder selected" ->
   match load_folder w (tick s) (text s selectedPath) with
   | Threw _ => True
   | Got result => lf_success result = false
   end ->
   let s' := loadFolder w s in
   totalImages s' = 0 /\ currentIndex s' = 0 /\ currentMetadata s' = [] /\
   metadataContainer s' = [] /\ text s' currentImage = [] /\
   isSelecting s' = false /\
   (forall e, e ∈ navigation_buttons -> disabled s' e = true) /\
   classList s' mainContent hidden = classList s mainContent hidden /\
   exists message,
     log s' = log s ++ [ConsoleLog (js "Interface reset for new folder");
                        Fetch (PostLoadFolder (text s selectedPath));
                        Alert message]).
Proof.
  split.
  - unfold loadFolder. intros [Hempty|Hnone].
    + by rewrite Hempty.
    + rewrite Hnone. rewrite bool_decide_eq_true_2 by done.
      by rewrite orb_true_r.
  - intros Hpath Hsel Hfail s'. subst s'. unfold loadFolder.
    rewrite Hpath, bool_decide_eq_false_2 by done. cbn [negb orb]. prims.
    assert (forall (f : Elem -> bool) e,
               e ∈ navigation_buttons ->
               upd (upd (upd (upd f firstBtn true) prevBtn true) nextBtn true)
                 lastBtn true e = true) as Hnav.
    { intros f e He. unfold navigation_buttons in He.
      rewrite !elem_of_cons in He.
      destruct He as [->|[->|[->|[->|[]%elem_of_nil]]]]; reflexivity. }
    destruct (load_folder w (tick s) (text s selectedPath)) as [message|result].
    + prims. do 6 (split; [reflexivity|]). split; [apply Hnav|].
      split; [reflexivity|]. eexists. rewrite <- !app_assoc. reflexivity.
    + rewrite Hfail. prims. do 6 (split; [reflexivity|]). split; [apply Hnav|].
      split; [reflexivity|]. eexists. rewrite <- !app_assoc. reflexivity.
Qed.

Lemma loadFolder_failure_witness :
  let s := example_loaded in
  truthy (text s selectedPath) = true /\
  text s selectedPath <> js "No folder selected" /\
  totalImages (loadFolder failing_world s) = 0 /\
  metadataContainer (loadFolder failing_world s) = [].
Proof.
  intros s.
  assert (truthy (text s selectedPath) = true) as Hpath by (vm_compute; reflexivity).
  assert (text s selectedPath <> js "No folder selected") as Hsel
    by (vm_compute; discriminate).
  split; [exact Hpath|]. split; [exact Hsel|].
  destruct (loadFolder_failure failing_world s) as [_ Hfail].
  destruct (Hfail Hpath Hsel eq_refl) as (Htotal & _ & _ & Hform & _).
  split; [exact Htotal | exact Hform].
Defined.

(** ** Saving: outcomes and feedback *)

Lemma saveMetadata_success (w : World) (s : App) (result : SaveResult) :
  save_metadata w (tick s) (currentIndex s)
    (collect (editable_inputs (metadataContainer s))) = Got result ->
  sv_success result = true ->
  saveMetadata w s =
  effect (SetTimeout 3000 (text s saveBtn))
    ((if truthy_opt (sv_message result)
      then console_log (show (sv_message result)) else fun s => s)
       (set_saveBtnBackground (js "#4CAF50")
          (setText saveBtn (js "Saved to File & EXIF!")
             (fetch (PostSaveMetadata (currentIndex s)
                       (collect (editable_inputs (metadataContainer s)))) s)))).
Proof.
  intros Hresp Hok. unfold saveMetadata. rewrite Hresp, Hok.
  destruct (truthy_opt (sv_message result)); reflexivity.
Qed.

(** X11. [save] never writes the form, [currentMetadata] or the index,
    whatever the server answers.  A failure, reported or thrown, is
    alerted after the request and leaves the button as it is.  A success is
    not alerted: the button shows the confirmation and a 3000 ms timer is
    set that carries the label the button had; when that timer fires the
    label is back and the background cleared. *)
Theorem saveMetadata_outcomes (w : World) (s : App) :
  let payload := collect (editable_inputs (metadataContainer s)) in
  let outcome := save_metadata w (tick s) (currentIndex s) payload in
  let s' := saveMetadata w s in
  metadataContainer s' = metadataContainer s /\
  currentMetadata s' = currentMetadata s /\
  currentIndex s' = currentIndex s /\
  (forall message, outcome = Threw message ->
     text s' saveBtn = text s saveBtn /\
     log s' = log s ++ [Fetch (PostSaveMetadata (currentIndex s) payload);
                        Alert (js "Error saving metadata: " ++ message)]) /\
  (forall result, outcome = Got result -> sv_success result = false ->
     text s' saveBtn = text s saveBtn /\
     log s' = log s ++ [Fetch (PostSaveMetadata (currentIndex s) payload);
                        Alert (js "Failed to save metadata: "
                               ++ (if truthy_opt (sv_error result)
                                   then show (sv_error result)
                                   else js "Unknown error"))]) /\
  (forall result, outcome = Got result -> sv_success result = true ->
     text s' saveBtn = js "Saved to File & EXIF!" /\
     saveBtnBackground s' = js "#4CAF50" /\
     (forall message, Alert message ∉ emitted s s') /\
     last (log s') = Some (SetTimeout 3000 (text s saveBtn)) /\
     text (timeout_saveBtn (text s saveBtn) s') saveBtn = text s saveBtn /\
     saveBtnBackground (timeout_saveBtn (text s saveBtn) s') = []).
Proof.
  intros payload outcome s'.
  split; [|split; [|split]].
  1-3: subst s'; cbv beta delta [saveMetadata]; frame.
  subst s' outcome payload. split; [|split].
  - intros message Hresp. unfold saveMetadata. rewrite Hresp. prims.
    split; [reflexivity|]. by rewrite <- app_assoc.
  - intros result Hresp Hfail. unfold saveMetadata. rewrite Hresp, Hfail.
    prims. split; [reflexivity|]. by rewrite <- app_assoc.
  - intros result Hresp Hok.
    rewrite (saveMetadata_success w s result Hresp Hok). unfold emitted.
    destruct (truthy_opt (sv_message result)); prims;
      rewrite <- ?app_assoc, drop_app_length, last_app; cbn [last app];
      (do 2 (split; [reflexivity|])); (split; [|by repeat split]);
      intros message Hin; rewrite !elem_of_cons in Hin;
      by destruct Hin as [?|[?|[?|[]%elem_of_nil]]] || 
         destruct Hin as [?|[?|[]%elem_of_nil]].
Qed.

Lemma saveMetadata_outcomes_witness :
  let w := example_world 3 example_metadata in
  let s := example_loaded in
  let result := {| sv_success := true; sv_message := None; sv_error := None |} in
  save_metadata w (tick s) (currentIndex s)
    (collect (editable_inputs (metadataContainer s))) = Got result /\
  sv_success result = true /\
  text (saveMetadata w s) saveBtn = js "Saved to File & EXIF!" /\
  text (timeout_saveBtn (text s saveBtn) (saveMetadata w s)) saveBtn = text s saveBtn.
Proof.
  intros w s result.
  split; [reflexivity|]. split; [reflexivity|].
  destruct (saveMetadata_outcomes w s) as (_ & _ & _ & _ & _ & Hsuccess).
  destruct (Hsuccess result eq_refl eq_refl) as (Hlabel & _ & _ & _ & Hback & _).
  split; [exact Hlabel | exact Hback].
Defined.

(** X12. A second successful save made before the timer of the first has
    fired takes the confirmation for the label of the button: the timer it
    sets carries ["Saved to File & EXIF!"], so once both timers have fired
    the button still shows the confirmation, not the label it had. *)
Theorem saveMetadata_twice (w : World) (s : App) (r1 r2 : SaveResult) :
  let s1 := saveMetadata w s in
  let s2 := saveMetadata w s1 in
  save_metadata w (tick s) (currentIndex s)
    (collect (editable_inputs (metadataContainer s))) = Got r1 ->
  sv_success r1 = true ->
  save_metadata w (tick s1) (currentIndex s1)
    (collect (editable_inputs (metadataContainer s1))) = Got r2 ->
  sv_success r2 = true ->
  last (log s1) = Some (SetTimeout 3000 (text s saveBtn)) /\
  last (log s2) = Some (SetTimeout 3000 (js "Saved to File & EXIF!")) /\
  text (timeout_saveBtn (js "Saved to File & EXIF!")
          (timeout_saveBtn (text s saveBtn) s2)) saveBtn
    = js "Saved to File & EXIF!".
Proof.
  intros s1 s2 Hr1 Hok1 Hr2 Hok2.
  assert (text s1 saveBtn = js "Saved to File & EXIF!") as Hlabel.
  { subst s1. rewrite (saveMetadata_success w s r1 Hr1 Hok1).
    by destruct (truthy_opt (sv_message r1)). }
  assert (forall s0 r, 
            save_metadata w (tick s0) (currentIndex s0)
              (collect (editable_inputs (metadataContainer s0))) = Got r ->
            sv_success r = true ->
            last (log (saveMetadata w s0)) = Some (SetTimeout 3000 (text s0 saveBtn)))
    as Hlast.
  { intros s0 r Hr Hok. rewrite (saveMetadata_success w s0 r Hr Hok).
    unfold effect. prims. apply last_snoc. }
  split; [by eapply Hlast|]. split; [|reflexivity].
  subst s2. rewrite (Hlast s1 r2 Hr2 Hok2). by rewrite Hlabel.
Qed.

Lemma saveMetadata_twice_witness :
  let w := example_world 3 example_metadata in
  let s := example_loaded in
  let result := {| sv_success := true; sv_message := None; sv_error := None |} in
  save_metadata w (tick s) (currentIndex s)
    (collect (editable_inputs (metadataContainer s))) = Got result /\
  sv_success result = true /\
  last (log (saveMetadata w (saveMetadata w s)))
    = Some (SetTimeout 3000 (js "Saved to File & EXIF!")).
Proof.
  intros w s result.
  split; [reflexivity|]. split; [reflexivity|].
  destruct (saveMetadata_twice w s result result eq_refl eq_refl eq_refl eq_refl)
    as (_ & Hsecond & _).
  exact Hsecond.
Defined.

(** ** Folder browser *)

(** X13. Listing a directory.  A path that is not well-formed UTF-16
    cannot be encoded into the address: nothing is requested, the tree and
    the recorded path stay and the error is alerted.  Otherwise the listing
    is requested.  On success the tree is replaced by one entry per item of
    the response, in order, none of them highlighted, and the listed path
    is recorded; on a failure, reported or thrown, the tree and the
    recorded path stay and the failure is alerted.  In all cases the
    pending selection and the state of the confirm button are kept: after a
    listing the folder picked in the previous listing can still be
    confirmed although no entry is highlighted. *)
Theorem browseTo_spec (w : World) (path : option jsstring) (s : App) :
  let query := if truthy_opt path then path else None in
  let encodable := from_option isWellFormed true query in
  let outcome := browse_folders w (tick s) query in
  let s' := browseTo w path s in
  selectedFolderPath s' = selectedFolderPath s /\
  disabled s' = disabled s /\
  (encodable = false ->
     folderTree s' = folderTree s /\
     currentBrowserPath s' = currentBrowserPath s /\
     log s' = log s ++ [Alert (js "Error: " ++ uri_malformed w)]) /\
  (encodable = true ->
   forall result, outcome = Got result -> br_success result = true ->
     item <$> folderTree s' = items result /\
     Forall (fun d => selected d = false) (folderTree s') /\
     currentBrowserPath s' = Some (current_path result) /\
     text s' currentPath = current_path result /\
     log s' = log s ++ [Fetch (GetBrowseFolders query)]) /\
  (encodable = true ->
   match outcome with
   | Threw _ => True
   | Got result => br_success result = false
   end ->
   folderTree s' = folderTree s /\
   currentBrowserPath s' = currentBrowserPath s /\
   exists message,
     log s' = log s ++ [Fetch (GetBrowseFolders query); Alert message]).
Proof.
  intros query encodable outcome s'.
  split; [|split]; [subst s'; cbv beta delta [browseTo]; frame..|].
  subst s' outcome encodable. unfold browseTo. fold query.
  split; [|split].
  - intros ->. cbn [negb]. by prims.
  - intros -> result -> ->. cbn [negb]. prims.
    split; [|split; [|by repeat split]].
    + rewrite <- list_fmap_compose. rewrite <- (list_fmap_id (items result)) at 2.
      by apply list_fmap_ext.
    + apply Forall_fmap, Forall_forall. by intros.
  - intros ->. cbn [negb].
    destruct (browse_folders w (tick s) query) as [message|result].
    + intros _. prims. do 2 (split; [reflexivity|]).
      eexists. rewrite <- app_assoc. reflexivity.
    + intros ->. prims. do 2 (split; [reflexivity|]).
      eexists. rewrite <- app_assoc. reflexivity.
Qed.

Lemma browseTo_spec_witness :
  let s := selectFolder 0 (js "/photos") example_start in
  (folderTree (browseTo failing_world (Some (js "/")) s) = folderTree s /\
   selectedFolderPath (browseTo failing_world (Some (js "/")) s)
     = Some (js "/photos")) /\
  log (browseTo failing_world (Some [47; 55357]%N) s)
    = log s ++ [Alert (js "Error: URI malformed")].
Proof.
  intros s. split.
  - destruct (browseTo_spec failing_world (Some (js "/")) s)
      as (Hpending & _ & _ & _ & Hfail).
    destruct (Hfail eq_refl eq_refl) as (Htree & _).
    split; [exact Htree|]. rewrite Hpending. reflexivity.
  - destruct (browseTo_spec failing_world (Some [47; 55357]%N) s)
      as (_ & _ & Hmalformed & _).
    destruct (Hmalformed eq_refl) as (_ & _ & Hlog). exact Hlog.
Defined.

Lemma log_loadFolder_request (w : World) (s : App) :
  truthy (text s selectedPath) = true ->
  text s selectedPath <> js "No folder selected" ->
  exists rest,
    log (loadFolder w s) =
    log s ++ ConsoleLog (js "Interface reset for new folder")
          :: Fetch (PostLoadFolder (text s selectedPath)) :: rest.
Proof.
  intros Hpath Hsel. unfold loadFolder.
  rewrite Hpath, bool_decide_eq_false_2 by done. cbn [negb orb]. prims.
  destruct (load_folder w (tick s) (text s selectedPath)) as [message|result].
  { eexists. prims. rewrite <- !app_assoc. reflexivity. }
  destruct (lf_success result).
  2:{ eexists. prims. rewrite <- !app_assoc. reflexivity. }
  prims. destruct (0 <? count result).
  2:{ eexists. prims. rewrite <- !app_assoc. reflexivity. }
  match goal with
  | |- context [loadCurrentImage w ?s0] =>
      destruct (log_loadCurrentImage_prefix w s0) as [rest ->]
  end.
  eexists. prims. rewrite <- !app_assoc. reflexivity.
Qed.

(** X14. Picking a folder, confirming and loading.  A click on a
    directory entry of the tree that is not the parent link, then on the
    confirm button, commits the path of that entry: it is shown as the
    selected path, the load button is enabled, the browser is closed and the
    pending selection cleared.  A click on the load button then asks the
    server for exactly that path. *)
Theorem pick_confirm_load (w : World) (s : App) (n : nat) (d : FolderItemDiv) :
  folderTree s !! n = Some d ->
  is_dir (item d) = true ->
  it_type (item d) <> js "parent" ->
  truthy (it_path (item d)) = true ->
  it_path (item d) <> js "No folder selected" ->
  let s' := run w [Click_folderItem n; Click_selectFolderBtn] s in
  text s' selectedPath = it_path (item d) /\
  disabled s' loadFolderBtn = false /\
  classList s' folderBrowserModal hidden = true /\
  selectedFolderPath s' = None /\
  log s' = log s /\
  exists rest,
    log (step w Click_loadFolder s') =
    log s ++ ConsoleLog (js "Interface reset for new folder")
          :: Fetch (PostLoadFolder (it_path (item d))) :: rest.
Proof.
  intros Hd Hdir Htype Hpath Hsel s'.
  assert (s' = hideFolderBrowser
                 (setDisabled loadFolderBtn false
                    (setText selectedPath (it_path (item d))
                       (selectFolder n (it_path (item d)) s)))) as ->.
  { subst s'. cbn [run fold_left step]. unfold click_folderItem.
    rewrite Hd, Hdir, bool_decide_eq_false_2 by done.
    unfold click.
    assert (disabled (selectFolder n (it_path (item d)) s) selectFolderBtn = false)
      as -> by reflexivity.
    unfold selectCurrentFolder.
    assert (selectedFolderPath (selectFolder n (it_path (item d)) s)
            = Some (it_path (item d))) as -> by reflexivity.
    by rewrite Hpath. }
  do 5 (split; [reflexivity|]).
  cbn [step]. unfold click.
  match goal with
  | |- context [if disabled ?s0 loadFolderBtn then _ else _] =>
      assert (disabled s0 loadFolderBtn = false) as -> by reflexivity;
      destruct (log_loadFolder_request w s0) as [rest Hlog]; [done..|]
  end.
  exists rest. exact Hlog.
Qed.

Lemma pick_confirm_load_witness :
  text (run failing_world [Click_folderItem 0; Click_selectFolderBtn] example_browsing)
    selectedPath = js "/photos/trip".
Proof.
  destruct (pick_confirm_load failing_world example_browsing 0
              {| item := {| it_name := js "trip"; it_path := js "/photos/trip";
                            it_type := js "directory"; is_dir := true;
                            image_count := Some 3 |};
                 icon := [55357; 56513]%N;
                 image_count_text := Some (js "3 images");
                 selected := false |})
    as (Hpath & _); [vm_compute; reflexivity | reflexivity | | reflexivity | | exact Hpath];
    vm_compute; discriminate.
Defined.

(** ** Values written into the form *)

Lemma values_edited_refl (names : list jsstring) (form : list FieldDiv) :
  values_edited names form form.
Proof. apply Forall2_same_length_lookup_2; [done|]. intros i f f' ? ?. by simplify_eq. Qed.

Lemma values_edited_trans (names : list jsstring) (a b c : list FieldDiv) :
  values_edited names a b -> values_edited names b c -> values_edited names a c.
Proof.
  unfold values_edited. intros Hab. revert c.
  induction Hab as [|f g a b (Hl & Hr & Hd & Hv) _ IH]; intros c Hbc.
  - by inversion Hbc.
  - inversion Hbc as [|? h ? c' (Hl' & Hr' & Hd' & Hv') Hbc']; subst.
    constructor; [|by apply IH].
    repeat split; [congruence..|].
    intros Hn. rewrite Hv' by (by rewrite Hl). by apply Hv.
Qed.

Lemma values_edited_set_first_value
    (names : list jsstring) (field v : jsstring) (form : list FieldDiv) :
  field ∈ names -> values_edited names form (set_first_value field v form).
Proof.
  intros Hin. induction form as [|f r IH]; [constructor|].
  unfold set_first_value; fold set_first_value.
  destruct (decide (label f = field)) as [Heq|Hne].
  - constructor; [|apply values_edited_refl].
    cbn. repeat split. intros Hn. by rewrite Heq in Hn.
  - constructor; [done|exact IH].
Qed.

Lemma values_edited_app (names : list jsstring) (a b c : list FieldDiv) :
  values_edited names a b -> values_edited names (a ++ c) (b ++ c).
Proof. intros H. apply Forall2_app; [exact H|apply values_edited_refl]. Qed.

Lemma set_first_value_app (field v : jsstring) (a c : list FieldDiv) :
  field ∉ label <$> c ->
  exists a', set_first_value field v (a ++ c) = a' ++ c /\
             values_edited [field] a a'.
Proof.
  intros Hc. induction a as [|f r (a' & Heq & Hed)].
  - exists []. split; [|constructor]. cbn [app].
    induction c as [|g c IH]; [done|].
    unfold set_first_value; fold set_first_value.
    rewrite fmap_cons, not_elem_of_cons in Hc. destruct Hc as [Hg Hc].
    rewrite decide_False by done. by rewrite IH.
  - cbn [app]. unfold set_first_value; fold set_first_value.
    destruct (decide (label f = field)) as [Hf|Hf].
    + eexists (_ :: r). split; [reflexivity|].
      constructor; [|apply values_edited_refl].
      cbn. repeat split. intros Hn. rewrite Hf in Hn. by apply not_elem_of_cons in Hn as [? _].
    + exists (f :: a'). split; [by rewrite Heq|]. by constructor.
Qed.

Lemma values_edited_weaken (names names' : list jsstring) (a b : list FieldDiv) :
  names ⊆ names' -> values_edited names a b -> values_edited names' a b.
Proof.
  intros Hsub H. eapply Forall2_impl; [exact H|]. intros f f' (? & ? & ? & Hv).
  repeat split; [done..|]. intros Hn. apply Hv. intros Hin. by apply Hn, Hsub.
Qed.

Lemma values_edited_extract_field
    (field : jsstring) (footerData : Metadata) (form : list FieldDiv)
    (acc : list FieldDiv * list jsstring) :
  field ∈ footer_keys ->
  values_edited footer_keys form acc.1 ->
  values_edited footer_keys form (extract_field field footerData acc).1.
Proof.
  intros Hin Hacc. destruct acc as [form' updated]. unfold extract_field.
  destruct (get field footerData) as [v|]; [|done].
  destruct (truthy v); [|done].
  destruct (querySelector field form'); [|done].
  cbn [fst]. eapply values_edited_trans; [exact Hacc|].
  by apply values_edited_set_first_value.
Qed.

Lemma values_edited_extractFooterDataSilent (w : World) (s : App) :
  values_edited footer_keys (metadataContainer s)
    (metadataContainer (extractFooterDataSilent w s)).
Proof.
  unfold extractFooterDataSilent; cbv zeta.
  destruct (totalImages s =? 0); [apply values_edited_refl|].
  set (s1 := addDebugOutput w _ s).
  assert (metadataContainer (fetch (GetExtractFooter (currentIndex s1)) s1)
          = metadataContainer s) as Hform
    by (subst s1; prims; apply metadataContainer_addDebugOutput).
  destruct (extract_footer w _ _) as [message|result];
    [rewrite metadataContainer_addDebugOutput, Hform; apply values_edited_refl|].
  destruct (ft_success result);
    [|rewrite metadataContainer_addDebugOutput, Hform; apply values_edited_refl].
  destruct (0 <? length (keys (footer_metadata result)))%nat;
    [|rewrite metadataContainer_addDebugOutput, Hform; apply values_edited_refl].
  rewrite Hform.
  match goal with
  | |- values_edited _ _ (metadataContainer ?t) =>
      assert (metadataContainer t =
              (extract_field (js "Camera_ID") (footer_metadata result)
                 (extract_field (js "Temperature_F") (footer_metadata result)
                    (extract_field (js "Temperature_C") (footer_metadata result)
                       (metadataContainer s, [])))).1) as ->
  end.
  { repeat match goal with
           | |- context [if ?c then _ else _] => destruct c
           end;
      rewrite ?metadataContainer_addDebugOutput; reflexivity. }
  repeat apply values_edited_extract_field;
    [apply (bool_decide_unpack _); vm_compute; exact I..|].
  apply values_edited_refl.
Qed.

(** X15. The silent footer extraction.  With no folder loaded it does
    nothing.  Otherwise it never alerts (its outcome goes to the debug log
    only), keeps every field of the form with its label and flags, in the
    same order, changes no value other than those of the fields labelled
    [Temperature_C], [Temperature_F] and [Camera_ID], and does not write the
    extracted values into [currentMetadata]. *)
Theorem extractFooterDataSilent_form (w : World) (s : App) :
  let s' := extractFooterDataSilent w s in
  (totalImages s = 0 -> s' = s) /\
  (forall message, Alert message ∉ emitted s s') /\
  values_edited footer_keys (metadataContainer s) (metadataContainer s') /\
  currentMetadata s' = currentMetadata s.
Proof.
  intros s'. subst s'. split; [|split; [|split]].
  - intros H0. unfold extractFooterDataSilent. by rewrite H0.
  - intros message. unfold emitted. rewrite log_extractFooterDataSilent.
    rewrite drop_app_length. destruct (totalImages s =? 0).
    + apply not_elem_of_nil.
    + intros Hin. apply list_elem_of_singleton in Hin. discriminate.
  - apply values_edited_extractFooterDataSilent.
  - apply currentMetadata_extractFooterDataSilent.
Qed.
Lemma createMetadataField_form (l v : jsstring) (s : App) :
  metadataContainer (createMetadataField l v false s) =
  metadataContainer s ++
    [{| label := l; value := sanitize v; readOnly := false;
        deleteBtn := negb (isCommonField l) |}].
Proof. reflexivity. Qed.

Lemma values_edited_labels (names : list jsstring) (a b : list FieldDiv) :
  values_edited names a b -> label <$> b = label <$> a.
Proof.
  induction 1 as [|f g a b (Hl & _) _ IH]; [done|].
  rewrite !fmap_cons. by f_equal.
Qed.

(** X16. The form after an identification.  The fields shown before
    are all kept, in order, with their labels and flags, and only values of
    fields labelled [Species], [Count] or [Notes] may change; one editable,
    deletable field is appended for each of the confidence, the scientific
    name and the habitat that the answer carries, whether or not a field of
    that name is already shown: the labels of the form are the old ones
    followed by the new ones, so a second identification shows them twice. *)
Theorem handleIdentificationResult_form (idn : Identification) (s : App) :
  let s' := handleIdentificationResult idn s in
  form_labels s' = form_labels s ++ identification_labels idn /\
  exists old added,
    metadataContainer s' = old ++ added /\
    values_edited identification_inputs (metadataContainer s) old /\
    label <$> added = identification_labels idn /\
    Forall (fun f => readOnly f = false /\ deleteBtn f = true) added.
Proof.
  intros s'.
  enough (exists old added,
    metadataContainer s' = old ++ added /\
    values_edited identification_inputs (metadataContainer s) old /\
    label <$> added = identification_labels idn /\
    Forall (fun f => readOnly f = false /\ deleteBtn f = true) added)
    as (old & added & Hform & Hold & Hlab & Hflags).
  { split; [|by exists old, added].
    unfold form_labels. rewrite Hform, fmap_app, Hlab.
    by rewrite (values_edited_labels _ _ _ Hold). }
  subst s'. unfold handleIdentificationResult; cbv zeta.
  set (s1 := if _ && _ && _ then _ else s).
  set (s2 := match id_count idn with Some _ => _ | None => s1 end).
  set (s3 := if truthy_opt (confidence idn) then _ else s2).
  set (s4 := if truthy_opt (scientific_name idn) then _ else s3).
  set (s5 := if truthy_opt (habitat idn) then _ else s4).
  assert (values_edited identification_inputs (metadataContainer s)
            (metadataContainer s1)) as H1.
  { unfold s1. destruct (_ && _ && _); [|apply values_edited_refl].
    apply values_edited_set_first_value.
    apply (bool_decide_unpack _); vm_compute; exact I. }
  assert (values_edited identification_inputs (metadataContainer s)
            (metadataContainer s2)) as H2.
  { unfold s2. destruct (id_count idn) as [n|]; [|exact H1].
    destruct (bool_decide _ && (0 <? n)); [|exact H1].
    eapply values_edited_trans; [exact H1|].
    apply values_edited_set_first_value.
    apply (bool_decide_unpack _); vm_compute; exact I. }
  clearbody s2. clear s1 H1.
  assert (exists added,
            metadataContainer s5 = metadataContainer s2 ++ added /\
            label <$> added = identification_labels idn /\
            Forall (fun f => readOnly f = false /\ deleteBtn f = true) added)
    as (added & H5 & Hlab & Hflags).
  { unfold s5, s4, s3, identification_labels.
    destruct (truthy_opt (confidence idn)),
             (truthy_opt (scientific_name idn)),
             (truthy_opt (habitat idn));
      rewrite ?createMetadataField_form, <- ?app_assoc;
      eexists; (split; [try reflexivity; symmetry; apply app_nil_r|]);
      split; try reflexivity; repeat constructor. }
  clearbody s5. clear s3 s4.
  assert (js "Notes" ∉ label <$> added) as Hnotes.
  { rewrite Hlab. unfold identification_labels.
    destruct (truthy_opt (confidence idn)),
             (truthy_opt (scientific_name idn)),
             (truthy_opt (habitat idn));
      apply (bool_decide_unpack _); vm_compute; exact I. }
  destruct (truthy_opt (description idn)); [|by exists (metadataContainer s2), added].
  destruct (querySelector (js "Notes") (metadataContainer s5)) as [notesInput|];
    [|by exists (metadataContainer s2), added].
  match goal with
  | |- context [set_first_value (js "Notes") ?v (metadataContainer s5)] =>
      destruct (set_first_value_app (js "Notes") v (metadataContainer s2) added Hnotes)
        as (old & Heq & Hold)
  end.
  exists old, added. split; [|split; [|by split]].
  - rewrite H5. exact Heq.
  - eapply values_edited_trans; [exact H2|].
    eapply values_edited_weaken; [|exact Hold].
    intros x Hx. apply list_elem_of_singleton in Hx as ->.
    apply (bool_decide_unpack _); vm_compute; exact I.
Qed.

(** ** Selection box *)

(** X17. A drag gesture.  In identify mode, after the pointer went down at
    one position and moved to another, the anchor is the position of the
    mouse-down in the wrapper, and the box is displayed with its corner at
    the smaller coordinate on each axis and with the width and height that
    a release at that position will measure; nothing is emitted and the
    mode stays on.  A release there cancels the selection when the box
    shown is less than 20 wide or high, and otherwise requests the
    identification of the rectangle of the drag. *)
Theorem drag_box (w : World) (s : App) (e0 e1 : MouseEvent) (l : Layout) :
  isSelecting s = true ->
  let s' := run w [Mousedown e0 l; Mousemove e1 l] s in
  let box := selectionBox s' in
  let anchor :=
    {| pt_x := sub (clientX e0) (wrapperRect_left l);
       pt_y := sub (clientY e0) (wrapperRect_top l) |} in
  selectionStart s' = Some anchor /\
  display box = js "block" /\
  box_left box = Math_min (pt_x anchor) (sub (clientX e1) (wrapperRect_left l)) /\
  box_top box = Math_min (pt_y anchor) (sub (clientY e1) (wrapperRect_top l)) /\
  box_width box = drag_width anchor e1 l /\
  box_height box = drag_height anchor e1 l /\
  isSelecting s' = true /\
  log s' = log s /\
  (ltb (box_width box) 20 = true \/ ltb (box_height box) 20 = true ->
   step w (Mouseup e1 l) s' = cancelIdentifyMode s') /\
  (ltb (box_width box) 20 = false /\ ltb (box_height box) 20 = false ->
   exists message,
     log (step w (Mouseup e1 l) s') =
     log s ++ [Fetch (PostIdentifySpecies (currentIndex s) (natural_rect anchor e1 l));
               Alert message]).
Proof.
  intros Hsel s' box anchor.
  assert (s' = set_selectionBox
                 {| display := js "block";
                    box_left := Math_min (pt_x anchor) (sub (clientX e1) (wrapperRect_left l));
                    box_top := Math_min (pt_y anchor) (sub (clientY e1) (wrapperRect_top l));
                    box_width := drag_width anchor e1 l;
                    box_height := drag_height anchor e1 l |}
                 (set_selectionStart (Some anchor) s)) as Hs'.
  { subst s'. cbn [run fold_left step]. unfold startSelection.
    rewrite Hsel. cbn [negb]. cbv zeta. unfold updateSelection.
    cbn [selectionStart set_selectionBox set_selectionStart isSelecting].
    rewrite Hsel. reflexivity. }
  subst box. rewrite Hs'.
  do 8 (split; [first [reflexivity | exact Hsel]|]).
  cbn [selectionBox set_selectionBox box_width box_height step].
  unfold endSelection.
  cbn [selectionStart set_selectionBox set_selectionStart isSelecting].
  rewrite Hsel. cbn [negb]. cbv zeta.
  change (Math_abs (sub (sub (clientX e1) (wrapperRect_left l)) (pt_x anchor)))
    with (drag_width anchor e1 l).
  change (Math_abs (sub (sub (clientY e1) (wrapperRect_top l)) (pt_y anchor)))
    with (drag_height anchor e1 l).
  split.
  - intros Hsmall.
    assert (ltb (drag_width anchor e1 l) 20 || ltb (drag_height anchor e1 l) 20 = true)
      as -> by (by apply orb_true_iff).
    reflexivity.
  - intros [Hwide Hhigh]. rewrite Hwide, Hhigh. cbn [orb].
    match goal with
    | |- context [identifySpecies w (set_currentSelection (Some ?r) ?s0)] =>
        destruct (log_identifySpecies w (set_currentSelection (Some r) s0) r)
          as [message Hlog]; [done|]; exists message
    end.
    exact Hlog.
Qed.

Lemma drag_box_witness :
  let w := example_world 3 example_metadata in
  let s' := run w [Mousedown {| clientX := 40; clientY := 50 |} example_layout;
                   Mousemove {| clientX := 10; clientY := 10 |} example_layout]
              (startIdentifyMode example_loaded) in
  box_left (selectionBox s') = 10%float /\
  box_width (selectionBox s') = 30%float /\
  exists message,
    log (step w (Mouseup {| clientX := 10; clientY := 10 |} example_layout) s') =
    log (startIdentifyMode example_loaded)
      ++ [Fetch (PostIdentifySpecies 0
                   {| x := 20; y := 20; width := 60; height := 80 |});
          Alert message].
Proof.
  intros w s'.
  destruct (drag_box w (startIdentifyMode example_loaded)
              {| clientX := 40; clientY := 50 |} {| clientX := 10; clientY := 10 |}
              example_layout eq_refl)
    as (_ & _ & Hleft & _ & Hwidth & _ & _ & _ & _ & Hrequest).
  split; [exact Hleft|]. split; [exact Hwidth|].
  destruct Hrequest as [message Hlog]; [split; vm_compute; reflexivity|].
  exists message. exact Hlog.
Defined.

(** X18. A successful image load.  The mapping of the response becomes
    [currentMetadata].  When it has no key named [hasOwnProperty] the form
    is rendered afresh from it, whatever it held before: unsaved edits and
    fields added by hand or by an identification are dropped, and only
    values of the three footer fields may then be filled in by the
    extraction; nothing is alerted.  When it has such a key the rendering
    throws: the form holds the fields of the entries only, the footer is
    not looked at and the error is alerted.  In both cases the first and
    previous buttons are disabled exactly at index 0, the next and last
    buttons exactly at the last index. *)
Theorem loadCurrentImage_success (w : World) (s : App) (imageData : ImageData) :
  image w (tick s) (currentIndex s) = Got imageData ->
  truthy_opt (img_error imageData) = false ->
  let s' := loadCurrentImage w s in
  let m := default [] (metadata imageData) in
  currentMetadata s' = m /\
  disabled s' firstBtn = (currentIndex s =? 0) /\
  disabled s' prevBtn = (currentIndex s =? 0) /\
  disabled s' nextBtn = (currentIndex s =? totalImages s - 1) /\
  disabled s' lastBtn = (currentIndex s =? totalImages s - 1) /\
  (~ shadowed m ->
     values_edited footer_keys
       (map entry_field m
        ++ map empty_field (filter (fun field => field ∉ keys m) commonFields))
       (metadataContainer s') /\
     (forall message, Alert message ∉ emitted s s')) /\
  (shadowed m ->
     metadataContainer s' = map entry_field m /\
     emitted s s' = [Fetch (GetImage (currentIndex s));
                     Alert (js "Error loading image: " ++ not_a_function w)]).
Proof.
  intros Hresp Herr s' m.
  assert (~ shadowed m -> forall message, Alert message ∉ emitted s s') as Hquiet.
  { intros Hm message. subst s'. unfold emitted.
    rewrite (log_loadCurrentImage_success w s imageData Hresp Herr Hm).
    rewrite drop_app_length. cbv zeta.
    destruct (negb _ || negb _ || negb _); [destruct (totalImages s =? 0)|];
      intros Hin; repeat (apply elem_of_cons in Hin as [Hin|Hin]; [discriminate|]);
      by apply elem_of_nil in Hin. }
  assert (shadowed m ->
          emitted s s' = [Fetch (GetImage (currentIndex s));
                          Alert (js "Error loading image: " ++ not_a_function w)])
    as Hloud.
  { intros Hm. subst s'. unfold emitted.
    rewrite (log_loadCurrentImage_shadowed w s imageData Hresp Herr Hm).
    by rewrite drop_app_length. }
  enough (currentMetadata s' = m /\
          (disabled s' firstBtn = (currentIndex s =? 0) /\
           disabled s' prevBtn = (currentIndex s =? 0) /\
           disabled s' nextBtn = (currentIndex s =? totalImages s - 1) /\
           disabled s' lastBtn = (currentIndex s =? totalImages s - 1)) /\
          (~ shadowed m ->
           values_edited footer_keys
             (map entry_field m
              ++ map empty_field (filter (fun field => field ∉ keys m) commonFields))
             (metadataContainer s')) /\
          (shadowed m -> metadataContainer s' = map entry_field m))
    as (? & (? & ? & ? & ?) & Hfree & Hshadow).
  { do 5 (split; [assumption|]). split.
    - intros Hm. split; [by apply Hfree | by apply Hquiet].
    - intros Hm. split; [by apply Hshadow | by apply Hloud]. }
  clear Hquiet Hloud. subst s'.
  rewrite (loadCurrentImage_received w s imageData Hresp Herr). cbv zeta.
  set (s0 := received w imageData s).
  assert (currentMetadata s0 = m) as Hmd by reflexivity.
  assert (disabled s0 firstBtn = (currentIndex s =? 0) /\
          disabled s0 prevBtn = (currentIndex s =? 0) /\
          disabled s0 nextBtn = (currentIndex s =? totalImages s - 1) /\
          disabled s0 lastBtn = (currentIndex s =? totalImages s - 1)) as Hnav
    by (by repeat split).
  clearbody s0.
  destruct (decide (shadowed m)) as [Hm|Hm].
  - destruct (displayMetadata_throw w s0) as [Hthrown Hform]; [by rewrite Hmd|].
    rewrite Hthrown. rewrite Hmd in Hform.
    unfold loadCurrentImage_catch.
    rewrite (alert_frame currentMetadata), (alert_frame disabled),
      (alert_frame metadataContainer) by done.
    rewrite currentMetadata_addDebugOutput, disabled_addDebugOutput,
      metadataContainer_addDebugOutput.
    rewrite currentMetadata_displayMetadata, disabled_displayMetadata.
    split; [exact Hmd|]. split; [exact Hnav|]. split; [done|].
    intros _. exact Hform.
  - destruct (displayMetadata_normal w s0) as [Hthrown Hform]; [by rewrite Hmd|].
    rewrite Hthrown. rewrite Hmd in Hform. rewrite currentMetadata_displayMetadata.
    destruct (negb _ || negb _ || negb _).
    + rewrite currentMetadata_extractFooterDataSilent,
        disabled_extractFooterDataSilent.
      rewrite !currentMetadata_addDebugOutput, !disabled_addDebugOutput.
      rewrite currentMetadata_displayMetadata, disabled_displayMetadata.
      split; [exact Hmd|]. split; [exact Hnav|]. split; [|done].
      intros _. rewrite <- Hform.
      eapply values_edited_trans; [|apply values_edited_extractFooterDataSilent].
      rewrite !metadataContainer_addDebugOutput. apply values_edited_refl.
    + rewrite currentMetadata_addDebugOutput, disabled_addDebugOutput,
        metadataContainer_addDebugOutput.
      rewrite currentMetadata_displayMetadata, disabled_displayMetadata.
      split; [exact Hmd|]. split; [exact Hnav|]. split; [|done].
      intros _. rewrite Hform. apply values_edited_refl.
Qed.

Lemma loadCurrentImage_success_witness :
  currentMetadata (loadCurrentImage (example_world 3 example_metadata) example_emptied)
  = example_metadata.
Proof.
  destruct (loadCurrentImage_success (example_world 3 example_metadata)
              example_emptied
              {| img_error := None; filename := js "IMG_0001.JPG";
                 dimensions := js "640x480"; size_mb := js "1.2";
                 index := 0; total := 3; metadata := Some example_metadata |})
    as (Hmd & _); [vm_compute; reflexivity..|exact Hmd].
Defined.
